(** * Keepitbased: market-data normalisation and technical indicators

    A shallow embedding of
      - [kraken_api_provider.py]  (class [KrakenDataProvider]), and
      - [python-service/stock_service.py]  (cache helpers, history and
        technical-indicator endpoints),
    followed by the properties of the specification that were checked
    against it.

    Modelling conventions.
      - A Python value is a [Py.pyval]; a [dict] with string keys is a
        [gmap string pyval].
      - A Python [float] that the program reads from a payload is a finite
        rational ([Q]): arithmetic on finite values is exact, rounding is
        not modelled.  A cell of a pandas [float64] series is a
        [Pandas.cell], which adds [NaN] and the two infinities; zero has
        no sign.
      - A raised exception is [Py.Raise]; [try: ... except Exception:] is
        [Py.try_except].  Functions that read the wall clock or a store
        thread a state ([Py.M]).
      - [logger] calls only write to the log handlers and are left out.
      - pandas is a library, not part of the repository: [rolling(w).mean()]
        and [ewm(span=s).mean()] follow the algorithms pandas runs (window
        sum with add/remove; the weighted recurrence with the default
        [adjust=True]). *)

From Stdlib Require Import ZArith QArith Qfield Lia List String Ascii Sorted.
From stdpp Require Import base option list gmap strings.

Set Warnings "-register-all".
Local Open Scope Z_scope.

(** ** Python values, exceptions and the few builtins the program uses *)

Module Py.

Inductive exn : Type :=
  | KeyError | IndexError | TypeError | ValueError | RuntimeError.

Inductive res (A : Type) : Type :=
  | Ok (a : A)
  | Raise (e : exn).
Arguments Ok {A} a.
Arguments Raise {A} e.

Definition rbind {A B} (r : res A) (k : A -> res B) : res B :=
  match r with
  | Ok a => k a
  | Raise e => Raise e
  end.

(** State and exceptions: the state survives a raise. *)
Definition M (St A : Type) : Type := St -> res A * St.

Definition ret {St A} (a : A) : M St A := fun s => (Ok a, s).

Definition bind {St A B} (m : M St A) (k : A -> M St B) : M St B :=
  fun s =>
    match m s with
    | (Ok a, s') => k a s'
    | (Raise e, s') => (Raise e, s')
    end.

Definition lift {St A} (r : res A) : M St A := fun s => (r, s).

Definition raise {St A} (e : exn) : M St A := lift (Raise e).

(** [try: body except Exception as e: handler e] *)
Definition try_except {St A} (body : M St A) (handler : exn -> M St A)
  : M St A :=
  fun s =>
    match body s with
    | (Ok a, s') => (Ok a, s')
    | (Raise e, s') => handler e s'
    end.

Inductive pyval : Type :=
  | PNone
  | PBool (b : bool)
  | PInt (z : Z)
  | PFloat (q : Q)
  | PStr (s : string)
  | PList (l : list pyval)
  | PDict (d : gmap string pyval).

(** Truth value of an object ([if x:]). *)
Definition truthy (v : pyval) : bool :=
  match v with
  | PNone => false
  | PBool b => b
  | PInt z => negb (z =? 0)
  | PFloat q => negb (Qeq_bool q 0)
  | PStr s => negb (String.eqb s "")
  | PList l => match l with [] => false | _ => true end
  | PDict d => negb (bool_decide (dom d = ∅))
  end.

(** [seq[i]] on a sequence: a negative index counts from the end. *)
Definition index {A} (l : list A) (i : Z) : res A :=
  let n := Z.of_nat (length l) in
  let j := if i <? 0 then i + n else i in
  if (0 <=? j) && (j <? n)
  then match l !! Z.to_nat j with
       | Some a => Ok a
       | None => Raise IndexError
       end
  else Raise IndexError.

(** [seq[:b]] *)
Definition slice_to {A} (b : Z) (l : list A) : list A :=
  let n := Z.of_nat (length l) in
  if b <? 0 then take (Z.to_nat (Z.max 0 (n + b))) l
  else take (Z.to_nat b) l.

(** [seq[a:]] *)
Definition slice_from {A} (a : Z) (l : list A) : list A :=
  let n := Z.of_nat (length l) in
  if a <? 0 then drop (Z.to_nat (Z.max 0 (n + a))) l
  else drop (Z.to_nat a) l.

Fixpoint chars (s : string) : list string :=
  match s with
  | EmptyString => []
  | String c s' => String c EmptyString :: chars s'
  end.

Definition unchars (l : list string) : string :=
  foldr String.append EmptyString l.

(** [v[k]] with a string key. *)
Definition getitem (v : pyval) (k : string) : res pyval :=
  match v with
  | PDict d => match d !! k with
               | Some x => Ok x
               | None => Raise KeyError
               end
  | _ => Raise TypeError
  end.

(** [v[i]] with an integer index. *)
Definition getidx (v : pyval) (i : Z) : res pyval :=
  match v with
  | PList l => index l i
  | PStr s => rbind (index (chars s) i) (fun c => Ok (PStr c))
  | PDict _ => Raise KeyError
  | _ => Raise TypeError
  end.

(** [v[:b]] *)
Definition getslice_to (v : pyval) (b : Z) : res pyval :=
  match v with
  | PList l => Ok (PList (slice_to b l))
  | PStr s => Ok (PStr (unchars (slice_to b (chars s))))
  | _ => Raise TypeError
  end.

(** [for x in v] over a list or a string.  A dict would be walked by its
    keys in insertion order, which a finite map does not record: the
    responses of the clients hold lists of rows, and a dict in the place of
    a list is outside the model (it is treated as not iterable). *)
Definition iter (v : pyval) : res (list pyval) :=
  match v with
  | PList l => Ok l
  | PStr s => Ok (PStr <$> chars s)
  | _ => Raise TypeError
  end.

(** [for x in xs: ys.append(f(x))], stopping at the first raise. *)
Fixpoint mapM {A B} (f : A -> res B) (l : list A) : res (list B) :=
  match l with
  | [] => Ok []
  | x :: l' =>
      rbind (f x) (fun y => rbind (mapM f l') (fun ys => Ok (y :: ys)))
  end.

Section Conversions.
(** The text-to-number parsers of the interpreter ([float(str)] and
    [int(str)]) are taken as given; [None] is a [ValueError]. *)
Variable str_to_float : string -> option Q.
Variable str_to_int : string -> option Z.

Definition float (v : pyval) : res Q :=
  match v with
  | PBool b => Ok (if b then 1%Q else 0%Q)
  | PInt z => Ok (inject_Z z)
  | PFloat q => Ok q
  | PStr s => match str_to_float s with
              | Some q => Ok q
              | None => Raise ValueError
              end
  | _ => Raise TypeError
  end.

(** [int(x)] truncates a float toward zero. *)
Definition int (v : pyval) : res Z :=
  match v with
  | PBool b => Ok (if b then 1 else 0)
  | PInt z => Ok z
  | PFloat q => Ok (Z.quot (Qnum q) (Zpos (Qden q)))
  | PStr s => match str_to_int s with
              | Some z => Ok z
              | None => Raise ValueError
              end
  | _ => Raise TypeError
  end.
End Conversions.

(** [list.sort(key=...)] is stable: insertion from the right keeps the
    original order of elements with equal keys. *)
Section Sort.
Context {A : Type} (key : A -> Z).

Fixpoint insert_by (x : A) (l : list A) : list A :=
  match l with
  | [] => [x]
  | y :: l' =>
      if key x <=? key y then x :: y :: l' else y :: insert_by x l'
  end.

Definition sort_by (l : list A) : list A := foldr insert_by [] l.
End Sort.

(** [str.upper()] on ASCII letters. *)
Definition upper_ascii (c : ascii) : ascii :=
  let n := nat_of_ascii c in
  if ((97 <=? n) && (n <=? 122))%nat then ascii_of_nat (n - 32) else c.

Fixpoint upper (s : string) : string :=
  match s with
  | EmptyString => EmptyString
  | String c s' => String (upper_ascii c) (upper s')
  end.

(** A [str] is held as its UTF-8 text.  [len(s)] counts code points: the
    bytes that are not continuation bytes ([10xxxxxx]). *)
Definition is_continuation (c : ascii) : bool :=
  let n := nat_of_ascii c in ((128 <=? n) && (n <? 192))%nat.

Fixpoint len_str (s : string) : nat :=
  match s with
  | EmptyString => 0%nat
  | String c s' => ((if is_continuation c then 0 else 1) + len_str s')%nat
  end.

(** [list.sort(key=...)] on keys that are strings: the same stable
    insertion, the keys compared as Python compares [str] (by code
    point). *)
Section SortStr.
Context {A : Type} (key : A -> string).

Fixpoint insert_by_str (x : A) (l : list A) : list A :=
  match l with
  | [] => [x]
  | y :: l' =>
      if String.leb (key x) (key y) then x :: y :: l'
      else y :: insert_by_str x l'
  end.

Definition sort_by_str (l : list A) : list A := foldr insert_by_str [] l.
End SortStr.

(** [needle in hay] on two strings.  Python compares code points; on
    UTF-8 text that is the comparison of bytes, since the first byte of an
    encoded character never occurs inside another one. *)
Fixpoint contains (hay needle : string) : bool :=
  if String.prefix needle hay then true
  else match hay with
       | EmptyString => false
       | String _ hay' => contains hay' needle
       end.

(** [d.get(k, default)]; on a value that is no dict the attribute lookup
    fails (an [AttributeError], rendered here as [RuntimeError]: every
    handler that can see it ignores which exception it got). *)
Definition dict_get (v : pyval) (k : string) (default : pyval) : res pyval :=
  match v with
  | PDict d => Ok (from_option id default (d !! k))
  | _ => Raise RuntimeError
  end.

End Py.

Notation "x <- m ;; k" := (Py.bind m (fun x => k))
  (at level 100, m at next level, right associativity, only parsing).
Notation "x <~ r ;; k" := (Py.rbind r (fun x => k))
  (at level 100, r at next level, right associativity, only parsing).

(** ** The pandas operations the indicator code calls *)

Module Pandas.
Local Open Scope Q_scope.

(** One cell of a [float64] series. *)
Inductive cell : Type :=
  | Num (q : Q)
  | Inf (negative : bool)
  | NaN.

Definition is_nan (c : cell) : bool :=
  match c with NaN => true | _ => false end.

(** [pd.isna] is true on NaN only; an infinity is not "na". *)
Definition isna (c : cell) : bool := is_nan c.

Definition Qsign_neg (q : Q) : bool := (Qnum q <? 0)%Z.
Definition Qis_zero (q : Q) : bool := (Qnum q =? 0)%Z.

Definition cneg (c : cell) : cell :=
  match c with
  | Num q => Num (- q)
  | Inf s => Inf (negb s)
  | NaN => NaN
  end.

Definition cadd (a b : cell) : cell :=
  match a, b with
  | NaN, _ | _, NaN => NaN
  | Num x, Num y => Num (x + y)
  | Num _, Inf s | Inf s, Num _ => Inf s
  | Inf s, Inf t => if Bool.eqb s t then Inf s else NaN
  end.

Definition csub (a b : cell) : cell := cadd a (cneg b).

(** Division follows IEEE 754 on the special values: [0/0] is NaN and
    [x/0] with [x <> 0] is an infinity. *)
Definition cdiv (a b : cell) : cell :=
  match a, b with
  | NaN, _ | _, NaN => NaN
  | Num x, Num y =>
      if Qis_zero y
      then if Qis_zero x then NaN else Inf (Qsign_neg x)
      else Num (x / y)
  | Num _, Inf _ => Num 0
  | Inf s, Num y => Inf (xorb s (Qsign_neg y))
  | Inf _, Inf _ => NaN
  end.

(** [series > 0], elementwise; a comparison with NaN is false. *)
Definition gt0 (c : cell) : bool :=
  match c with
  | Num q => (0 <? Qnum q)%Z
  | Inf s => negb s
  | NaN => false
  end.

Definition lt0 (c : cell) : bool :=
  match c with
  | Num q => (Qnum q <? 0)%Z
  | Inf s => s
  | NaN => false
  end.

(** [s.where(cond, other)]: keep the cell where [cond] holds. *)
Definition where_ (cond : cell -> bool) (other : cell) (s : list cell)
  : list cell :=
  (fun c => if cond c then c else other) <$> s.

(** [s.diff()]: the first cell is NaN, then the step differences. *)
Fixpoint diff_from (prev : cell) (s : list cell) : list cell :=
  match s with
  | [] => []
  | x :: s' => csub x prev :: diff_from x s'
  end.

Definition diff (s : list cell) : list cell :=
  match s with
  | [] => []
  | x :: s' => NaN :: diff_from x s'
  end.

(** [s.rolling(window=w).mean()], with [min_periods = w].  The window sum
    is kept by adding the entering cell and removing the leaving one; a
    cell that is not finite is not an observation. *)
Definition add_obs (c : cell) (acc : Q * nat) : Q * nat :=
  match c with
  | Num q => (fst acc + q, S (snd acc))
  | _ => acc
  end.

Definition remove_obs (c : cell) (acc : Q * nat) : Q * nat :=
  match c with
  | Num q => (fst acc - q, pred (snd acc))
  | _ => acc
  end.

Definition calc_mean (w : nat) (acc : Q * nat) : cell :=
  if ((w <=? snd acc) && (0 <? snd acc))%nat
  then Num (fst acc / inject_Z (Z.of_nat (snd acc)))
  else NaN.

(** [i] is the position of the head of [s]; [leaving] is the series from
    the first cell that is still inside the window. *)
Fixpoint roll_mean (w i : nat) (acc : Q * nat) (leaving s : list cell)
  : list cell :=
  match s with
  | [] => []
  | x :: s' =>
      let '(acc1, leaving1) :=
        if (w <=? i)%nat
        then match leaving with
             | old :: rest => (remove_obs old acc, rest)
             | [] => (acc, [])
             end
        else (acc, leaving) in
      let acc2 := add_obs x acc1 in
      calc_mean w acc2 :: roll_mean w (S i) acc2 leaving1 s'
  end.

Definition rolling_mean (w : nat) (s : list cell) : list cell :=
  roll_mean w 0 (0, 0%nat) s s.

(** [s.ewm(span=span).mean()] with the defaults [adjust=True],
    [min_periods=0], on a series without NaN.  [alpha = 2/(span+1)]; the
    running average is re-normalised by the running weight at every
    step, and left alone when the new value equals it. *)
Definition ewm_alpha (span : Q) : Q := 2 / (span + 1).

Fixpoint ewm_from (old_wt_factor weighted old_wt : Q) (s : list Q)
  : list Q :=
  match s with
  | [] => []
  | cur :: s' =>
      let old_wt1 := old_wt * old_wt_factor in
      let weighted1 :=
        if Qeq_bool weighted cur then weighted
        else (old_wt1 * weighted + 1 * cur) / (old_wt1 + 1) in
      weighted1 :: ewm_from old_wt_factor weighted1 (old_wt1 + 1) s'
  end.

Definition ewm_mean (span : Q) (s : list Q) : list Q :=
  match s with
  | [] => []
  | x0 :: s' => x0 :: ewm_from (1 - ewm_alpha span) x0 1 s'
  end.

(** [a - b] on two aligned series of finite values. *)
Definition sub_series (a b : list Q) : list Q :=
  zip_with Qminus a b.

Definition div_series (a b : list cell) : list cell :=
  zip_with cdiv a b.

End Pandas.

(** ** kraken_api_provider.py: class KrakenDataProvider *)

Module Kraken.
Import Py.

(** [self.kraken]: the exchange client.  Every call either raises or
    returns the decoded response, a dict keyed by pair name. *)
Record client : Type := {
  get_pair_ticker : string -> res (gmap string pyval);
  client_get_ohlc_data : string -> Z -> option Z -> res (gmap string pyval);
  client_get_order_book : string -> res (gmap string pyval);
  client_get_recent_trades : string -> res (gmap string pyval)
}.

(** One processed candle (the dict built in the loop of [get_ohlc_data]). *)
Record candle : Type := {
  time : Z;
  open : Q;
  high : Q;
  low : Q;
  close : Q;
  vwap : Q;
  volume : Q;
  trades : Z
}.

(** The dict returned by [get_ohlc_data]; the short form returned when the
    pair is missing or something raised has no interval and no
    timestamp. *)
Record ohlc_result : Type := {
  ohlc_symbol : string;
  ohlc_data : list candle;
  ohlc_interval : option Z;
  ohlc_count : Z;
  ohlc_timestamp : option string
}.

Record book_level : Type := {
  level_price : Q;
  level_volume : Q;
  level_timestamp : Z
}.

Record order_book_result : Type := {
  book_symbol : string;
  book_asks : list book_level;
  book_bids : list book_level;
  book_timestamp : string
}.

Record trade : Type := {
  trade_price : Q;
  trade_volume : Q;
  trade_time : Q;
  trade_side : pyval;
  trade_type : pyval;
  trade_misc : pyval
}.

Record trades_result : Type := {
  trades_symbol : string;
  trades_trades : list trade;
  trades_count : Z;
  trades_timestamp : string
}.

(** The value under ['macd']: the list [[]] of the short-input bundle, or
    the dict of three series. *)
Inductive macd_result : Type :=
  | MacdEmpty
  | MacdSeries (macd signal histogram : list Q).

Record indicators : Type := {
  sma_20 : list Pandas.cell;
  sma_50 : list Pandas.cell;
  ema_12 : list Q;
  ema_26 : list Q;
  macd : macd_result;
  rsi : list Pandas.cell
}.

(** The dict returned by [get_market_summary]; [technical_indicators] is
    [None] for the empty dict [{}].  [SummaryError] is the dict of the
    outer [except] branch. *)
Inductive summary : Type :=
  | Summary (symbol : string)
      (ticker : option (gmap string pyval))
      (ohlc_1h ohlc_1d : ohlc_result)
      (order_book : option order_book_result)
      (recent_trades : option trades_result)
      (technical_indicators : option indicators)
      (timestamp : string)
  | SummaryError (symbol : string) (error : exn).

(** [calculate_technical_indicators] touches neither the client nor the
    clock. *)
Definition closes (data : list candle) : list Q := close <$> data.

Definition rsi_series (close_prices : list Q) : list Pandas.cell :=
  let delta := Pandas.diff (Pandas.Num <$> close_prices) in
  let gain :=
    Pandas.rolling_mean 14 (Pandas.where_ Pandas.gt0 (Pandas.Num 0) delta) in
  let loss :=
    Pandas.rolling_mean 14
      (Pandas.cneg <$> Pandas.where_ Pandas.lt0 (Pandas.Num 0) delta) in
  let rs := Pandas.div_series gain loss in
  (fun c => Pandas.csub (Pandas.Num 100)
              (Pandas.cdiv (Pandas.Num 100) (Pandas.cadd (Pandas.Num 1) c)))
    <$> rs.

Definition calculate_technical_indicators (data : list candle)
  : indicators :=
  if (Z.of_nat (length data) <? 50)
  then {| sma_20 := []; sma_50 := []; ema_12 := []; ema_26 := [];
          macd := MacdEmpty; rsi := [] |}
  else
    let df_close := closes data in
    let ema_12 := Pandas.ewm_mean 12 df_close in
    let ema_26 := Pandas.ewm_mean 26 df_close in
    let macd_line := Pandas.sub_series ema_12 ema_26 in
    let signal_line := Pandas.ewm_mean 9 macd_line in
    let macd_histogram := Pandas.sub_series macd_line signal_line in
    {| sma_20 := Pandas.rolling_mean 20 (Pandas.Num <$> df_close);
       sma_50 := Pandas.rolling_mean 50 (Pandas.Num <$> df_close);
       ema_12 := Pandas.ewm_mean 12 df_close;
       ema_26 := Pandas.ewm_mean 26 df_close;
       macd := MacdSeries macd_line signal_line macd_histogram;
       rsi := rsi_series df_close |}.

Section Provider.
Variable str_to_float : string -> option Q.
Variable str_to_int : string -> option Z.
(** [clock n] is what the [n]-th call of [datetime.now().isoformat()]
    returns; the state counts the calls made so far. *)
Variable clock : nat -> string.
Variable kraken : client.

Local Abbreviation float := (Py.float str_to_float).
Local Abbreviation int := (Py.int str_to_int).

Definition now : M nat string := fun n => (Ok (clock n), S n).

Definition field (v : pyval) (k : string) (i : Z) : res pyval :=
  x <~ getitem v k ;; getidx x i.

Definition get_ticker (pair : string)
  : M nat (option (gmap string pyval)) :=
  try_except
    (ticker_data <- lift (get_pair_ticker kraken pair) ;;
     match ticker_data !! pair with
     | None => ret None
     | Some ticker =>
         price <- lift (x <~ field ticker "c" 0 ;; float x) ;;
         open_ <- lift (x <~ getitem ticker "o" ;; float x) ;;
         high_ <- lift (x <~ field ticker "h" 1 ;; float x) ;;
         low_ <- lift (x <~ field ticker "l" 1 ;; float x) ;;
         volume_ <- lift (x <~ field ticker "v" 1 ;; float x) ;;
         vwap_ <- lift (x <~ field ticker "p" 1 ;; float x) ;;
         trades_ <- lift (x <~ field ticker "t" 1 ;; int x) ;;
         bid <- lift (x <~ field ticker "b" 0 ;; float x) ;;
         ask <- lift (x <~ field ticker "a" 0 ;; float x) ;;
         timestamp <- now ;;
         let formatted_ticker : gmap string pyval :=
           <["timestamp" := PStr timestamp]>
           (<["ask" := PFloat ask]>
           (<["bid" := PFloat bid]>
           (<["trades" := PInt trades_]>
           (<["vwap" := PFloat vwap_]>
           (<["volume" := PFloat volume_]>
           (<["low" := PFloat low_]>
           (<["high" := PFloat high_]>
           (<["open" := PFloat open_]>
           (<["price" := PFloat price]>
           (<["symbol" := PStr pair]> ∅)))))))))) in
         if Qlt_le_dec 0 open_
         then
           let change := (price - open_)%Q in
           ret (Some
             (<["spread" := PFloat (ask - bid)%Q]>
             (<["change_percent" := PFloat ((change / open_) * 100)%Q]>
             (<["change" := PFloat change]> formatted_ticker))))
         else ret (Some formatted_ticker)
     end)
    (fun _ => ret None).

Definition interval_mapping (interval : Z) : Z :=
  if bool_decide (interval ∈ [1; 5; 15; 30; 60; 240; 1440])
  then interval else 60.

Definition process_candle (row : pyval) : res candle :=
  time_ <~ (x <~ getidx row 0 ;; int x) ;;
  open_ <~ (x <~ getidx row 1 ;; float x) ;;
  high_ <~ (x <~ getidx row 2 ;; float x) ;;
  low_ <~ (x <~ getidx row 3 ;; float x) ;;
  close_ <~ (x <~ getidx row 4 ;; float x) ;;
  vwap_ <~ (x <~ getidx row 5 ;; float x) ;;
  volume_ <~ (x <~ getidx row 6 ;; float x) ;;
  trades_ <~ (x <~ getidx row 7 ;; int x) ;;
  Ok {| time := time_; open := open_; high := high_; low := low_;
        close := close_; vwap := vwap_; volume := volume_;
        trades := trades_ |}.

(** The [for candle in candles] loop. *)
Definition process_candles (candles : pyval) : res (list candle) :=
  rows <~ iter candles ;; mapM process_candle rows.

Definition ohlc_empty (pair : string) : ohlc_result :=
  {| ohlc_symbol := pair; ohlc_data := []; ohlc_interval := None;
     ohlc_count := 0; ohlc_timestamp := None |}.

(** [if since: params['since'] = since] *)
Definition since_param (since : option Z) : option Z :=
  match since with
  | Some s => if s =? 0 then None else Some s
  | None => None
  end.

(** [if limit and limit > 0] *)
Definition limit_applies (limit : option Z) : bool :=
  match limit with
  | None => false
  | Some l => negb (l =? 0) && (0 <? l)
  end.

Definition get_ohlc_data (pair : string) (interval : Z)
    (since limit : option Z) : M nat ohlc_result :=
  try_except
    (let kraken_interval := interval_mapping interval in
     ohlc_data <-
       lift (client_get_ohlc_data kraken pair kraken_interval
               (since_param since)) ;;
     match ohlc_data !! pair with
     | None => ret (ohlc_empty pair)
     | Some candles =>
         processed_data <-
           lift (rows <~ iter candles ;; mapM process_candle rows) ;;
         let processed_data :=
           match limit with
           | Some l => if limit_applies limit
                       then slice_from (- l) processed_data
                       else processed_data
           | None => processed_data
           end in
         let processed_data := sort_by time processed_data in
         timestamp <- now ;;
         ret {| ohlc_symbol := pair;
                ohlc_data := processed_data;
                ohlc_interval := Some interval;
                ohlc_count := Z.of_nat (length processed_data);
                ohlc_timestamp := Some timestamp |}
     end)
    (fun _ => ret (ohlc_empty pair)).

Definition format_level (row : pyval) : res book_level :=
  p <~ (x <~ getidx row 0 ;; float x) ;;
  v <~ (x <~ getidx row 1 ;; float x) ;;
  t <~ (x <~ getidx row 2 ;; int x) ;;
  Ok {| level_price := p; level_volume := v; level_timestamp := t |}.

Definition get_order_book (pair : string) (depth : Z)
  : M nat (option order_book_result) :=
  try_except
    (order_book <- lift (client_get_order_book kraken pair) ;;
     match order_book !! pair with
     | None => ret None
     | Some book_data =>
         asks <- lift (side <~ getitem book_data "asks" ;;
                       top <~ getslice_to side depth ;;
                       rows <~ iter top ;;
                       mapM format_level rows) ;;
         bids <- lift (side <~ getitem book_data "bids" ;;
                       top <~ getslice_to side depth ;;
                       rows <~ iter top ;;
                       mapM format_level rows) ;;
         timestamp <- now ;;
         ret (Some {| book_symbol := pair; book_asks := asks;
                      book_bids := bids; book_timestamp := timestamp |})
     end)
    (fun _ => ret None).

Definition format_trade (row : pyval) : res trade :=
  p <~ (x <~ getidx row 0 ;; float x) ;;
  v <~ (x <~ getidx row 1 ;; float x) ;;
  t <~ (x <~ getidx row 2 ;; float x) ;;
  side <~ getidx row 3 ;;
  type <~ getidx row 4 ;;
  misc <~ getidx row 5 ;;
  Ok {| trade_price := p; trade_volume := v; trade_time := t;
        trade_side := side; trade_type := type; trade_misc := misc |}.

Definition get_recent_trades (pair : string) (limit : Z)
  : M nat (option trades_result) :=
  try_except
    (trades <- lift (client_get_recent_trades kraken pair) ;;
     match trades !! pair with
     | None => ret None
     | Some trade_data =>
         formatted_trades <-
           lift (top <~ getslice_to trade_data limit ;;
                 rows <~ iter top ;;
                 mapM format_trade rows) ;;
         timestamp <- now ;;
         ret (Some {| trades_symbol := pair;
                      trades_trades := formatted_trades;
                      trades_count := Z.of_nat (length formatted_trades);
                      trades_timestamp := timestamp |})
     end)
    (fun _ => ret None).

Definition get_market_summary (pair : string) : M nat summary :=
  try_except
    (ticker <- get_ticker pair ;;
     ohlc_1h <- get_ohlc_data pair 60 None (Some 24) ;;
     ohlc_1d <- get_ohlc_data pair 1440 None (Some 30) ;;
     order_book <- get_order_book pair 5 ;;
     recent_trades <- get_recent_trades pair 20 ;;
     let indicators :=
       match ohlc_data ohlc_1d with
       | [] => None
       | _ :: _ =>
           Some (calculate_technical_indicators (ohlc_data ohlc_1d))
       end in
     timestamp <- now ;;
     ret (Summary pair ticker ohlc_1h ohlc_1d order_book recent_trades
            indicators timestamp))
    (fun e => ret (SummaryError pair e)).

End Provider.

(** One entry of the list [get_trading_pairs] returns. *)
Record trading_pair : Type := {
  pair_symbol : string;
  pair_wsname : pyval;
  pair_base : pyval;
  pair_quote : pyval;
  pair_display_name : string;
  pair_price_decimals : pyval;
  pair_lot_decimals : pyval
}.

Record features : Type := {
  public_data : bool;
  private_data : bool;
  technical_indicators_feature : bool
}.

(** The two dicts [health_check] can return. *)
Inductive health : Type :=
  | Healthy (server_time : pyval) (api_accessible : bool)
      (last_check : string) (api_keys_configured : bool)
      (health_features : features)
  | Unhealthy (error : exn) (last_check : string).

(** [pair_data.get('quote') in ['USD', 'ZUSD']] *)
Definition is_usd_quote (v : pyval) : bool :=
  match v with
  | PStr s => String.eqb s "USD" || String.eqb s "ZUSD"
  | _ => false
  end.

Section Metadata.
Variable str_to_float : string -> option Q.
Variable str_to_int : string -> option Z.
Variable clock : nat -> string.
Variable kraken : client.
(** [str(x)], as the f-string of [display_name] applies it. *)
Variable str : pyval -> string.
(** [self.kraken.get_asset_pairs()]: the items of the returned dict, in
    its order, or a raise. *)
Variable get_asset_pairs : res (list (string * pyval)).
(** [self.kraken.get_time()] *)
Variable get_time : res pyval.
(** [os.getenv('KRAKEN_API_KEY')] and [os.getenv('KRAKEN_API_SECRET')] *)
Variable api_key : option string.
Variable api_secret : option string.

(** The body of the loop of [get_trading_pairs]: [None] when the pair is
    skipped. *)
Definition format_pair (item : string * pyval) : res (option trading_pair) :=
  let '(pair_name, pair_data) := item in
  quote <~ dict_get pair_data "quote" PNone ;;
  if is_usd_quote quote
  then
    wsname <~ dict_get pair_data "wsname" (PStr pair_name) ;;
    base <~ dict_get pair_data "base" PNone ;;
    quote_ <~ dict_get pair_data "quote" PNone ;;
    base' <~ dict_get pair_data "base" PNone ;;
    quote' <~ dict_get pair_data "quote" PNone ;;
    price_decimals <~ dict_get pair_data "pair_decimals" (PInt 5) ;;
    lot_decimals <~ dict_get pair_data "lot_decimals" (PInt 8) ;;
    Ok (Some {| pair_symbol := pair_name;
                pair_wsname := wsname;
                pair_base := base;
                pair_quote := quote_;
                pair_display_name := str base' +:+ "/" +:+ str quote';
                pair_price_decimals := price_decimals;
                pair_lot_decimals := lot_decimals |})
  else Ok None.

Definition get_trading_pairs : M nat (list trading_pair) :=
  try_except
    (pairs <- lift get_asset_pairs ;;
     usd_pairs <- lift (mapM format_pair pairs) ;;
     ret (sort_by_str pair_display_name (omap id usd_pairs)))
    (fun _ => ret []).

(** [bool(self.api_key and self.api_secret)] *)
Definition keys_configured : bool :=
  match api_key, api_secret with
  | Some k, Some s => negb (String.eqb k "") && negb (String.eqb s "")
  | _, _ => false
  end.

Definition health_check : M nat health :=
  try_except
    (server_time <- lift get_time ;;
     btc_ticker <-
       get_ticker str_to_float str_to_int clock kraken "XXBTZUSD" ;;
     last_check <- now clock ;;
     ret (Healthy server_time
            (match btc_ticker with Some _ => true | None => false end)
            last_check keys_configured
            {| public_data := true;
               private_data := keys_configured;
               technical_indicators_feature := true |}))
    (fun e => last_check <- now clock ;; ret (Unhealthy e last_check)).

End Metadata.
End Kraken.

(** ** python-service/stock_service.py *)

Module Stock.
Import Py.

(** The Redis client: [get] and [setex] act on an external store of type
    [S] and may raise. *)
Record redis (S : Type) : Type := {
  redis_get : string -> S -> res (option string) * S;
  redis_setex : string -> Z -> string -> S -> res unit * S
}.
Arguments redis_get {S} _ _ _.
Arguments redis_setex {S} _ _ _ _.

(** One row of the frame returned by [Ticker.history]; a missing volume
    (NaN) is [None]. *)
Record bar : Type := {
  bar_time : Z;
  bar_open : Q;
  bar_high : Q;
  bar_low : Q;
  bar_close : Q;
  bar_volume : option Q
}.

(** What an endpoint returns: a JSON body with status 200, the 404 body
    [{"error": msg}], or the 500 body built from the exception. *)
Inductive response (A : Type) : Type :=
  | Reply (body : A)
  | NotFound (msg : string)
  | ServerError (e : exn).
Arguments Reply {A} body.
Arguments NotFound {A} msg.
Arguments ServerError {A} e.

(** One entry of [technical_data]; [None] is JSON null. *)
Record technical_row : Type := {
  row_time : Z;
  row_close : Q;
  row_sma20 : option Pandas.cell;
  row_sma50 : option Pandas.cell;
  row_macd : option Pandas.cell;
  row_signal : option Pandas.cell;
  row_rsi : option Pandas.cell
}.

Record technical_reply : Type := {
  tech_symbol : string;
  tech_data : list technical_row;
  tech_timestamp : string
}.

Definition cache_key (symbol period interval : string) : string :=
  "stock_data:" +:+ symbol +:+ ":" +:+ period +:+ ":" +:+ interval.

(** [float(x) if not pd.isna(x) else None] *)
Definition null_if_na (c : Pandas.cell) : option Pandas.cell :=
  if Pandas.isna c then None else Some c.

(** [series.iloc[i]] *)
Definition iloc {A} (s : list A) (i : nat) : res A :=
  match s !! i with
  | Some x => Ok x
  | None => Raise IndexError
  end.

Section Service.
Variable S : Type.
(** [redis_client]: [None] when the connection could not be set up. *)
Variable redis_client : option (redis S).
Variable json_dumps : pyval -> res string.
Variable json_loads : string -> res pyval.
Variable clock : nat -> string.
(** [yf.Ticker(symbol).history(period=..., interval=...)] *)
Variable yf_history : string -> string -> string -> res (list bar).

(** The state: the store behind Redis and the number of clock readings. *)
Definition state : Type := S * nat.

Definition now : M state string :=
  fun st => (Ok (clock (snd st)), (fst st, Datatypes.S (snd st))).

Definition on_store {A} (op : S -> res A * S) : M state A :=
  fun st => let '(r, s') := op (fst st) in (r, (s', snd st)).

Definition get_cached_data (key : string) : M state pyval :=
  match redis_client with
  | None => ret PNone
  | Some client =>
      try_except
        (cached <- on_store (redis_get client key) ;;
         match cached with
         | Some text =>
             if negb (String.eqb text "")
             then lift (json_loads text)
             else ret PNone
         | None => ret PNone
         end)
        (fun _ => ret PNone)
  end.

Definition set_cached_data (key : string) (data : pyval) (ttl : Z)
  : M state unit :=
  match redis_client with
  | None => ret tt
  | Some client =>
      try_except
        (text <- lift (json_dumps data) ;;
         on_store (redis_setex client key ttl text))
        (fun _ => ret tt)
  end.

Definition chart_point (row : bar) : pyval :=
  PDict
    (<["volume" := PInt (match bar_volume row with
                         | Some v => Z.quot (Qnum v) (Zpos (Qden v))
                         | None => 0
                         end)]>
    (<["close" := PFloat (bar_close row)]>
    (<["low" := PFloat (bar_low row)]>
    (<["high" := PFloat (bar_high row)]>
    (<["open" := PFloat (bar_open row)]>
    (<["time" := PInt (bar_time row)]> ∅)))))).

Definition history_response (symbol period interval : string)
    (hist : list bar) (timestamp : string) : pyval :=
  PDict
    (<["timestamp" := PStr timestamp]>
    (<["interval" := PStr interval]>
    (<["period" := PStr period]>
    (<["data" := PList (chart_point <$> hist)]>
    (<["symbol" := PStr (upper symbol)]> ∅))))).

Definition get_history (symbol : string) (period_arg interval_arg : option string)
  : M state (response pyval) :=
  try_except
    (let period := default "1y"%string period_arg in
     let interval := default "1d"%string interval_arg in
     let cache_key_name := cache_key symbol period interval in
     cached <- get_cached_data cache_key_name ;;
     if truthy cached then ret (Reply cached)
     else
       hist <- lift (yf_history symbol period interval) ;;
       match hist with
       | [] => ret (NotFound "No data found for symbol")
       | _ :: _ =>
           timestamp <- now ;;
           let response_data :=
             history_response symbol period interval hist timestamp in
           let ttl :=
             if bool_decide (interval ∈ ["1m"; "2m"; "5m"]%string)
             then 60 else 300 in
           _ <- set_cached_data cache_key_name response_data ttl ;;
           ret (Reply response_data)
       end)
    (fun e => ret (ServerError e)).

Definition rsi_series (close_prices : list Q) : list Pandas.cell :=
  let delta := Pandas.diff (Pandas.Num <$> close_prices) in
  let gain :=
    Pandas.rolling_mean 14 (Pandas.where_ Pandas.gt0 (Pandas.Num 0) delta) in
  let loss :=
    Pandas.rolling_mean 14
      (Pandas.cneg <$> Pandas.where_ Pandas.lt0 (Pandas.Num 0) delta) in
  let rs := Pandas.div_series gain loss in
  (fun c => Pandas.csub (Pandas.Num 100)
              (Pandas.cdiv (Pandas.Num 100) (Pandas.cadd (Pandas.Num 1) c)))
    <$> rs.

Definition technical_rows (hist : list bar) : res (list technical_row) :=
  let close_prices := bar_close <$> hist in
  let sma_20 := Pandas.rolling_mean 20 (Pandas.Num <$> close_prices) in
  let sma_50 := Pandas.rolling_mean 50 (Pandas.Num <$> close_prices) in
  let ema_12 := Pandas.ewm_mean 12 close_prices in
  let ema_26 := Pandas.ewm_mean 26 close_prices in
  let macd_line := Pandas.sub_series ema_12 ema_26 in
  let signal_line := Pandas.ewm_mean 9 macd_line in
  let rsi := rsi_series close_prices in
  mapM (fun '(i, row) =>
          s20 <~ iloc sma_20 i ;;
          s50 <~ iloc sma_50 i ;;
          m <~ iloc macd_line i ;;
          sg <~ iloc signal_line i ;;
          r <~ iloc rsi i ;;
          Ok {| row_time := bar_time row;
                row_close := bar_close row;
                row_sma20 := null_if_na s20;
                row_sma50 := null_if_na s50;
                row_macd := null_if_na (Pandas.Num m);
                row_signal := null_if_na (Pandas.Num sg);
                row_rsi := null_if_na r |})
       (imap pair hist).

Definition get_technical_indicators (symbol : string) (period_arg : option string)
  : M state (response technical_reply) :=
  try_except
    (let period := default "6mo"%string period_arg in
     hist <- lift (yf_history symbol period "1d") ;;
     match hist with
     | [] => ret (NotFound "No data found")
     | _ :: _ =>
         technical_data <- lift (technical_rows hist) ;;
         timestamp <- now ;;
         ret (Reply {| tech_symbol := upper symbol;
                       tech_data := technical_data;
                       tech_timestamp := timestamp |})
     end)
    (fun e => ret (ServerError e)).

End Service.

(** [search_stocks]: the table of the function and its two answers. *)
Record stock_entry : Type := {
  entry_symbol : string;
  entry_name : string;
  entry_exchange : string
}.

Inductive search_reply : Type :=
  | SearchResults (results : list stock_entry)
  | BadRequest (msg : string).

Definition popular_stocks : list stock_entry :=
  [ {| entry_symbol := "AAPL"; entry_name := "Apple Inc.";
       entry_exchange := "NASDAQ" |};
    {| entry_symbol := "GOOGL"; entry_name := "Alphabet Inc.";
       entry_exchange := "NASDAQ" |};
    {| entry_symbol := "MSFT"; entry_name := "Microsoft Corporation";
       entry_exchange := "NASDAQ" |};
    {| entry_symbol := "AMZN"; entry_name := "Amazon.com Inc.";
       entry_exchange := "NASDAQ" |};
    {| entry_symbol := "TSLA"; entry_name := "Tesla Inc.";
       entry_exchange := "NASDAQ" |};
    {| entry_symbol := "META"; entry_name := "Meta Platforms Inc.";
       entry_exchange := "NASDAQ" |};
    {| entry_symbol := "NVDA"; entry_name := "NVIDIA Corporation";
       entry_exchange := "NASDAQ" |};
    {| entry_symbol := "NFLX"; entry_name := "Netflix Inc.";
       entry_exchange := "NASDAQ" |};
    {| entry_symbol := "AMD"; entry_name := "Advanced Micro Devices Inc.";
       entry_exchange := "NASDAQ" |};
    {| entry_symbol := "CRM"; entry_name := "Salesforce Inc.";
       entry_exchange := "NYSE" |};
    {| entry_symbol := "ADBE"; entry_name := "Adobe Inc.";
       entry_exchange := "NASDAQ" |};
    {| entry_symbol := "PYPL"; entry_name := "PayPal Holdings Inc.";
       entry_exchange := "NASDAQ" |};
    {| entry_symbol := "INTC"; entry_name := "Intel Corporation";
       entry_exchange := "NASDAQ" |};
    {| entry_symbol := "CSCO"; entry_name := "Cisco Systems Inc.";
       entry_exchange := "NASDAQ" |};
    {| entry_symbol := "ORCL"; entry_name := "Oracle Corporation";
       entry_exchange := "NYSE" |} ].

Section Search.
(** [str.upper()], which maps every cased character of Unicode (and can
    change the number of characters); on ASCII text it is [Py.upper]. *)
Variable str_upper : string -> string.

(** [query in stock["symbol"] or query in stock["name"].upper()] *)
Definition matches (query : string) (stock : stock_entry) : bool :=
  contains (entry_symbol stock) query
  || contains (str_upper (entry_name stock)) query.

(** [q] is the request's [q] argument, [None] when it is missing. *)
Definition search_stocks (q : option string) : search_reply :=
  let query := str_upper (default EmptyString q) in
  if (len_str query <? 2)%nat
  then BadRequest "Query must be at least 2 characters"
  else SearchResults (slice_to 10 (filter (fun s => matches query s = true)
                                     popular_stocks)).

End Search.

End Stock.

(** ** flask_api_server.py: the routes over the provider *)

Module Server.
Import Py.

(** What a route returns: a JSON body with status 200, the 503 of a
    provider that was never set up, a 404 with its message, or the 500
    built from an exception. *)
Inductive reply (A : Type) : Type :=
  | Json (body : A)
  | Unavailable
  | NotFound (msg : string)
  | ServerError (e : exn).
Arguments Json {A} body.
Arguments Unavailable {A}.
Arguments NotFound {A} msg.
Arguments ServerError {A} e.

(** The body of the indicators route. *)
Record indicators_body : Type := {
  body_symbol : string;
  body_indicators : Kraken.indicators;
  body_interval : Z;
  body_timestamp : string
}.

Section Routes.
Variable str_to_float : string -> option Q.
Variable str_to_int : string -> option Z.
Variable clock : nat -> string.
(** [kraken_provider]: [None] when [init_kraken_provider] failed. *)
Variable kraken_provider : option Kraken.client.

(** [request.args.get(key, default=..., type=int)]: the default also when
    the text is no integer. *)
Definition arg_int (args : gmap string string) (key : string)
    (default : option Z) : option Z :=
  match args !! key with
  | Some text =>
      match str_to_int text with
      | Some z => Some z
      | None => default
      end
  | None => default
  end.

Definition get_crypto_ticker (pair : string)
  : M nat (reply (gmap string pyval)) :=
  try_except
    (match kraken_provider with
     | None => ret Unavailable
     | Some kraken =>
         ticker <- Kraken.get_ticker str_to_float str_to_int clock kraken pair ;;
         match ticker with
         | Some t =>
             if truthy (PDict t) then ret (Json t)
             else ret (NotFound ("Could not retrieve ticker for " +:+ pair))
         | None => ret (NotFound ("Could not retrieve ticker for " +:+ pair))
         end
     end)
    (fun e => ret (ServerError e)).

Definition get_crypto_ohlc (pair : string) (args : gmap string string)
  : M nat (reply Kraken.ohlc_result) :=
  try_except
    (match kraken_provider with
     | None => ret Unavailable
     | Some kraken =>
         let interval := default 60 (arg_int args "interval" (Some 60)) in
         let since := arg_int args "since" None in
         let limit := arg_int args "limit" None in
         ohlc_data <-
           Kraken.get_ohlc_data str_to_float str_to_int clock kraken pair
             interval since limit ;;
         ret (Json ohlc_data)
     end)
    (fun e => ret (ServerError e)).

Definition get_crypto_trades (pair : string) (args : gmap string string)
  : M nat (reply Kraken.trades_result) :=
  try_except
    (match kraken_provider with
     | None => ret Unavailable
     | Some kraken =>
         let limit := default 50 (arg_int args "limit" (Some 50)) in
         trades <-
           Kraken.get_recent_trades str_to_float clock kraken pair limit ;;
         match trades with
         | Some t => ret (Json t)
         | None => ret (NotFound ("Could not retrieve trades for " +:+ pair))
         end
     end)
    (fun e => ret (ServerError e)).

Definition get_crypto_indicators (pair : string) (args : gmap string string)
  : M nat (reply indicators_body) :=
  try_except
    (match kraken_provider with
     | None => ret Unavailable
     | Some kraken =>
         let interval := default 1440 (arg_int args "interval" (Some 1440)) in
         let limit := arg_int args "limit" (Some 100) in
         ohlc_data <-
           Kraken.get_ohlc_data str_to_float str_to_int clock kraken pair
             interval None limit ;;
         let indicators :=
           Kraken.calculate_technical_indicators
             (Kraken.ohlc_data ohlc_data) in
         timestamp <- Kraken.now clock ;;
         ret (Json {| body_symbol := pair;
                      body_indicators := indicators;
                      body_interval := interval;
                      body_timestamp := timestamp |})
     end)
    (fun e => ret (ServerError e)).

End Routes.
End Server.

(** ** Notions used to state the properties *)

Module Spec.
Import Py.
Local Open Scope Q_scope.

Definition Qsum (l : list Q) : Q := foldr Qplus 0 l.

(** The arithmetic mean of a window. *)
Definition mean (l : list Q) : Q := Qsum l / inject_Z (Z.of_nat (length l)).

(** The (at most) [w] closes ending at position [i]. *)
Definition trailing (w i : nat) (xs : list Q) : list Q :=
  drop (S i - w) (take (S i) xs).

(** What a rolling-mean cell is for a given trailing window: the mean once
    the window holds [w] closes, NaN before. *)
Definition cell_is_mean (w : nat) (win : list Q) (c : Pandas.cell) : Prop :=
  if (w <=? length win)%nat
  then exists q, c = Pandas.Num q /\ q == mean win
  else c = Pandas.NaN.

(** An SMA column aligned with the closes: same length, [w-1] leading NaN,
    then the mean of the trailing [w] closes. *)
Definition sma_aligned (w : nat) (closes : list Q) (out : list Pandas.cell)
  : Prop :=
  length out = length closes
  /\ (forall i, (i < w - 1)%nat -> (i < length closes)%nat ->
        out !! i = Some Pandas.NaN)
  /\ (forall i, (w - 1 <= i < length closes)%nat ->
        exists q, out !! i = Some (Pandas.Num q)
                  /\ q == mean (trailing w i closes)).

(** The same for a JSON column, where the warm-up cells are null. *)
Definition sma_aligned_json (w : nat) (closes : list Q)
    (out : list (option Pandas.cell)) : Prop :=
  length out = length closes
  /\ (forall i, (i < w - 1)%nat -> (i < length closes)%nat ->
        out !! i = Some None)
  /\ (forall i, (w - 1 <= i < length closes)%nat ->
        exists q, out !! i = Some (Some (Pandas.Num q))
                  /\ q == mean (trailing w i closes)).

Fixpoint Qpow (f : Q) (n : nat) : Q :=
  match n with
  | O => 1
  | S n' => f * Qpow f n'
  end.

(** [sum over j = 0..i of f^j * xs[i-j]]: the closes up to [i], the close
    [j] steps back weighted by [f^j]. *)
Definition weighted_sum (f : Q) (xs : list Q) (i : nat) : Q :=
  Qsum ((fun j => Qpow f j * nth (i - j) xs 0) <$> seq 0 (S i)).

(** [sum over j = 0..i of f^j] *)
Definition weight_total (f : Q) (i : nat) : Q :=
  Qsum (Qpow f <$> seq 0 (S i)).

(** The recursion [ema[0] = close[0]], [ema[i] = alpha*close[i] +
    (1-alpha)*ema[i-1]]. *)
Definition recursive_seeded_form (alpha : Q) (closes ema : list Q) : Prop :=
  ema !! 0%nat = closes !! 0%nat
  /\ forall i, (0 < i < length closes)%nat ->
       nth i ema 0
       == alpha * nth i closes 0 + (1 - alpha) * nth (i - 1) ema 0.

(** A sequence of records in non-decreasing key order. *)
Definition ascending {A} (key : A -> Z) (l : list A) : Prop :=
  Sorted (fun a b => (key a <= key b)%Z) l.

Definition ascending_str {A} (key : A -> string) (l : list A) : Prop :=
  Sorted (fun a b => String.leb (key a) (key b) = true) l.

(** The number of items [l[-limit:]] keeps under the guard
    [if limit and limit > 0]: all of them without a positive limit. *)
Definition kept_count (limit : option Z) (total : nat) : nat :=
  match limit with
  | Some l => if (0 <? l)%Z then Nat.min (Z.to_nat l) total else total
  | None => total
  end.

(** The number of items [l[:b]] keeps. *)
Definition head_count (b : Z) (total : nat) : nat :=
  Z.to_nat (if (b <? 0)%Z then Z.max 0 (Z.of_nat total + b)
            else Z.min b (Z.of_nat total)).

(** The bundle [calculate_technical_indicators] returns below its floor
    of 50 candles. *)
Definition empty_bundle : Kraken.indicators :=
  {| Kraken.sma_20 := []; Kraken.sma_50 := []; Kraken.ema_12 := [];
     Kraken.ema_26 := []; Kraken.macd := Kraken.MacdEmpty;
     Kraken.rsi := [] |}.

(** An asset-pair record quoted in US dollars, as [get_trading_pairs]
    tests it. *)
Definition quoted_in_usd (v : pyval) : bool :=
  match v with
  | PDict d => Kraken.is_usd_quote (from_option id PNone (d !! "quote"%string))
  | _ => false
  end.

Definition is_dict (v : pyval) : Prop := exists d, v = PDict d.

(** A sub-fetch that yields nothing: the client raised, or its response
    has no entry for the pair. *)
Definition fetch_failed {A} (r : res (gmap string A)) (pair : string)
  : Prop :=
  match r with
  | Raise _ => True
  | Ok payload => payload !! pair = None
  end.

(** The candle sequence a call of [get_ohlc_data] returned. *)
Definition normalized (r : res Kraken.ohlc_result * nat)
  : list Kraken.candle :=
  match fst r with
  | Ok x => Kraken.ohlc_data x
  | Raise _ => []
  end.

(** The truncation law as the specification words it: with [limit = k],
    [k] not larger than the total, the normaliser returns the last [k]
    entries of what it returns without a limit. *)
Definition truncation_law (normalize : option Z -> list Kraken.candle)
    (k : Z) : Prop :=
  let full := normalize None in
  (0 <= k <= Z.of_nat (length full))%Z ->
  normalize (Some k) = drop (length full - Z.to_nat k) full.

(** The head law as the specification words it: the trades returned are
    the first [min(limit, n)] rows, formatted, in the provider's order. *)
Definition head_law (format : pyval -> res Kraken.trade)
    (rows : list pyval) (limit : Z)
    (out : res (option Kraken.trades_result)) : Prop :=
  exists r,
    out = Ok (Some r)
    /\ Forall2 (fun row t => format row = Ok t)
         (take (Z.to_nat (Z.min limit (Z.of_nat (length rows)))) rows)
         (Kraken.trades_trades r).

(** The keys every ticker snapshot carries. *)
Definition ticker_base_fields : list string :=
  ["symbol"; "price"; "open"; "high"; "low"; "volume"; "vwap"; "trades";
   "bid"; "ask"; "timestamp"]%string.

Definition ticker_derived_fields : list string :=
  ["change"; "change_percent"; "spread"]%string.

(** The cache cannot serve a read of [key]: there is no client, or its
    [get] raises in the current store. *)
Definition read_unavailable {S} (redis_client : option (Stock.redis S))
    (key : string) (st : Stock.state S) : Prop :=
  match redis_client with
  | None => True
  | Some client =>
      exists e s', Stock.redis_get client key (fst st) = (Raise e, s')
  end.

(** The step from each close to the next, and its two parts: what RSI
    averages as gain and as loss.  Position 0 has no step; the series of
    gains and of losses carry 0 there ([where] replaces the NaN of
    [diff]). *)
Fixpoint steps_from (prev : Q) (xs : list Q) : list Q :=
  match xs with
  | [] => []
  | x :: xs' => (x - prev) :: steps_from x xs'
  end.

Definition steps (xs : list Q) : list Q :=
  match xs with
  | [] => []
  | x :: xs' => steps_from x xs'
  end.

Definition gain_of (d : Q) : Q := if (0 <? Qnum d)%Z then d else 0.
Definition loss_of (d : Q) : Q := - (if (Qnum d <? 0)%Z then d else 0).

Definition gains (xs : list Q) : list Q :=
  match xs with
  | [] => []
  | _ :: _ => 0 :: (gain_of <$> steps xs)
  end.

Definition losses (xs : list Q) : list Q :=
  match xs with
  | [] => []
  | _ :: _ => (- 0) :: (loss_of <$> steps xs)
  end.

Definition strictly_increasing (xs : list Q) : Prop :=
  forall i a b, xs !! i = Some a -> xs !! S i = Some b -> a < b.

Definition strictly_decreasing (xs : list Q) : Prop :=
  forall i a b, xs !! i = Some a -> xs !! S i = Some b -> b < a.

(** All values of a series lie in [[lo, hi]]. *)
Definition within (lo hi : Q) (xs : list Q) : Prop :=
  Forall (fun x => lo <= x <= hi) xs.

(** A rolling-mean or RSI cell is NaN or a number in [[lo, hi]]. *)
Definition cell_within (lo hi : Q) (c : Pandas.cell) : Prop :=
  match c with
  | Pandas.Num q => lo <= q <= hi
  | Pandas.Inf _ => False
  | Pandas.NaN => True
  end.

(** The RSI value computed from an average gain and an average loss. *)
Definition rsi_of (g l : Pandas.cell) : Pandas.cell :=
  Pandas.csub (Pandas.Num 100)
    (Pandas.cdiv (Pandas.Num 100)
       (Pandas.cadd (Pandas.Num 1) (Pandas.cdiv g l))).

(** A text of ASCII characters only. *)
Fixpoint is_ascii (s : string) : bool :=
  match s with
  | EmptyString => true
  | String c s' => (nat_of_ascii c <? 128)%nat && is_ascii s'
  end.

(** A string holds a colon. *)
Fixpoint has_colon (s : string) : bool :=
  match s with
  | EmptyString => false
  | String c s' => Ascii.eqb c ":"%char || has_colon s'
  end.

End Spec.

(** ** Concrete inputs for the examples *)

Module Examples.
Import Py.
Local Open Scope Z_scope.

(** A reader of plain decimal literals ([-12], [50000.5]), enough to run
    the examples on payloads whose numbers are strings. *)
Definition digit_of (c : ascii) : option Z :=
  let n := Z.of_nat (nat_of_ascii c) in
  if (48 <=? n) && (n <=? 57) then Some (n - 48) else None.

Fixpoint digits_value (s : string) (acc : Z) : option Z :=
  match s with
  | EmptyString => Some acc
  | String c s' =>
      match digit_of c with
      | Some d => digits_value s' (10 * acc + d)
      | None => None
      end
  end.

Definition number_value (s : string) : option Z :=
  match s with
  | EmptyString => None
  | _ => digits_value s 0
  end.

Fixpoint split_dot (s : string) : string * option string :=
  match s with
  | EmptyString => (EmptyString, None)
  | String c s' =>
      if Ascii.eqb c "."%char then (EmptyString, Some s')
      else let '(a, b) := split_dot s' in (String c a, b)
  end.

Definition unsigned_decimal (s : string) : option Q :=
  let '(whole, frac) := split_dot s in
  match number_value whole, frac with
  | Some w, None => Some (inject_Z w)
  | Some w, Some f =>
      match digits_value f 0 with
      | Some d =>
          Some (inject_Z w
                + inject_Z d / inject_Z (10 ^ Z.of_nat (String.length f)))%Q
      | None => None
      end
  | None, _ => None
  end.

Definition decimal_to_float (s : string) : option Q :=
  match s with
  | String "-"%char s' => Qopp <$> unsigned_decimal s'
  | _ => unsigned_decimal s
  end.

Definition decimal_to_int (s : string) : option Z :=
  match s with
  | String "-"%char s' => Z.opp <$> number_value s'
  | _ => number_value s
  end.

Definition clock (n : nat) : string := "2024-01-01T00:00:00"%string.

(** A client that answers nothing. *)
Definition offline : Kraken.client :=
  {| Kraken.get_pair_ticker := fun _ => Raise RuntimeError;
     Kraken.client_get_ohlc_data := fun _ _ _ => Raise RuntimeError;
     Kraken.client_get_order_book := fun _ => Raise RuntimeError;
     Kraken.client_get_recent_trades := fun _ => Raise RuntimeError |}.

Definition btc : string := "XXBTZUSD".

(** A ticker entry in the exchange's layout, numbers as strings. *)
Definition ticker_entry : gmap string pyval :=
  <["a" := PList [PStr "50010.0"; PStr "1"; PStr "1.000"]]>
  (<["b" := PList [PStr "50000.0"; PStr "2"; PStr "2.000"]]>
  (<["c" := PList [PStr "50005.5"; PStr "0.01"]]>
  (<["v" := PList [PStr "100.5"; PStr "2500.25"]]>
  (<["p" := PList [PStr "49900.1"; PStr "49800.2"]]>
  (<["t" := PList [PInt 1200; PInt 30000]]>
  (<["l" := PList [PStr "49000.0"; PStr "48000.0"]]>
  (<["h" := PList [PStr "51000.0"; PStr "52000.0"]]>
  (<["o" := PStr "49500.0"]> ∅)))))))).

Definition with_ticker (entry : gmap string pyval) : Kraken.client :=
  {| Kraken.get_pair_ticker := fun _ => Ok (<[btc := PDict entry]> ∅);
     Kraken.client_get_ohlc_data := Kraken.client_get_ohlc_data offline;
     Kraken.client_get_order_book := Kraken.client_get_order_book offline;
     Kraken.client_get_recent_trades :=
       Kraken.client_get_recent_trades offline |}.

(** The snapshot [get_ticker] builds from that entry (the reader above, the
    clock below). *)
Definition ticker_snapshot : gmap string pyval :=
  Eval vm_compute in
    match
      fst (Kraken.get_ticker decimal_to_float decimal_to_int clock
             (with_ticker ticker_entry) btc 0%nat)
    with
    | Ok (Some snapshot) => snapshot
    | _ => ∅
    end.

(** The same entry without its opening price. *)
Definition ticker_entry_no_open : gmap string pyval :=
  delete "o"%string ticker_entry.

(** One OHLC row [[time, open, high, low, close, vwap, volume, count]]. *)
Definition ohlc_row (t : Z) (price : string) : pyval :=
  PList [PInt t; PStr price; PStr price; PStr price; PStr price;
         PStr price; PStr "1.5"; PInt 10].

Definition with_ohlc (rows : list pyval) : Kraken.client :=
  {| Kraken.get_pair_ticker := Kraken.get_pair_ticker offline;
     Kraken.client_get_ohlc_data := fun _ _ _ => Ok (<[btc := PList rows]> ∅);
     Kraken.client_get_order_book := Kraken.client_get_order_book offline;
     Kraken.client_get_recent_trades :=
       Kraken.client_get_recent_trades offline |}.

Definition rows_ascending : list pyval :=
  [ohlc_row 1000 "10.0"; ohlc_row 2000 "20.0"; ohlc_row 3000 "30.0"].

Definition rows_shuffled : list pyval :=
  [ohlc_row 3000 "30.0"; ohlc_row 1000 "10.0"; ohlc_row 2000 "20.0"].

(** One trade row [[price, volume, time, side, type, misc]]. *)
Definition trade_row (price : string) : pyval :=
  PList [PStr price; PStr "0.5"; PFloat (1700000000 # 1); PStr "b";
         PStr "l"; PStr ""].

Definition trade_rows : list pyval :=
  [trade_row "101.0"; trade_row "102.0"; trade_row "103.0"].

Definition with_trades (rows : list pyval) : Kraken.client :=
  {| Kraken.get_pair_ticker := Kraken.get_pair_ticker offline;
     Kraken.client_get_ohlc_data := Kraken.client_get_ohlc_data offline;
     Kraken.client_get_order_book := Kraken.client_get_order_book offline;
     Kraken.client_get_recent_trades :=
       fun _ => Ok (<[btc := PList rows]> ∅) |}.

(** Candles and bars whose close is a given number. *)
Definition candle_at (t : Z) (c : Q) : Kraken.candle :=
  {| Kraken.time := t; Kraken.open := c; Kraken.high := c; Kraken.low := c;
     Kraken.close := c; Kraken.vwap := c; Kraken.volume := 1;
     Kraken.trades := 1 |}.

Definition bar_at (t : Z) (c : Q) : Stock.bar :=
  {| Stock.bar_time := t; Stock.bar_open := c; Stock.bar_high := c;
     Stock.bar_low := c; Stock.bar_close := c; Stock.bar_volume := Some 1%Q |}.

(** Fifty candles (bars) closing at 1, 2, ..., 50. *)
Definition rising_candles : list Kraken.candle :=
  (fun i => candle_at (Z.of_nat i) (inject_Z (Z.of_nat (S i)))) <$> seq 0 50.

Definition rising_bars : list Stock.bar :=
  (fun i => bar_at (Z.of_nat i) (inject_Z (Z.of_nat (S i)))) <$> seq 0 50.

(** Thirty identical candles closing at 100. *)
Definition flat_candles : list Kraken.candle :=
  replicate 30 (candle_at 0 100).

(** A Redis client whose every call raises. *)
Definition broken_redis : Stock.redis unit :=
  {| Stock.redis_get := fun _ s => (Raise RuntimeError, s);
     Stock.redis_setex := fun _ _ _ s => (Raise RuntimeError, s) |}.

Definition json_unused_dumps (v : pyval) : res string := Ok "{}"%string.
Definition json_unused_loads (s : string) : res pyval := Ok PNone.

Definition one_bar_history (symbol period interval : string)
  : res (list Stock.bar) :=
  Ok [bar_at 1700000000 100].

(** One order-book level [[price, volume, timestamp]]. *)
Definition level_row (price : string) : pyval :=
  PList [PStr price; PStr "0.5"; PInt 1700000000].

Definition ask_rows : list pyval :=
  [level_row "101.0"; level_row "102.0"; level_row "103.0"].

Definition bid_rows : list pyval :=
  [level_row "100.0"; level_row "99.0"].

Definition book_entry : gmap string pyval :=
  <["asks" := PList ask_rows]> (<["bids" := PList bid_rows]> ∅).

Definition with_book (book : gmap string pyval) : Kraken.client :=
  {| Kraken.get_pair_ticker := Kraken.get_pair_ticker offline;
     Kraken.client_get_ohlc_data := Kraken.client_get_ohlc_data offline;
     Kraken.client_get_order_book := fun _ => Ok (<[btc := PDict book]> ∅);
     Kraken.client_get_recent_trades :=
       Kraken.client_get_recent_trades offline |}.

(** Two good OHLC rows around one that stops after its time. *)
Definition rows_with_short : list pyval :=
  [ohlc_row 1000 "10.0"; PList [PInt 2000]; ohlc_row 3000 "30.0"].

(** Three asset pairs, two of them quoted in dollars. *)
Definition asset_pair (base quote : string) : pyval :=
  PDict (<["base" := PStr base]> (<["quote" := PStr quote]> ∅)).

Definition asset_pairs : list (string * pyval) :=
  [("XETHZUSD", asset_pair "XETH" "ZUSD");
   ("XXBTZEUR", asset_pair "XXBT" "ZEUR");
   ("ADAUSD", asset_pair "ADA" "USD")]%string.

(** [str] on the values the examples format. *)
Definition str_of (v : pyval) : string :=
  match v with
  | PStr s => s
  | _ => "None"
  end.

(** Fifteen closes 1, 2, ..., 15. *)
Definition rising_closes : list Q :=
  (fun i => inject_Z (Z.of_nat (S i))) <$> seq 0 15.

(** A Redis with a single slot: [setex] overwrites it, [get] reads it;
    expiry is left out. *)
Definition slot_redis : Stock.redis (option (string * string)) :=
  {| Stock.redis_get := fun key s =>
       (Ok (match s with
            | Some (k, text) => if String.eqb k key then Some text else None
            | None => None
            end), s);
     Stock.redis_setex := fun key _ text _ => (Ok tt, Some (key, text)) |}.

(** A codec for one value: it writes a fixed text and reads it back as
    that value. *)
Definition json_const_dumps (v : pyval) : res string := Ok "cached"%string.
Definition json_const_loads (v : pyval) (s : string) : res pyval := Ok v.

End Examples.

(** * Properties *)

Import Py.

(** ** Exceptions and sequences *)

Ltac inv_res H :=
  repeat match type of H with
  | context [match ?r with Ok _ => _ | Raise _ => _ end] =>
      let E := fresh "E" in
      destruct r eqn:E; cbv beta iota in H; try discriminate H
  | context [match ?r with Some _ => _ | None => _ end] =>
      let E := fresh "E" in
      destruct r eqn:E; cbv beta iota in H; try discriminate H
  end.

(** A [try] whose handler returns a value never raises. *)
Lemma try_except_ret_total {St A} (body : M St A) (d : exn -> A) (s : St) :
  exists a s', try_except body (fun e => ret (d e)) s = (Ok a, s').
Proof.
  unfold try_except, ret. destruct (body s) as [[a|e] s']; eauto.
Qed.

Lemma mapM_Forall2 {A B} (f : A -> res B) (l : list A) (ys : list B) :
  mapM f l = Ok ys <-> Forall2 (fun x y => f x = Ok y) l ys.
Proof.
  revert ys. induction l as [|x l IH]; intros ys; simpl.
  - split.
    + intros [= <-]. constructor.
    + intros H. inversion H. reflexivity.
  - split.
    + destruct (f x) as [y|e] eqn:Ex; simpl; [|discriminate].
      destruct (mapM f l) as [ys'|e] eqn:El; simpl; [|discriminate].
      intros [= <-]. constructor; [exact Ex|]. now apply IH.
    + intros H. inversion H as [|x' y l' ys' Hxy Hl]; subst.
      rewrite Hxy. simpl. apply IH in Hl. rewrite Hl. reflexivity.
Qed.

Lemma mapM_Raise {A B} (f : A -> res B) (l : list A) (e : exn) :
  mapM f l = Raise e -> exists x, x ∈ l /\ exists e', f x = Raise e'.
Proof.
  revert e. induction l as [|x l IH]; intros e; simpl; [discriminate|].
  destruct (f x) as [y|e1] eqn:Ex; simpl.
  - destruct (mapM f l) as [ys|e2]; simpl; [discriminate|].
    intros _. destruct (IH e2) as (x' & Hin & He); [reflexivity|].
    exists x'. split; [now right|exact He].
  - intros _. exists x. split; [now left|eauto].
Qed.

Lemma mapM_imap_lookup {A B C} (g : B -> res C) (l : list A) :
  forall (h : nat -> A -> B),
    (forall i x, l !! i = Some x -> exists y, g (h i x) = Ok y) ->
    exists ys, mapM g (imap h l) = Ok ys
               /\ length ys = length l
               /\ forall i y, ys !! i = Some y ->
                    exists x, l !! i = Some x /\ g (h i x) = Ok y.
Proof.
  induction l as [|x l IH]; intros h Hok; simpl.
  - exists []. repeat split. intros i y Hy. discriminate.
  - destruct (Hok 0%nat x eq_refl) as (y & Hy). rewrite Hy. simpl.
    destruct (IH (h ∘ S)) as (ys & Hys & Hlen & Hl).
    { intros i x' Hx'. apply (Hok (S i) x' Hx'). }
    rewrite Hys. simpl. exists (y :: ys). split; [reflexivity|].
    split; [simpl; now rewrite Hlen|].
    intros [|i] y' Hy'.
    + injection Hy' as <-. exists x. split; [reflexivity|exact Hy].
    + apply Hl in Hy'. exact Hy'.
Qed.

(** [l[:b]] keeps [min(b, n)] items for [b >= 0], and drops the last [-b]
    for [b < 0]. *)
Lemma slice_to_take {A} (b : Z) (l : list A) :
  slice_to b l
  = take (Z.to_nat (if b <? 0 then Z.max 0 (Z.of_nat (length l) + b)
                    else Z.min b (Z.of_nat (length l)))) l.
Proof.
  unfold slice_to. destruct (b <? 0) eqn:E; [reflexivity|].
  apply Z.ltb_ge in E.
  destruct (Z.le_ge_cases b (Z.of_nat (length l))) as [H|H].
  - now rewrite Z.min_l.
  - rewrite Z.min_r by lia. rewrite Nat2Z.id.
    rewrite firstn_all. apply firstn_all2. lia.
Qed.

(** [l[-k:]] keeps the last [k] items for [1 <= k <= n]. *)
Lemma slice_from_neg {A} (k : Z) (l : list A) :
  1 <= k <= Z.of_nat (length l) ->
  slice_from (- k) l = drop (length l - Z.to_nat k) l.
Proof.
  intros Hk. unfold slice_from.
  destruct (Z.ltb_spec (- k) 0); [|lia]. f_equal. lia.
Qed.

Section SortFacts.
Context {A : Type} (key : A -> Z).

Lemma insert_by_hd x l :
  HdRel (fun a b => key a <= key b) x l -> insert_by key x l = x :: l.
Proof.
  intros [|y l' Hxy]; [reflexivity|]. simpl.
  destruct (Z.leb_spec (key x) (key y)); [reflexivity|lia].
Qed.

(** Sorting a sequence that is already in order changes nothing. *)
Lemma sort_by_ascending l : Spec.ascending key l -> sort_by key l = l.
Proof.
  induction 1 as [|x l Hl IH Hhd]; [reflexivity|].
  unfold sort_by in *. simpl. rewrite IH. now apply insert_by_hd.
Qed.

Lemma ascending_drop n l :
  Spec.ascending key l -> Spec.ascending key (drop n l).
Proof.
  revert l. induction n as [|n IH]; intros l Hl; [now rewrite drop_0|].
  destruct l as [|x l]; [exact Hl|]. simpl. apply IH.
  now inversion Hl.
Qed.

Lemma insert_by_length x l : length (insert_by key x l) = S (length l).
Proof.
  induction l as [|y l IH]; [reflexivity|]. simpl.
  destruct (key x <=? key y); simpl; [reflexivity|now rewrite IH].
Qed.

Lemma sort_by_length l : length (sort_by key l) = length l.
Proof.
  induction l as [|x l IH]; [reflexivity|].
  unfold sort_by in *. simpl. now rewrite insert_by_length, IH.
Qed.
End SortFacts.

(** ** The pandas kernels *)

Import Pandas Spec.

Section PandasFacts.
Local Open Scope Q_scope.

Lemma Qsum_app l k : Qsum (l ++ k) == Qsum l + Qsum k.
Proof.
  induction l as [|x l IH]; simpl.
  - ring.
  - rewrite IH. ring.
Qed.

Lemma roll_mean_length w : forall s i acc leaving,
  length (roll_mean w i acc leaving s) = length s.
Proof.
  induction s as [|x s IH]; intros i acc leaving; simpl; [reflexivity|].
  destruct (w <=? i)%nat; [destruct leaving|]; simpl; now rewrite IH.
Qed.

Lemma drop_last_snoc (w : nat) (pre : list Q) (x : Q) :
  (0 < w <= length pre)%nat ->
  drop (length (pre ++ [x]) - w) (pre ++ [x])
  = drop 1 (drop (length pre - w) pre) ++ [x].
Proof.
  intros Hw. rewrite length_app. simpl.
  replace (length pre + 1 - w)%nat with (S (length pre - w)) by lia.
  rewrite drop_drop.
  replace (length pre - w + 1)%nat with (S (length pre - w)) by lia.
  apply drop_app_le. lia.
Qed.

Lemma roll_mean_lookup (w : nat) (Hw : (0 < w)%nat) :
  forall (s pre : list Q) acc leaving j,
    leaving = Num <$> drop (length pre - w) (pre ++ s) ->
    fst acc == Qsum (drop (length pre - w) pre) ->
    snd acc = length (drop (length pre - w) pre) ->
    (j < length s)%nat ->
    exists c,
      roll_mean w (length pre) acc leaving (Num <$> s) !! j = Some c
      /\ cell_is_mean w (trailing w (length pre + j) (pre ++ s)) c.
Proof.
  induction s as [|x s IH]; intros pre acc leaving j Hlv Hsum Hn Hj;
    [simpl in Hj; lia|].
  assert (Hstep :
    exists acc2 leaving1,
      roll_mean w (length pre) acc leaving (Num <$> x :: s)
      = calc_mean w acc2 :: roll_mean w (S (length pre)) acc2 leaving1 (Num <$> s)
      /\ leaving1 = Num <$> drop (length (pre ++ [x]) - w) ((pre ++ [x]) ++ s)
      /\ fst acc2 == Qsum (drop (length (pre ++ [x]) - w) (pre ++ [x]))
      /\ snd acc2 = length (drop (length (pre ++ [x]) - w) (pre ++ [x]))).
  { rewrite fmap_cons. cbn [roll_mean].
    destruct (Nat.leb_spec w (length pre)) as [Hle|Hlt].
    - (* the window is full: one cell leaves *)
      assert (Hd : exists old rest, drop (length pre - w) pre = old :: rest).
      { destruct (drop (length pre - w) pre) as [|old rest] eqn:E; [|eauto].
        apply (f_equal length) in E. rewrite length_drop in E. simpl in E. lia. }
      destruct Hd as (old & rest & Hd).
      assert (Hlv' : leaving = Num old :: (Num <$> (rest ++ x :: s))).
      { rewrite Hlv, drop_app_le by lia. now rewrite Hd. }
      rewrite Hlv'. eexists _, _. split; [reflexivity|].
      rewrite drop_last_snoc by lia. rewrite Hd. simpl. rewrite drop_0.
      split; [|split].
      + rewrite (drop_app_le (pre ++ [x])) by (rewrite length_app; simpl; lia).
        rewrite drop_last_snoc by lia. rewrite Hd. simpl. rewrite drop_0.
        now rewrite <- app_assoc.
      + rewrite Hsum, Hd, Qsum_app. simpl. ring.
      + rewrite Hn, Hd, length_app. simpl. lia.
    - (* still warming up: nothing leaves *)
      eexists _, _. split; [reflexivity|].
      replace (length (pre ++ [x]) - w)%nat with 0%nat
        by (rewrite length_app; simpl; lia).
      replace (length pre - w)%nat with 0%nat in * by lia.
      rewrite !drop_0 in *. split; [|split].
      + now rewrite Hlv, <- app_assoc.
      + simpl. rewrite Hsum, Qsum_app. simpl. ring.
      + simpl. rewrite Hn, length_app. simpl. lia. }
  destruct Hstep as (acc2 & leaving1 & -> & Hlv1 & Hsum1 & Hn1).
  destruct j as [|j].
  - exists (calc_mean w acc2). split; [reflexivity|].
    unfold cell_is_mean, trailing, calc_mean.
    rewrite Nat.add_0_r.
    replace (take (S (length pre)) (pre ++ x :: s)) with (pre ++ [x]).
    2:{ replace (S (length pre)) with (length pre + 1)%nat by lia.
        rewrite take_app_add'; [reflexivity|reflexivity]. }
    replace (S (length pre)) with (length (pre ++ [x]))
      by (rewrite length_app; simpl; lia).
    rewrite <- Hn1.
    destruct (Nat.leb_spec w (snd acc2)) as [Hfull|Hshort]; simpl.
    + replace (0 <? snd acc2)%nat with true
        by (symmetry; apply Nat.ltb_lt; lia).
      eexists. split; [reflexivity|]. unfold mean.
      now rewrite Hsum1, Hn1.
    + reflexivity.
  - simpl in Hj.
    replace (S (length pre)) with (length (pre ++ [x])) in *
      by (rewrite length_app; simpl; lia).
    destruct (IH (pre ++ [x]) acc2 leaving1 j Hlv1 Hsum1 Hn1 ltac:(lia))
      as (c & Hc & Hspec).
    exists c. split; [exact Hc|].
    rewrite <- app_assoc in Hspec. simpl in Hspec.
    replace (length pre + S j)%nat with (length (pre ++ [x]) + j)%nat
      by (rewrite length_app; simpl; lia).
    exact Hspec.
Qed.

Lemma Qsum_cons x l : Qsum (x :: l) = x + Qsum l.
Proof. reflexivity. Qed.

Lemma Qsum_scale (f : Q) (g : nat -> Q) (l : list nat) :
  Qsum ((fun j => f * g j) <$> l) == f * Qsum (g <$> l).
Proof.
  induction l as [|a l IH].
  - simpl. ring.
  - rewrite !fmap_cons, !Qsum_cons, IH. ring.
Qed.

Lemma Qsum_ext (g h : nat -> Q) (l : list nat) :
  (forall j, In j l -> g j == h j) -> Qsum (g <$> l) == Qsum (h <$> l).
Proof.
  induction l as [|a l IH]; intros H; [reflexivity|].
  rewrite !fmap_cons, !Qsum_cons.
  rewrite (H a) by now left. rewrite IH; [reflexivity|].
  intros j Hj. apply H. now right.
Qed.

Lemma weighted_sum_0 f xs : weighted_sum f xs 0 == nth 0 xs 0.
Proof. unfold weighted_sum. simpl. ring. Qed.

Lemma weighted_sum_S f xs i :
  weighted_sum f xs (S i) == nth (S i) xs 0 + f * weighted_sum f xs i.
Proof.
  unfold weighted_sum.
  change (seq 0 (S (S i))) with (0%nat :: seq 1 (S i)).
  rewrite <- seq_shift. rewrite fmap_cons.
  change (Qsum (?a :: ?l)) with (a + Qsum l).
  rewrite <- list_fmap_compose.
  rewrite <- Qsum_scale.
  simpl Qpow at 1. rewrite Qmult_1_l.
  apply Qplus_comp; [reflexivity|].
  apply Qsum_ext. intros j _. unfold compose. simpl. ring.
Qed.

Lemma weight_total_0 f : weight_total f 0 == 1.
Proof. unfold weight_total. simpl. ring. Qed.

Lemma weight_total_S f i : weight_total f (S i) == 1 + f * weight_total f i.
Proof.
  unfold weight_total.
  change (seq 0 (S (S i))) with (0%nat :: seq 1 (S i)).
  rewrite <- seq_shift. rewrite fmap_cons.
  change (Qsum (?a :: ?l)) with (a + Qsum l).
  rewrite <- list_fmap_compose.
  rewrite <- Qsum_scale.
  apply Qplus_comp; [reflexivity|].
  apply Qsum_ext. intros j _. unfold compose. simpl. ring.
Qed.

Lemma weight_total_pos f i : 0 <= f -> 1 <= weight_total f i.
Proof.
  intros Hf. induction i as [|i IH].
  - rewrite weight_total_0. apply Qle_refl.
  - rewrite weight_total_S.
    assert (0 <= f * weight_total f i).
    { apply Qmult_le_0_compat; [exact Hf|].
      apply Qle_trans with 1; [discriminate|exact IH]. }
    rewrite <- (Qplus_0_r 1) at 1. apply Qplus_le_compat; [apply Qle_refl|assumption].
Qed.

Lemma ewm_from_length f : forall s weighted old_wt,
  length (ewm_from f weighted old_wt s) = length s.
Proof.
  induction s as [|x s IH]; intros; simpl; [reflexivity|]. now rewrite IH.
Qed.

Lemma ewm_mean_length span s : length (ewm_mean span s) = length s.
Proof. destruct s; simpl; [reflexivity|]. now rewrite ewm_from_length. Qed.

Lemma ewm_from_lookup (f : Q) (Hf : 0 <= f) (xs : list Q) :
  forall s i weighted old_wt j e,
    s = drop (S i) xs ->
    weighted == weighted_sum f xs i / weight_total f i ->
    old_wt == weight_total f i ->
    ewm_from f weighted old_wt s !! j = Some e ->
    e == weighted_sum f xs (S i + j) / weight_total f (S i + j).
Proof.
  induction s as [|cur s IH]; intros i weighted old_wt j e Hs Hw Ho He;
    [discriminate|].
  assert (Hcur : nth (S i) xs 0 = cur).
  { apply nth_lookup_Some with (d := 0).
    pose proof (lookup_drop xs (S i) 0) as H. rewrite <- Hs in H.
    rewrite Nat.add_0_r in H. now rewrite <- H. }
  assert (Hs' : s = drop (S (S i)) xs).
  { replace (S (S i)) with (S i + 1)%nat by lia. rewrite <- drop_drop, <- Hs.
    reflexivity. }
  pose proof (weight_total_pos f i Hf) as HD.
  pose proof (weight_total_pos f (S i) Hf) as HD'.
  assert (HDnz : ~ weight_total f i == 0).
  { intros E. rewrite E in HD. now apply HD. }
  assert (HDnz' : ~ weight_total f (S i) == 0).
  { intros E. rewrite E in HD'. now apply HD'. }
  cbn [ewm_from] in He.
  set (old_wt1 := old_wt * f) in *.
  set (weighted1 := if Qeq_bool weighted cur then weighted
                    else (old_wt1 * weighted + 1 * cur) / (old_wt1 + 1)) in *.
  assert (Hden : old_wt1 + 1 == weight_total f (S i)).
  { unfold old_wt1. rewrite Ho, weight_total_S. ring. }
  assert (Hw1 : weighted1 == weighted_sum f xs (S i) / weight_total f (S i)).
  { assert (Hgen : (old_wt1 * weighted + 1 * cur) / (old_wt1 + 1)
                   == weighted_sum f xs (S i) / weight_total f (S i)).
    { rewrite Hden. rewrite weighted_sum_S, Hcur.
      unfold old_wt1. rewrite Ho, Hw.
      field. split; assumption. }
    unfold weighted1. destruct (Qeq_bool weighted cur) eqn:E; [|exact Hgen].
    apply Qeq_bool_eq in E. rewrite <- Hgen, <- E.
    field. rewrite Hden. exact HDnz'. }
  destruct j as [|j].
  - simpl in He. injection He as <-. rewrite Nat.add_0_r. exact Hw1.
  - simpl in He.
    replace (S i + S j)%nat with (S (S i) + j)%nat by lia.
    eapply IH; eauto.
Qed.

Lemma ewm_mean_lookup (span : Q) (xs : list Q) (i : nat) (e : Q) :
  1 <= span ->
  ewm_mean span xs !! i = Some e ->
  e == weighted_sum (1 - ewm_alpha span) xs i
       / weight_total (1 - ewm_alpha span) i.
Proof.
  intros Hspan He.
  assert (Hf : 0 <= 1 - ewm_alpha span).
  { unfold ewm_alpha, Qminus. apply -> Qle_minus_iff.
    apply Qle_shift_div_r.
    - apply Qlt_le_trans with (1 + 1); [reflexivity|].
      apply Qplus_le_compat; [exact Hspan|apply Qle_refl].
    - rewrite Qmult_1_l. apply (Qplus_le_compat 1 span 1 1);
        [exact Hspan|apply Qle_refl]. }
  destruct xs as [|x0 xs]; [discriminate|].
  destruct i as [|i].
  - simpl in He. injection He as <-.
    rewrite weighted_sum_0, weight_total_0. simpl. field.
  - simpl in He.
    eapply (ewm_from_lookup _ Hf (x0 :: xs) xs 0%nat); eauto.
    + rewrite weighted_sum_0, weight_total_0. simpl. field.
    + rewrite weight_total_0. reflexivity.
Qed.

Lemma rolling_mean_length w s : length (rolling_mean w s) = length s.
Proof. apply roll_mean_length. Qed.

Lemma rolling_mean_lookup (w : nat) (xs : list Q) (i : nat) :
  (0 < w)%nat -> (i < length xs)%nat ->
  exists c, rolling_mean w (Num <$> xs) !! i = Some c
            /\ cell_is_mean w (trailing w i xs) c.
Proof.
  intros Hw Hi.
  destruct (roll_mean_lookup w Hw xs [] (0, 0%nat) (Num <$> xs) i)
    as (c & Hc & Hspec); try reflexivity; [exact Hi|].
  exists c. split; [exact Hc|exact Hspec].
Qed.

Lemma trailing_length w i xs :
  (i < length xs)%nat -> length (trailing w i xs) = Nat.min (S i) w.
Proof.
  intros Hi. unfold trailing. rewrite length_drop, length_take. lia.
Qed.

Lemma diff_from_length : forall s prev, length (diff_from prev s) = length s.
Proof. induction s as [|x s IH]; intros; simpl; [reflexivity|now rewrite IH]. Qed.

Lemma diff_length s : length (diff s) = length s.
Proof. destruct s; simpl; [reflexivity|now rewrite diff_from_length]. Qed.

Lemma sub_series_length a b :
  length (sub_series a b) = Nat.min (length a) (length b).
Proof. apply length_zip_with. Qed.


End PandasFacts.

(** ** The indicator engine *)

Section IndicatorFacts.
Local Open Scope Q_scope.

Lemma rolling_mean_aligned (w : nat) (xs : list Q) :
  (0 < w)%nat -> sma_aligned w xs (rolling_mean w (Num <$> xs)).
Proof.
  intros Hw. split; [|split].
  - now rewrite rolling_mean_length, length_fmap.
  - intros i Hi Hlen.
    destruct (rolling_mean_lookup w xs i Hw Hlen) as (c & -> & Hc).
    unfold cell_is_mean in Hc. rewrite trailing_length in Hc by exact Hlen.
    destruct (Nat.leb_spec w (Nat.min (S i) w)); [lia|]. now rewrite Hc.
  - intros i [Hi Hlen].
    destruct (rolling_mean_lookup w xs i Hw Hlen) as (c & -> & Hc).
    unfold cell_is_mean in Hc. rewrite trailing_length in Hc by exact Hlen.
    destruct (Nat.leb_spec w (Nat.min (S i) w)); [|lia].
    destruct Hc as (q & -> & Hq). eauto.
Qed.

Lemma null_if_na_aligned (w : nat) (xs : list Q) (out : list cell) :
  sma_aligned w xs out -> sma_aligned_json w xs (Stock.null_if_na <$> out).
Proof.
  intros (Hlen & Hnan & Hmean). split; [|split].
  - now rewrite length_fmap.
  - intros i Hi Hl. rewrite list_lookup_fmap, (Hnan i Hi Hl). reflexivity.
  - intros i Hi. destruct (Hmean i Hi) as (q & Hq & Hm).
    exists q. rewrite list_lookup_fmap, Hq. split; [reflexivity|exact Hm].
Qed.

Lemma kraken_rsi_length xs : length (Kraken.rsi_series xs) = length xs.
Proof.
  unfold Kraken.rsi_series, div_series, where_.
  rewrite length_fmap, length_zip_with, !rolling_mean_length, !length_fmap,
    diff_length, length_fmap. lia.
Qed.

Lemma stock_rsi_length xs : length (Stock.rsi_series xs) = length xs.
Proof.
  unfold Stock.rsi_series, div_series, where_.
  rewrite length_fmap, length_zip_with, !rolling_mean_length, !length_fmap,
    diff_length, length_fmap. lia.
Qed.

Lemma iloc_lt {A} (s : list A) i :
  (i < length s)%nat -> exists x, Stock.iloc s i = Ok x /\ s !! i = Some x.
Proof.
  intros H. unfold Stock.iloc.
  destruct (lookup_lt_is_Some_2 s i H) as [x ->]. eauto.
Qed.

(** The loop over [hist.iterrows()] never runs out of a series: every row
    of the history gets its entry, read off the series at the same
    position. *)
Lemma technical_rows_columns (hist : list Stock.bar) :
  let close_prices := Stock.bar_close <$> hist in
  exists rows,
    Stock.technical_rows hist = Ok rows
    /\ length rows = length hist
    /\ Stock.row_sma20 <$> rows
       = Stock.null_if_na <$> rolling_mean 20 (Num <$> close_prices)
    /\ Stock.row_sma50 <$> rows
       = Stock.null_if_na <$> rolling_mean 50 (Num <$> close_prices)
    /\ Stock.row_rsi <$> rows
       = Stock.null_if_na <$> Stock.rsi_series close_prices.
Proof.
  intros close_prices. unfold Stock.technical_rows. fold close_prices.
  set (sma_20 := rolling_mean 20 (Num <$> close_prices)).
  set (sma_50 := rolling_mean 50 (Num <$> close_prices)).
  set (macd_line :=
         sub_series (ewm_mean 12 close_prices) (ewm_mean 26 close_prices)).
  set (signal_line := ewm_mean 9 macd_line).
  set (rsi := Stock.rsi_series close_prices).
  assert (Hlen : length close_prices = length hist)
    by (unfold close_prices; apply length_fmap).
  assert (H20 : length sma_20 = length hist)
    by (unfold sma_20; now rewrite rolling_mean_length, length_fmap).
  assert (H50 : length sma_50 = length hist)
    by (unfold sma_50; now rewrite rolling_mean_length, length_fmap).
  assert (Hm : length macd_line = length hist)
    by (unfold macd_line; rewrite sub_series_length, !ewm_mean_length; lia).
  assert (Hs : length signal_line = length hist)
    by (unfold signal_line; now rewrite ewm_mean_length).
  assert (Hr : length rsi = length hist)
    by (unfold rsi; now rewrite stock_rsi_length).
  match goal with
  | |- context [mapM ?g (imap pair hist)] =>
      destruct (mapM_imap_lookup g hist pair) as (rows & Hrows & Hl & Hi)
  end.
  { intros i b Hb. apply lookup_lt_Some in Hb.
    destruct (iloc_lt sma_20 i) as (s20 & -> & _); [lia|].
    destruct (iloc_lt sma_50 i) as (s50 & -> & _); [lia|].
    destruct (iloc_lt macd_line i) as (m & -> & _); [lia|].
    destruct (iloc_lt signal_line i) as (sg & -> & _); [lia|].
    destruct (iloc_lt rsi i) as (r & -> & _); [lia|].
    simpl. eauto. }
  exists rows. split; [exact Hrows|]. split; [exact Hl|].
  assert (Hcol : forall i row, rows !! i = Some row ->
            exists s20 s50 r,
              sma_20 !! i = Some s20 /\ sma_50 !! i = Some s50
              /\ rsi !! i = Some r
              /\ Stock.row_sma20 row = Stock.null_if_na s20
              /\ Stock.row_sma50 row = Stock.null_if_na s50
              /\ Stock.row_rsi row = Stock.null_if_na r).
  { intros i row Hrow. destruct (Hi i row Hrow) as (b & Hb & Hg).
    apply lookup_lt_Some in Hb.
    destruct (iloc_lt sma_20 i) as (s20 & E20 & L20); [lia|].
    destruct (iloc_lt sma_50 i) as (s50 & E50 & L50); [lia|].
    destruct (iloc_lt macd_line i) as (m & Em & _); [lia|].
    destruct (iloc_lt signal_line i) as (sg & Esg & _); [lia|].
    destruct (iloc_lt rsi i) as (r & Er & Lr); [lia|].
    rewrite E20, E50, Em, Esg, Er in Hg. simpl in Hg. injection Hg as <-.
    exists s20, s50, r. simpl. repeat split; assumption. }
  repeat split; apply list_eq; intros i; rewrite !list_lookup_fmap;
    destruct (rows !! i) as [row|] eqn:Hrow; simpl.
  all: try (destruct (Hcol i row Hrow)
              as (s20 & s50 & r & E1 & E2 & E3 & E4 & E5 & E6);
            rewrite ?E1, ?E2, ?E3, ?E4, ?E5, ?E6; reflexivity).
  all: apply lookup_ge_None in Hrow; symmetry.
  - rewrite (lookup_ge_None_2 sma_20); [reflexivity|lia].
  - rewrite (lookup_ge_None_2 sma_50); [reflexivity|lia].
  - rewrite (lookup_ge_None_2 rsi); [reflexivity|lia].
Qed.

Lemma calculate_technical_indicators_long (data : list Kraken.candle) :
  (50 <= length data)%nat ->
  Kraken.calculate_technical_indicators data
  = let df_close := Kraken.closes data in
    let macd_line :=
      sub_series (ewm_mean 12 df_close) (ewm_mean 26 df_close) in
    let signal_line := ewm_mean 9 macd_line in
    {| Kraken.sma_20 := rolling_mean 20 (Num <$> df_close);
       Kraken.sma_50 := rolling_mean 50 (Num <$> df_close);
       Kraken.ema_12 := ewm_mean 12 df_close;
       Kraken.ema_26 := ewm_mean 26 df_close;
       Kraken.macd :=
         Kraken.MacdSeries macd_line signal_line
           (sub_series macd_line signal_line);
       Kraken.rsi := Kraken.rsi_series df_close |}.
Proof.
  intros H. unfold Kraken.calculate_technical_indicators.
  destruct (Z.ltb_spec (Z.of_nat (length data)) 50); [lia|reflexivity].
Qed.

(** C4.  For a candle sequence of at least 50 entries, on both paths
    (the Kraken provider's bundle and the rows of the stock service), the
    SMA(20) and SMA(50) columns have the length of the input (one entry
    per candle, one row per bar), their first 19 (49) entries are NaN
    (null in the JSON rows), and every later entry is the arithmetic mean
    of the [close] fields of the 20 (50) candles (bars) ending at its
    position. *)
Theorem sma_aligned_with_trailing_mean
    (data : list Kraken.candle) (hist : list Stock.bar) :
  (50 <= length data)%nat ->
  (50 <= length hist)%nat ->
  (let ind := Kraken.calculate_technical_indicators data in
   length (Kraken.sma_20 ind) = length data
   /\ length (Kraken.sma_50 ind) = length data
   /\ sma_aligned 20 (Kraken.close <$> data) (Kraken.sma_20 ind)
   /\ sma_aligned 50 (Kraken.close <$> data) (Kraken.sma_50 ind))
  /\ exists rows,
       Stock.technical_rows hist = Ok rows
       /\ length rows = length hist
       /\ sma_aligned_json 20 (Stock.bar_close <$> hist)
            (Stock.row_sma20 <$> rows)
       /\ sma_aligned_json 50 (Stock.bar_close <$> hist)
            (Stock.row_sma50 <$> rows).
Proof.
  intros Hdata Hhist. split.
  - rewrite (calculate_technical_indicators_long data Hdata).
    unfold Kraken.closes. cbn [Kraken.sma_20 Kraken.sma_50].
    split; [now rewrite rolling_mean_length, !length_fmap|].
    split; [now rewrite rolling_mean_length, !length_fmap|].
    split; apply rolling_mean_aligned; lia.
  - destruct (technical_rows_columns hist)
      as (rows & Hrows & Hlen & H20 & H50 & _).
    exists rows. split; [exact Hrows|]. split; [exact Hlen|].
    rewrite H20, H50.
    split; apply null_if_na_aligned, rolling_mean_aligned; lia.
Qed.

(** C1 (as the code has it).  For every span of at least 1 and every close
    sequence, the EMA series has the length of the input, starts at the
    first close, and its entry [i] is the weighted mean of the closes up to
    [i], the close [j] steps back weighted by [(1-alpha)^j], with
    [alpha = 2/(span+1)]: pandas' default [adjust=True].  The provider's
    [ema_12] and [ema_26] are this series for spans 12 and 26. *)
Theorem ema_is_adjusted_weighted_mean (span : Q) (closes : list Q) :
  1 <= span ->
  let ema := ewm_mean span closes in
  let f := 1 - ewm_alpha span in
  length ema = length closes
  /\ ema !! 0%nat = closes !! 0%nat
  /\ (forall i, (i < length closes)%nat ->
        exists e, ema !! i = Some e
                  /\ e == weighted_sum f closes i / weight_total f i)
  /\ (forall data, (50 <= length data)%nat ->
        Kraken.ema_12 (Kraken.calculate_technical_indicators data)
        = ewm_mean 12 (Kraken.closes data)
        /\ Kraken.ema_26 (Kraken.calculate_technical_indicators data)
           = ewm_mean 26 (Kraken.closes data)).
Proof.
  intros Hspan ema f. split; [apply ewm_mean_length|].
  split; [now destruct closes|]. split.
  - intros i Hi.
    destruct (lookup_lt_is_Some_2 ema i) as [e He];
      [unfold ema; now rewrite ewm_mean_length|].
    exists e. split; [exact He|]. now apply ewm_mean_lookup.
  - intros data Hdata.
    now rewrite (calculate_technical_indicators_long data Hdata).
Qed.


(** C5 (as the code has it).  Thirty identical entries closing at 100: in
    the stock service the SMA(20) at index 19 is exactly 100 and every RSI
    entry is null; in the Kraken provider the input is below the floor of
    50 candles and every output, SMA(20) and RSI included, is the empty
    list. *)
Theorem flat_series_sma_and_rsi (b : Stock.bar) (c : Kraken.candle) :
  Stock.bar_close b = 100 ->
  Kraken.close c = 100 ->
  (exists rows,
     Stock.technical_rows (replicate 30 b) = Ok rows
     /\ length rows = 30%nat
     /\ (exists row q, rows !! 19%nat = Some row
                       /\ Stock.row_sma20 row = Some (Num q) /\ q == 100)
     /\ Forall (fun row => Stock.row_rsi row = None) rows)
  /\ Kraken.calculate_technical_indicators (replicate 30 c)
     = {| Kraken.sma_20 := []; Kraken.sma_50 := []; Kraken.ema_12 := [];
          Kraken.ema_26 := []; Kraken.macd := Kraken.MacdEmpty;
          Kraken.rsi := [] |}.
Proof.
  intros Hb Hc. split; [|reflexivity].
  destruct (technical_rows_columns (replicate 30 b))
    as (rows & Hrows & Hlen & H20 & _ & Hrsi).
  rewrite fmap_replicate, Hb in H20, Hrsi.
  exists rows. split; [exact Hrows|]. split; [exact Hlen|]. split.
  - assert (H19 : (Stock.row_sma20 <$> rows) !! 19%nat
                  = Some (Some (Num (2000 # 20)))).
    { rewrite H20. vm_compute. reflexivity. }
    rewrite list_lookup_fmap in H19.
    destruct (rows !! 19%nat) as [row|]; [|discriminate].
    injection H19 as H19. exists row, (2000 # 20).
    split; [reflexivity|]. split; [exact H19|reflexivity].
  - assert (Hall : Forall (fun o => o = None) (Stock.row_rsi <$> rows)).
    { rewrite Hrsi. vm_compute. repeat constructor. }
    apply Forall_fmap in Hall. exact Hall.
Qed.

End IndicatorFacts.

(** ** The Kraken provider *)

Section KrakenFacts.
Variable str_to_float : string -> option Q.
Variable str_to_int : string -> option Z.
Variable clock : nat -> string.
Variable kraken : Kraken.client.

Local Abbreviation get_ticker :=
  (Kraken.get_ticker str_to_float str_to_int clock kraken).
Local Abbreviation get_ohlc_data :=
  (Kraken.get_ohlc_data str_to_float str_to_int clock kraken).
Local Abbreviation get_order_book :=
  (Kraken.get_order_book str_to_float str_to_int clock kraken).
Local Abbreviation get_recent_trades :=
  (Kraken.get_recent_trades str_to_float clock kraken).
Local Abbreviation get_market_summary :=
  (Kraken.get_market_summary str_to_float str_to_int clock kraken).
Local Abbreviation process_candles :=
  (Kraken.process_candles str_to_float str_to_int).
Local Abbreviation format_trade := (Kraken.format_trade str_to_float).

(** *** Ticker *)

Lemma get_ticker_snapshot pair n snapshot n' :
  get_ticker pair n = (Ok (Some snapshot), n') ->
  (forall k, k ∈ ticker_base_fields -> k ∈ dom snapshot)
  /\ exists o,
       snapshot !! "open"%string = Some (PFloat o)
       /\ forall k, k ∈ ticker_derived_fields ->
            (k ∈ dom snapshot <-> (0 < o)%Q).
Proof.
  intros H.
  unfold Kraken.get_ticker, try_except, bind, lift, ret, Kraken.now in H.
  inv_res H.
  match type of H with
  | context [Qlt_le_dec 0 ?o] => rename o into open_
  end.
  destruct (Qlt_le_dec 0 open_) as [Hpos|Hneg]; cbv beta iota in H;
    injection H as <- <-.
  - split.
    + intros k Hk. unfold ticker_base_fields in Hk.
      repeat (apply elem_of_cons in Hk as [->|Hk];
              [apply elem_of_dom; eexists; reflexivity|]).
      now apply elem_of_nil in Hk.
    + exists open_. split; [reflexivity|].
      intros k Hk. unfold ticker_derived_fields in Hk.
      repeat (apply elem_of_cons in Hk as [->|Hk];
              [split; [intros _; exact Hpos
                      |intros _; apply elem_of_dom; eexists; reflexivity]|]).
      now apply elem_of_nil in Hk.
  - split.
    + intros k Hk. unfold ticker_base_fields in Hk.
      repeat (apply elem_of_cons in Hk as [->|Hk];
              [apply elem_of_dom; eexists; reflexivity|]).
      now apply elem_of_nil in Hk.
    + exists open_. split; [reflexivity|].
      intros k Hk. unfold ticker_derived_fields in Hk.
      repeat (apply elem_of_cons in Hk as [->|Hk];
              [split; [intros Hin; exfalso; revert Hin;
                       apply not_elem_of_dom; reflexivity
                      |intros Hin; exfalso;
                       apply (Qle_not_lt _ _ Hneg); exact Hin]|]).
      now apply elem_of_nil in Hk.
Qed.

Lemma get_ticker_missing_open pair n payload t :
  Kraken.get_pair_ticker kraken pair = Ok payload ->
  payload !! pair = Some (PDict t) ->
  t !! "o"%string = None ->
  get_ticker pair n = (Ok None, n).
Proof.
  intros Hp Ht Ho.
  unfold Kraken.get_ticker, try_except, bind, lift, ret, Kraken.now.
  rewrite Hp. cbv beta iota. rewrite Ht. cbv beta iota.
  destruct (rbind (Kraken.field (PDict t) "c" 0) _) as [price|e];
    [|reflexivity].
  cbv beta iota. unfold getitem at 1. rewrite Ho. reflexivity.
Qed.

(** C3 (as the code has it).  Whenever [get_ticker] returns a snapshot, the
    snapshot has all its base fields (bid and ask among them) and carries
    each of [change], [change_percent] and [spread] exactly when
    [open > 0]; and for a ticker entry without the [o] field no snapshot is
    returned at all ([None]), the clock left unread. *)
Theorem ticker_snapshot_fields pair n :
  (forall snapshot n',
     get_ticker pair n = (Ok (Some snapshot), n') ->
     (forall k, k ∈ ticker_base_fields -> k ∈ dom snapshot)
     /\ exists o,
          snapshot !! "open"%string = Some (PFloat o)
          /\ forall k, k ∈ ticker_derived_fields ->
               (k ∈ dom snapshot
                <-> (0 < o)%Q
                    /\ "bid"%string ∈ dom snapshot
                    /\ "ask"%string ∈ dom snapshot))
  /\ (forall payload t,
        Kraken.get_pair_ticker kraken pair = Ok payload ->
        payload !! pair = Some (PDict t) ->
        t !! "o"%string = None ->
        get_ticker pair n = (Ok None, n)).
Proof.
  split.
  - intros snapshot n' H.
    destruct (get_ticker_snapshot _ _ _ _ H) as (Hbase & o & Ho & Hder).
    split; [exact Hbase|]. exists o. split; [exact Ho|].
    intros k Hk. rewrite (Hder k Hk). split.
    + intros Hpos. repeat split; [exact Hpos| |];
        apply Hbase; unfold ticker_base_fields;
        rewrite !elem_of_cons; tauto.
    + now intros [Hpos _].
  - intros payload t. apply get_ticker_missing_open.
Qed.

(** *** OHLC *)

Lemma limit_applies_nonpos l : l <= 0 -> Kraken.limit_applies (Some l) = false.
Proof.
  intros H. unfold Kraken.limit_applies.
  destruct (Z.eqb_spec l 0); [reflexivity|].
  destruct (Z.ltb_spec 0 l); [lia|reflexivity].
Qed.

Lemma limit_applies_pos l : 0 < l -> Kraken.limit_applies (Some l) = true.
Proof.
  intros H. unfold Kraken.limit_applies.
  destruct (Z.eqb_spec l 0); [lia|].
  destruct (Z.ltb_spec 0 l); [reflexivity|lia].
Qed.

(** What [get_ohlc_data] returns once the rows were fetched and parsed. *)
Lemma get_ohlc_data_fetched pair interval since limit n payload candles cs :
  Kraken.client_get_ohlc_data kraken pair (Kraken.interval_mapping interval)
    (Kraken.since_param since) = Ok payload ->
  payload !! pair = Some candles ->
  process_candles candles = Ok cs ->
  let kept :=
    if Kraken.limit_applies limit
    then slice_from (- default 0 limit) cs else cs in
  get_ohlc_data pair interval since limit n
  = (Ok {| Kraken.ohlc_symbol := pair;
           Kraken.ohlc_data := sort_by Kraken.time kept;
           Kraken.ohlc_interval := Some interval;
           Kraken.ohlc_count := Z.of_nat (length kept);
           Kraken.ohlc_timestamp := Some (clock n) |}, S n).
Proof.
  intros Hp Hc Hcs kept. subst kept.
  unfold Kraken.get_ohlc_data, try_except, bind, lift, ret, Kraken.now.
  unfold Kraken.process_candles in *.
  rewrite Hp. cbv beta iota. rewrite Hc. cbv beta iota. rewrite Hcs.
  cbv beta iota.
  destruct limit as [l|]; simpl; [|now rewrite sort_by_length].
  destruct (Kraken.limit_applies (Some l)); now rewrite sort_by_length.
Qed.

(** C9.  A limit of 0 or below changes nothing: the call returns what the
    call without a limit returns, which, once the rows were fetched and
    parsed, is the whole candle sequence in time order. *)
Theorem ohlc_nonpositive_limit_is_no_limit pair interval since limit n :
  limit <= 0 ->
  get_ohlc_data pair interval since (Some limit) n
  = get_ohlc_data pair interval since None n
  /\ forall payload candles cs,
       Kraken.client_get_ohlc_data kraken pair
         (Kraken.interval_mapping interval) (Kraken.since_param since)
       = Ok payload ->
       payload !! pair = Some candles ->
       process_candles candles = Ok cs ->
       normalized (get_ohlc_data pair interval since (Some limit) n)
       = sort_by Kraken.time cs
       /\ length (normalized (get_ohlc_data pair interval since (Some limit) n))
          = length cs.
Proof.
  intros H. split.
  - unfold Kraken.get_ohlc_data.
    rewrite (limit_applies_nonpos limit H). reflexivity.
  - intros payload candles cs Hp Hc Hcs.
    rewrite (get_ohlc_data_fetched _ _ _ _ _ _ _ _ Hp Hc Hcs).
    rewrite (limit_applies_nonpos limit H). unfold normalized.
    cbn [fst Kraken.ohlc_data].
    split; [reflexivity|apply sort_by_length].
Qed.

(** C2 (as the code has it).  When the fetched rows are already in
    ascending time order and [1 <= k <= total], the call with [limit = k]
    returns the last [k] candles of what the call without a limit
    returns. *)
Theorem ohlc_limit_keeps_tail_of_ascending_rows
    pair interval since k n payload candles cs :
  Kraken.client_get_ohlc_data kraken pair (Kraken.interval_mapping interval)
    (Kraken.since_param since) = Ok payload ->
  payload !! pair = Some candles ->
  process_candles candles = Ok cs ->
  ascending Kraken.time cs ->
  1 <= k <= Z.of_nat (length cs) ->
  let full := normalized (get_ohlc_data pair interval since None n) in
  let limited := normalized (get_ohlc_data pair interval since (Some k) n) in
  length full = length cs
  /\ limited = drop (length full - Z.to_nat k) full.
Proof.
  intros Hp Hc Hcs Hasc Hk full limited. subst full limited.
  rewrite !(get_ohlc_data_fetched _ _ _ _ _ _ _ _ Hp Hc Hcs).
  rewrite limit_applies_pos by lia. unfold normalized.
  cbn [fst Kraken.ohlc_data default from_option id Kraken.limit_applies].
  rewrite (sort_by_ascending _ cs Hasc). split; [reflexivity|].
  rewrite slice_from_neg by exact Hk.
  apply sort_by_ascending, ascending_drop, Hasc.
Qed.

(** *** Recent trades *)

Lemma get_recent_trades_list pair limit n payload rows :
  Kraken.client_get_recent_trades kraken pair = Ok payload ->
  payload !! pair = Some (PList rows) ->
  get_recent_trades pair limit n
  = match mapM format_trade (slice_to limit rows) with
    | Ok ts =>
        (Ok (Some {| Kraken.trades_symbol := pair;
                     Kraken.trades_trades := ts;
                     Kraken.trades_count := Z.of_nat (length ts);
                     Kraken.trades_timestamp := clock n |}), S n)
    | Raise _ => (Ok None, n)
    end.
Proof.
  intros Hp Hr.
  unfold Kraken.get_recent_trades, try_except, bind, lift, ret, Kraken.now.
  rewrite Hp. cbv beta iota. rewrite Hr. cbv beta iota.
  simpl. now destruct (mapM format_trade (slice_to limit rows)).
Qed.

(** C10 (as the code has it).  For a response whose entry for the pair is a
    list of [n] rows, the trades returned are the first [k] rows,
    formatted, in the provider's order, where [k = min(limit, n)] for
    [limit >= 0] and [k = max(n + limit, 0)] for [limit < 0]; [None] is
    returned only when one of those [k] rows cannot be formatted. *)
Theorem recent_trades_head pair limit n payload rows :
  Kraken.client_get_recent_trades kraken pair = Ok payload ->
  payload !! pair = Some (PList rows) ->
  let total := Z.of_nat (length rows) in
  let k := Z.to_nat (if limit <? 0 then Z.max 0 (total + limit)
                     else Z.min limit total) in
  match fst (get_recent_trades pair limit n) with
  | Ok (Some r) =>
      Forall2 (fun row t => format_trade row = Ok t)
        (take k rows) (Kraken.trades_trades r)
      /\ Kraken.trades_count r = Z.of_nat k
  | Ok None =>
      exists row, row ∈ take k rows /\ exists e, format_trade row = Raise e
  | Raise _ => False
  end.
Proof.
  intros Hp Hr total k.
  rewrite (get_recent_trades_list _ _ _ _ _ Hp Hr), slice_to_take.
  fold total. fold k.
  destruct (mapM format_trade (take k rows)) as [ts|e] eqn:E; simpl.
  - apply mapM_Forall2 in E. split; [exact E|].
    apply Forall2_length in E. rewrite <- E. f_equal.
    rewrite length_take. subst k total. destruct (Z.ltb_spec limit 0); lia.
  - eapply mapM_Raise. exact E.
Qed.

(** *** Market summary *)

Lemma get_ticker_total pair n :
  exists r n', get_ticker pair n = (Ok r, n').
Proof. apply (try_except_ret_total _ (fun _ => None)). Qed.

Lemma get_ohlc_data_total pair interval since limit n :
  exists r n', get_ohlc_data pair interval since limit n = (Ok r, n').
Proof. apply (try_except_ret_total _ (fun _ => Kraken.ohlc_empty pair)). Qed.

Lemma get_order_book_total pair depth n :
  exists r n', get_order_book pair depth n = (Ok r, n').
Proof. apply (try_except_ret_total _ (fun _ => None)). Qed.

Lemma get_recent_trades_total pair limit n :
  exists r n', get_recent_trades pair limit n = (Ok r, n').
Proof. apply (try_except_ret_total _ (fun _ => None)). Qed.

Lemma get_ticker_failed pair n :
  fetch_failed (Kraken.get_pair_ticker kraken pair) pair ->
  get_ticker pair n = (Ok None, n).
Proof.
  unfold fetch_failed, Kraken.get_ticker, try_except, bind, lift, ret.
  destruct (Kraken.get_pair_ticker kraken pair) as [payload|e];
    [intros ->|]; reflexivity.
Qed.

Lemma get_ohlc_data_failed pair interval since limit n :
  fetch_failed (Kraken.client_get_ohlc_data kraken pair
                  (Kraken.interval_mapping interval)
                  (Kraken.since_param since)) pair ->
  get_ohlc_data pair interval since limit n
  = (Ok (Kraken.ohlc_empty pair), n).
Proof.
  unfold fetch_failed, Kraken.get_ohlc_data, try_except, bind, lift, ret.
  destruct (Kraken.client_get_ohlc_data _ _ _ _) as [payload|e];
    [intros ->|]; reflexivity.
Qed.

Lemma get_order_book_failed pair depth n :
  fetch_failed (Kraken.client_get_order_book kraken pair) pair ->
  get_order_book pair depth n = (Ok None, n).
Proof.
  unfold fetch_failed, Kraken.get_order_book, try_except, bind, lift, ret.
  destruct (Kraken.client_get_order_book kraken pair) as [payload|e];
    [intros ->|]; reflexivity.
Qed.

Lemma get_recent_trades_failed pair limit n :
  fetch_failed (Kraken.client_get_recent_trades kraken pair) pair ->
  get_recent_trades pair limit n = (Ok None, n).
Proof.
  unfold fetch_failed, Kraken.get_recent_trades, try_except, bind, lift, ret.
  destruct (Kraken.client_get_recent_trades kraken pair) as [payload|e];
    [intros ->|]; reflexivity.
Qed.

(** C6.  [get_market_summary] always returns the full summary, never the
    error dict: each field is what its own sub-fetch returned (none of
    them raises), a sub-fetch whose client call raised or whose response
    lacks the pair contributes its empty shape ([None], or the OHLC result
    with no candles), and the indicators are computed from the daily
    series alone, [{}] (here [None]) when that series is empty. *)
Theorem market_summary_partial pair n :
  exists ticker ohlc_1h ohlc_1d order_book recent_trades n1 n2 n3 n4 n5,
    get_ticker pair n = (Ok ticker, n1)
    /\ get_ohlc_data pair 60 None (Some 24) n1 = (Ok ohlc_1h, n2)
    /\ get_ohlc_data pair 1440 None (Some 30) n2 = (Ok ohlc_1d, n3)
    /\ get_order_book pair 5 n3 = (Ok order_book, n4)
    /\ get_recent_trades pair 20 n4 = (Ok recent_trades, n5)
    /\ get_market_summary pair n
       = (Ok (Kraken.Summary pair ticker ohlc_1h ohlc_1d order_book
                recent_trades
                (match Kraken.ohlc_data ohlc_1d with
                 | [] => None
                 | _ :: _ =>
                     Some (Kraken.calculate_technical_indicators
                             (Kraken.ohlc_data ohlc_1d))
                 end)
                (clock n5)), S n5)
    /\ (fetch_failed (Kraken.get_pair_ticker kraken pair) pair ->
        ticker = None)
    /\ (fetch_failed (Kraken.client_get_ohlc_data kraken pair 60 None) pair ->
        ohlc_1h = Kraken.ohlc_empty pair)
    /\ (fetch_failed (Kraken.client_get_ohlc_data kraken pair 1440 None) pair ->
        ohlc_1d = Kraken.ohlc_empty pair)
    /\ (fetch_failed (Kraken.client_get_order_book kraken pair) pair ->
        order_book = None)
    /\ (fetch_failed (Kraken.client_get_recent_trades kraken pair) pair ->
        recent_trades = None).
Proof.
  destruct (get_ticker_total pair n) as (ticker & n1 & H1).
  destruct (get_ohlc_data_total pair 60 None (Some 24) n1) as (h1 & n2 & H2).
  destruct (get_ohlc_data_total pair 1440 None (Some 30) n2)
    as (d1 & n3 & H3).
  destruct (get_order_book_total pair 5 n3) as (ob & n4 & H4).
  destruct (get_recent_trades_total pair 20 n4) as (rt & n5 & H5).
  exists ticker, h1, d1, ob, rt, n1, n2, n3, n4, n5.
  repeat (split; [assumption|]).
  split.
  { unfold Kraken.get_market_summary, try_except, bind.
    rewrite H1, H2, H3, H4, H5. reflexivity. }
  repeat split; intros Hf.
  - rewrite (get_ticker_failed _ _ Hf) in H1. congruence.
  - rewrite (get_ohlc_data_failed pair 60 None _ _ Hf) in H2. congruence.
  - rewrite (get_ohlc_data_failed pair 1440 None _ _ Hf) in H3. congruence.
  - rewrite (get_order_book_failed _ _ _ Hf) in H4. congruence.
  - rewrite (get_recent_trades_failed _ _ _ Hf) in H5. congruence.
Qed.

End KrakenFacts.

(** ** The cache of the stock service *)

Section StockFacts.
Variable S : Type.
Variable redis_client : option (Stock.redis S).
Variable json_dumps : pyval -> res string.
Variable json_loads : string -> res pyval.
Variable clock : nat -> string.
Variable yf_history : string -> string -> string -> res (list Stock.bar).

Local Abbreviation get_cached_data :=
  (Stock.get_cached_data S redis_client json_loads).
Local Abbreviation set_cached_data :=
  (Stock.set_cached_data S redis_client json_dumps).
Local Abbreviation get_history :=
  (Stock.get_history S redis_client json_dumps json_loads clock yf_history).

Lemma get_cached_data_total key st :
  exists v st', get_cached_data key st = (Ok v, st').
Proof.
  unfold Stock.get_cached_data. destruct redis_client as [client|].
  - apply (try_except_ret_total _ (fun _ => PNone)).
  - unfold ret. eauto.
Qed.

Lemma set_cached_data_total key data ttl st :
  exists st', set_cached_data key data ttl st = (Ok tt, st').
Proof.
  unfold Stock.set_cached_data. destruct redis_client as [client|].
  - destruct (try_except_ret_total
                (text <- lift (json_dumps data) ;;
                 Stock.on_store S (Stock.redis_setex client key ttl text))
                (fun _ => tt) st) as ([] & st' & H).
    eauto.
  - unfold ret. eauto.
Qed.

Lemma get_cached_data_unavailable key st :
  read_unavailable redis_client key st ->
  exists st', get_cached_data key st = (Ok PNone, st') /\ snd st' = snd st.
Proof.
  unfold read_unavailable, Stock.get_cached_data.
  destruct redis_client as [client|].
  - intros (e & s' & H).
    unfold try_except, bind, Stock.on_store, ret. rewrite H. simpl. eauto.
  - intros _. unfold ret. eauto.
Qed.

(** A miss, whatever its cause, makes [get_history] compute its answer
    from the fetched history; the write that follows cannot make it fail. *)
Lemma get_history_on_miss symbol period_arg interval_arg st v st1 hist :
  let period := default "1y"%string period_arg in
  let interval := default "1d"%string interval_arg in
  get_cached_data (Stock.cache_key symbol period interval) st = (Ok v, st1) ->
  truthy v = false ->
  yf_history symbol period interval = Ok hist ->
  hist <> [] ->
  exists st',
    get_history symbol period_arg interval_arg st
    = (Ok (Stock.Reply
             (Stock.history_response symbol period interval hist
                (clock (snd st1)))), st').
Proof.
  intros period interval Hread Hv Hyf Hne.
  unfold Stock.get_history, try_except, bind.
  fold period interval. rewrite Hread, Hv.
  cbv beta iota. unfold lift at 1. rewrite Hyf.
  destruct hist as [|b hist]; [contradiction|]. cbv beta iota.
  unfold Stock.now at 1. cbv beta iota.
  match goal with
  | |- context [set_cached_data ?k ?d ?t ?s] =>
      destruct (set_cached_data_total k d t s) as (st2 & ->)
  end.
  unfold ret. eauto.
Qed.

(** C7.  Neither cache helper ever raises, whatever the client does.  A
    read that cannot be served (no client, or [get] raises) returns [None],
    a miss; a write returns normally, and without a client it leaves the
    state untouched.  So after a miss the history endpoint answers with the
    data it computed from the fetched history, also when the write
    fails. *)
Theorem cache_is_best_effort key data ttl st :
  (exists v st', get_cached_data key st = (Ok v, st'))
  /\ (exists st', set_cached_data key data ttl st = (Ok tt, st'))
  /\ (read_unavailable redis_client key st ->
      exists st', get_cached_data key st = (Ok PNone, st')
                  /\ snd st' = snd st)
  /\ (redis_client = None ->
      get_cached_data key st = (Ok PNone, st)
      /\ set_cached_data key data ttl st = (Ok tt, st))
  /\ (forall symbol period_arg interval_arg hist,
        let period := default "1y"%string period_arg in
        let interval := default "1d"%string interval_arg in
        read_unavailable redis_client
          (Stock.cache_key symbol period interval) st ->
        yf_history symbol period interval = Ok hist ->
        hist <> [] ->
        exists st',
          get_history symbol period_arg interval_arg st
          = (Ok (Stock.Reply
                   (Stock.history_response symbol period interval hist
                      (clock (snd st)))), st')).
Proof.
  split; [apply get_cached_data_total|].
  split; [apply set_cached_data_total|].
  split; [apply get_cached_data_unavailable|].
  split.
  - unfold Stock.get_cached_data, Stock.set_cached_data. now intros ->.
  - intros symbol period_arg interval_arg hist period interval Hread Hyf Hne.
    destruct (get_cached_data_unavailable _ _ Hread) as (st1 & Hget & Hclk).
    destruct (get_history_on_miss symbol period_arg interval_arg st PNone st1
                hist Hget eq_refl Hyf Hne) as (st' & H).
    rewrite Hclk in H. eauto.
Qed.

End StockFacts.

(** ** The properties at concrete inputs *)

Section Instances.
Import Examples.
Local Open Scope Q_scope.

Local Abbreviation run_ticker :=
  (Kraken.get_ticker decimal_to_float decimal_to_int clock).
Local Abbreviation run_ohlc :=
  (Kraken.get_ohlc_data decimal_to_float decimal_to_int clock).
Local Abbreviation run_trades :=
  (Kraken.get_recent_trades decimal_to_float clock).

(** The EMA of the closes 1, 2, 3 at span 12. *)
Lemma ema_is_adjusted_weighted_mean_witness :
  exists e,
    ewm_mean 12 [1; 2; 3] !! 2%nat = Some e
    /\ e == weighted_sum (1 - ewm_alpha 12) [1; 2; 3] 2
            / weight_total (1 - ewm_alpha 12) 2.
Proof.
  assert (Hspan : 1 <= 12) by discriminate.
  destruct (ema_is_adjusted_weighted_mean 12 [1; 2; 3] Hspan)
    as (_ & _ & H & _).
  apply (H 2%nat). simpl. lia.
Defined.

(** On fifty candles closing at 1, ..., 50 the provider's [ema_12] is not
    the recursion: its second entry is 37/24, the recursion gives 15/13. *)
Lemma ema_is_not_recursive_form :
  ~ recursive_seeded_form (ewm_alpha 12) (Kraken.closes rising_candles)
      (Kraken.ema_12 (Kraken.calculate_technical_indicators rising_candles)).
Proof.
  intros [_ H]. specialize (H 1%nat).
  assert (Hr : (0 < 1 < length (Kraken.closes rising_candles))%nat)
    by (vm_compute; lia).
  specialize (H Hr). lazy in H. discriminate H.
Qed.

(** Three rows in time order, limit 2. *)
Lemma ohlc_limit_keeps_tail_witness :
  let full :=
    normalized (run_ohlc (with_ohlc rows_ascending) btc 60%Z None None 0%nat) in
  let limited :=
    normalized
      (run_ohlc (with_ohlc rows_ascending) btc 60%Z None (Some 2%Z) 0%nat) in
  length full = 3%nat /\ limited = drop (length full - 2) full.
Proof.
  edestruct (ohlc_limit_keeps_tail_of_ascending_rows
               decimal_to_float decimal_to_int clock
               (with_ohlc rows_ascending) btc 60%Z None 2%Z 0%nat)
    as [H1 H2].
  - reflexivity.
  - reflexivity.
  - vm_compute. reflexivity.
  - repeat constructor; vm_compute; discriminate.
  - vm_compute. split; discriminate.
  - split; [exact H1|exact H2].
Defined.

(** The law as worded fails at [k = 0] (the whole sequence comes back, not
    the empty one), and on rows that are not in time order (the last two
    rows are kept, not the two most recent candles). *)
Lemma ohlc_truncation_law_fails :
  ~ truncation_law
      (fun limit =>
         normalized
           (run_ohlc (with_ohlc rows_ascending) btc 60%Z None limit 0%nat))
      0
  /\ ~ truncation_law
         (fun limit =>
            normalized
              (run_ohlc (with_ohlc rows_shuffled) btc 60%Z None limit 0%nat))
         2.
Proof.
  split; intros H; unfold truncation_law in H; cbv zeta in H;
    match type of H with
    | ?P -> _ =>
        assert (Hk : P) by (vm_compute; split; discriminate);
        specialize (H Hk)
    end;
    vm_compute in H; discriminate H.
Qed.

Lemma get_ticker_example :
  run_ticker (with_ticker ticker_entry) btc 0%nat
  = (Ok (Some ticker_snapshot), 1%nat).
Proof.
  vm_cast_no_check (@eq_refl _ (Ok (Some ticker_snapshot), 1%nat)).
Qed.

(** A ticker entry with an opening price of 49500. *)
Lemma ticker_snapshot_fields_witness :
  run_ticker (with_ticker ticker_entry) btc 0%nat
  = (Ok (Some ticker_snapshot), 1%nat)
  /\ "change"%string ∈ dom ticker_snapshot
  /\ "change_percent"%string ∈ dom ticker_snapshot
  /\ "spread"%string ∈ dom ticker_snapshot.
Proof.
  destruct (ticker_snapshot_fields decimal_to_float decimal_to_int clock
              (with_ticker ticker_entry) btc 0%nat) as [H _].
  destruct (H ticker_snapshot 1%nat get_ticker_example)
    as (Hbase & o & Ho & Hder).
  split; [exact get_ticker_example|].
  assert (Hopen : ticker_snapshot !! "open"%string
                  = Some (PFloat (495000 # 10))) by reflexivity.
  rewrite Ho in Hopen. injection Hopen as ->.
  assert (Hpos : 0 < 495000 # 10) by reflexivity.
  assert (Hbid : "bid"%string ∈ dom ticker_snapshot)
    by (apply Hbase; unfold ticker_base_fields; rewrite !elem_of_cons; tauto).
  assert (Hask : "ask"%string ∈ dom ticker_snapshot)
    by (apply Hbase; unfold ticker_base_fields; rewrite !elem_of_cons; tauto).
  repeat split; apply Hder;
    try (unfold ticker_derived_fields; rewrite !elem_of_cons; tauto);
    repeat split; assumption.
Defined.

(** The same entry without [o]: no snapshot comes back. *)
Lemma ticker_missing_open_gives_no_snapshot :
  ~ exists snapshot,
      fst (run_ticker (with_ticker ticker_entry_no_open) btc 0%nat)
      = Ok (Some snapshot).
Proof. intros [snapshot H]. vm_compute in H. discriminate H. Qed.

(** Fifty candles and fifty bars closing at 1, ..., 50. *)
Lemma sma_aligned_with_trailing_mean_witness :
  length (Kraken.sma_20 (Kraken.calculate_technical_indicators rising_candles))
  = length rising_candles
  /\ sma_aligned 20 (Kraken.close <$> rising_candles)
       (Kraken.sma_20 (Kraken.calculate_technical_indicators rising_candles))
  /\ exists rows,
       Stock.technical_rows rising_bars = Ok rows
       /\ length rows = length rising_bars
       /\ sma_aligned_json 50 (Stock.bar_close <$> rising_bars)
            (Stock.row_sma50 <$> rows).
Proof.
  assert (Hd : (50 <= length rising_candles)%nat) by (vm_compute; lia).
  assert (Hh : (50 <= length rising_bars)%nat) by (vm_compute; lia).
  destruct (sma_aligned_with_trailing_mean rising_candles rising_bars Hd Hh)
    as [(L20 & _ & H20 & _) (rows & Hrows & Hlen & _ & H50)].
  split; [exact L20|]. split; [exact H20|].
  exists rows. split; [exact Hrows|]. split; [exact Hlen|exact H50].
Defined.

(** Thirty flat candles and bars. *)
Lemma flat_series_sma_and_rsi_witness :
  (exists rows,
     Stock.technical_rows (replicate 30 (bar_at 0 100)) = Ok rows
     /\ Forall (fun row => Stock.row_rsi row = None) rows)
  /\ Kraken.rsi (Kraken.calculate_technical_indicators flat_candles) = [].
Proof.
  destruct (flat_series_sma_and_rsi (bar_at 0 100) (candle_at 0 100)
              eq_refl eq_refl) as [(rows & Hrows & _ & _ & Hrsi) Hk].
  split.
  - exists rows. split; [exact Hrows|exact Hrsi].
  - unfold flat_candles. rewrite Hk. reflexivity.
Defined.

(** On the provider's path thirty candles give no SMA(20) entry at index
    19: the output is empty. *)
Lemma flat_series_has_no_sma_on_kraken :
  ~ exists q,
      Kraken.sma_20 (Kraken.calculate_technical_indicators flat_candles)
        !! 19%nat = Some (Num q)
      /\ q == 100.
Proof. intros (q & H & _). vm_compute in H. discriminate H. Qed.

(** A provider that answers nothing still yields a full summary. *)
Example market_summary_offline :
  Kraken.get_market_summary decimal_to_float decimal_to_int clock offline
    btc 0%nat
  = (Ok (Kraken.Summary btc None (Kraken.ohlc_empty btc)
           (Kraken.ohlc_empty btc) None None None (clock 0%nat)), 1%nat).
Proof. reflexivity. Qed.

(** A Redis client that raises on every call: the history endpoint
    answers with the freshly fetched bar. *)
Lemma cache_is_best_effort_witness :
  exists st',
    Stock.get_history unit (Some broken_redis) json_unused_dumps
      json_unused_loads clock one_bar_history "AAPL" None None (tt, 0%nat)
    = (Ok (Stock.Reply
             (Stock.history_response "AAPL" "1y" "1d"
                [bar_at 1700000000 100] (clock 0%nat))), st').
Proof.
  destruct (cache_is_best_effort unit (Some broken_redis) json_unused_dumps
              json_unused_loads clock one_bar_history
              "quote:AAPL" PNone 60%Z (tt, 0%nat)) as (_ & _ & _ & _ & H).
  apply (H "AAPL"%string None None [bar_at 1700000000 100]).
  - simpl. exists RuntimeError, tt. reflexivity.
  - reflexivity.
  - discriminate.
Defined.


(** A limit of -3 on three rows. *)
Lemma ohlc_nonpositive_limit_witness :
  run_ohlc (with_ohlc rows_ascending) btc 60%Z None (Some (-3)%Z) 0%nat
  = run_ohlc (with_ohlc rows_ascending) btc 60%Z None None 0%nat.
Proof.
  assert (Hl : (-3 <= 0)%Z) by discriminate.
  exact (proj1 (ohlc_nonpositive_limit_is_no_limit decimal_to_float
                  decimal_to_int clock (with_ohlc rows_ascending) btc 60%Z
                  None (-3)%Z 0%nat Hl)).
Defined.

(** Three trade rows, limit 2: the first two come back. *)
Lemma recent_trades_head_witness :
  match fst (run_trades (with_trades trade_rows) btc 2%Z 0%nat) with
  | Ok (Some r) =>
      Forall2 (fun row t => Kraken.format_trade decimal_to_float row = Ok t)
        (take 2 trade_rows) (Kraken.trades_trades r)
      /\ Kraken.trades_count r = 2%Z
  | Ok None =>
      exists row,
        row ∈ take 2 trade_rows
        /\ exists e, Kraken.format_trade decimal_to_float row = Raise e
  | Raise _ => False
  end.
Proof.
  exact (recent_trades_head decimal_to_float clock (with_trades trade_rows)
           btc 2%Z 0%nat _ trade_rows eq_refl eq_refl).
Defined.

(** Three trade rows, limit -1: two rows come back, where
    [min(limit, n)] rows would be none. *)
Lemma recent_trades_negative_limit :
  ~ head_law (Kraken.format_trade decimal_to_float) trade_rows (-1)
      (fst (run_trades (with_trades trade_rows) btc (-1)%Z 0%nat)).
Proof.
  intros (r & Hr & HF). apply Forall2_length in HF.
  vm_compute in Hr. injection Hr as <-. vm_compute in HF. discriminate HF.
Qed.

End Instances.

(** * Further properties *)

(** ** Indicators stay inside the price range *)

Section RangeFacts.
Local Open Scope Q_scope.

Lemma Qsum_bounds (lo hi : Q) (l : list Q) :
  within lo hi l ->
  inject_Z (Z.of_nat (length l)) * lo <= Qsum l
  /\ Qsum l <= inject_Z (Z.of_nat (length l)) * hi.
Proof.
  induction 1 as [|x l [Hlo Hhi] Hl [IHlo IHhi]].
  - change (inject_Z (Z.of_nat (length (@nil Q)))) with 0.
    rewrite !Qmult_0_l. split; apply Qle_refl.
  - rewrite Qsum_cons. cbn [length]. rewrite Nat2Z.inj_succ.
    unfold Z.succ. rewrite inject_Z_plus.
    split.
    + setoid_replace ((inject_Z (Z.of_nat (length l)) + inject_Z 1) * lo)
        with (lo + inject_Z (Z.of_nat (length l)) * lo)
        using relation Qeq by ring.
      now apply Qplus_le_compat.
    + setoid_replace ((inject_Z (Z.of_nat (length l)) + inject_Z 1) * hi)
        with (hi + inject_Z (Z.of_nat (length l)) * hi)
        using relation Qeq by ring.
      now apply Qplus_le_compat.
Qed.

Lemma mean_bounds (lo hi : Q) (l : list Q) :
  l <> [] -> within lo hi l -> lo <= mean l <= hi.
Proof.
  intros Hne Hl. destruct (Qsum_bounds lo hi l Hl) as [Hlo Hhi].
  assert (Hn : 0 < inject_Z (Z.of_nat (length l))).
  { destruct l; [contradiction|]. cbn [length].
    rewrite <- (Zlt_Qlt 0). lia. }
  unfold mean. split.
  - apply Qle_shift_div_l; [exact Hn|]. now rewrite Qmult_comm.
  - apply Qle_shift_div_r; [exact Hn|]. now rewrite Qmult_comm.
Qed.

Lemma within_trailing lo hi w i xs :
  within lo hi xs -> within lo hi (trailing w i xs).
Proof.
  intros H. unfold trailing, within in *.
  apply Forall_drop, Forall_take, H.
Qed.

(** Every rolling mean over values in [[lo, hi]] is NaN or in [[lo, hi]]. *)
Lemma rolling_mean_within (w : nat) (lo hi : Q) (xs : list Q) :
  (0 < w)%nat -> within lo hi xs ->
  Forall (cell_within lo hi) (rolling_mean w (Num <$> xs)).
Proof.
  intros Hw Hxs. apply Forall_lookup. intros i c Hc.
  assert (Hi : (i < length xs)%nat).
  { apply lookup_lt_Some in Hc.
    now rewrite rolling_mean_length, length_fmap in Hc. }
  destruct (rolling_mean_lookup w xs i Hw Hi) as (c' & Hc' & Hm).
  rewrite Hc in Hc'. injection Hc' as <-.
  unfold cell_is_mean in Hm.
  destruct (w <=? length (trailing w i xs))%nat eqn:E.
  - destruct Hm as (q & -> & Hq). simpl. rewrite Hq.
    apply mean_bounds; [|now apply within_trailing].
    apply Nat.leb_le in E. intros E0. rewrite E0 in E. simpl in E. lia.
  - now rewrite Hm.
Qed.

Lemma ewm_step_within (lo hi o w c : Q) :
  0 <= o -> lo <= w <= hi -> lo <= c <= hi ->
  lo <= (o * w + 1 * c) / (o + 1) <= hi.
Proof.
  intros Ho [Hw1 Hw2] [Hc1 Hc2].
  assert (Hden : 0 < o + 1).
  { apply Qle_lt_trans with (o + 0); [now rewrite Qplus_0_r|].
    apply Qplus_lt_r. reflexivity. }
  split.
  - apply Qle_shift_div_l; [exact Hden|].
    setoid_replace (lo * (o + 1)) with (o * lo + 1 * lo) using relation Qeq
      by ring.
    apply Qplus_le_compat.
    + rewrite !(Qmult_comm o). now apply Qmult_le_compat_r.
    + now rewrite !Qmult_1_l.
  - apply Qle_shift_div_r; [exact Hden|].
    setoid_replace (hi * (o + 1)) with (o * hi + 1 * hi) using relation Qeq
      by ring.
    apply Qplus_le_compat.
    + rewrite !(Qmult_comm o). now apply Qmult_le_compat_r.
    + now rewrite !Qmult_1_l.
Qed.

Lemma ewm_from_within (f lo hi : Q) :
  0 <= f ->
  forall s weighted old_wt,
    0 <= old_wt -> lo <= weighted <= hi -> within lo hi s ->
    within lo hi (ewm_from f weighted old_wt s).
Proof.
  intros Hf. induction s as [|cur s IH]; intros weighted old_wt Ho Hw Hs;
    [constructor|].
  inversion Hs as [|? ? Hcur Hs']; subst. cbn [ewm_from].
  assert (Ho1 : 0 <= old_wt * f) by now apply Qmult_le_0_compat.
  assert (Hw1 : lo <= (if Qeq_bool weighted cur then weighted
                       else (old_wt * f * weighted + 1 * cur)
                            / (old_wt * f + 1)) <= hi).
  { destruct (Qeq_bool weighted cur); [exact Hw|].
    now apply ewm_step_within. }
  constructor; [exact Hw1|]. apply IH; [|exact Hw1|exact Hs'].
  apply Qle_trans with (old_wt * f + 0); [now rewrite Qplus_0_r|].
  apply Qplus_le_r. discriminate.
Qed.

Lemma ewm_alpha_factor (span : Q) : 1 <= span -> 0 <= 1 - ewm_alpha span.
Proof.
  intros Hspan. unfold ewm_alpha, Qminus. apply -> Qle_minus_iff.
  apply Qle_shift_div_r.
  - apply Qlt_le_trans with (1 + 1); [reflexivity|].
    apply Qplus_le_compat; [exact Hspan|apply Qle_refl].
  - rewrite Qmult_1_l. apply (Qplus_le_compat 1 span 1 1);
      [exact Hspan|apply Qle_refl].
Qed.

Lemma ewm_mean_within (span lo hi : Q) (xs : list Q) :
  1 <= span -> within lo hi xs -> within lo hi (ewm_mean span xs).
Proof.
  intros Hspan Hxs. destruct xs as [|x0 xs]; [constructor|].
  inversion Hxs as [|? ? H0 Hxs']; subst. cbn [ewm_mean].
  constructor; [exact H0|].
  apply ewm_from_within; try assumption; [|discriminate].
  now apply ewm_alpha_factor.
Qed.

(** X1.  When every close of an input of at least 50 candles lies in
    [[lo, hi]], so does every entry of the provider's [ema_12] and
    [ema_26], and every entry of [sma_20] and [sma_50] that is not NaN:
    the moving averages never leave the price range. *)
Theorem moving_averages_stay_in_price_range
    (data : list Kraken.candle) (lo hi : Q) :
  (50 <= length data)%nat ->
  within lo hi (Kraken.close <$> data) ->
  let ind := Kraken.calculate_technical_indicators data in
  within lo hi (Kraken.ema_12 ind)
  /\ within lo hi (Kraken.ema_26 ind)
  /\ Forall (cell_within lo hi) (Kraken.sma_20 ind)
  /\ Forall (cell_within lo hi) (Kraken.sma_50 ind).
Proof.
  intros Hdata Hxs ind. unfold ind.
  rewrite (calculate_technical_indicators_long data Hdata).
  unfold Kraken.closes. cbn.
  repeat split.
  - apply ewm_mean_within; [discriminate|exact Hxs].
  - apply ewm_mean_within; [discriminate|exact Hxs].
  - apply rolling_mean_within; [lia|exact Hxs].
  - apply rolling_mean_within; [lia|exact Hxs].
Qed.

Lemma ewm_from_constant (f v : Q) : forall n old_wt,
  ewm_from f v old_wt (replicate n v) = replicate n v.
Proof.
  induction n as [|n IH]; intros old_wt; [reflexivity|].
  cbn [replicate ewm_from].
  assert (E : Qeq_bool v v = true) by (apply Qeq_bool_iff; reflexivity).
  rewrite E. now rewrite IH.
Qed.

(** X2.  The EMA of a constant series is that series, entry for entry and
    for any span: the kernel leaves the running average alone when the new
    value equals it, so no arithmetic touches the constant. *)
Theorem ema_of_constant_series (span v : Q) (n : nat) :
  ewm_mean span (replicate n v) = replicate n v.
Proof.
  destruct n as [|n]; [reflexivity|]. cbn [replicate ewm_mean].
  now rewrite ewm_from_constant.
Qed.

End RangeFacts.


(** ** RSI *)

Section RsiFacts.
Local Open Scope Q_scope.

Lemma Qis_zero_iff q : Qis_zero q = true <-> q == 0.
Proof.
  unfold Qis_zero, Qeq. simpl. rewrite Z.eqb_eq. lia.
Qed.

Lemma Qnum_pos_iff q : (0 <? Qnum q)%Z = true <-> 0 < q.
Proof. unfold Qlt. simpl. rewrite Z.ltb_lt. lia. Qed.

Lemma Qnum_neg_iff q : (Qnum q <? 0)%Z = true <-> q < 0.
Proof. unfold Qlt. simpl. rewrite Z.ltb_lt. lia. Qed.

Lemma gain_of_nonneg d : 0 <= gain_of d.
Proof.
  unfold gain_of. destruct (0 <? Qnum d)%Z eqn:E; [|apply Qle_refl].
  apply Qnum_pos_iff in E. now apply Qlt_le_weak.
Qed.

Lemma loss_of_nonneg d : 0 <= loss_of d.
Proof.
  unfold loss_of. destruct (Qnum d <? 0)%Z eqn:E; [|discriminate].
  apply Qnum_neg_iff in E. apply Qlt_le_weak in E.
  apply Qopp_le_compat in E. exact E.
Qed.

Lemma diff_from_steps : forall xs prev,
  diff_from (Num prev) (Num <$> xs) = Num <$> steps_from prev xs.
Proof.
  induction xs as [|x xs IH]; intros prev; [reflexivity|].
  rewrite !fmap_cons. cbn [diff_from steps_from]. rewrite fmap_cons.
  now rewrite IH.
Qed.

(** The series RSI averages are the gains and the losses of the steps,
    with 0 at position 0. *)
Lemma where_gt0_diff xs :
  where_ gt0 (Num 0) (diff (Num <$> xs)) = Num <$> gains xs.
Proof.
  destruct xs as [|x xs]; [reflexivity|].
  rewrite fmap_cons. cbn [diff gains steps]. rewrite diff_from_steps.
  unfold where_. rewrite !fmap_cons. cbn [gt0]. f_equal.
  rewrite <- !list_fmap_compose. apply list_fmap_ext. intros i d _.
  unfold compose, gain_of. cbn [gt0]. now destruct (0 <? Qnum d)%Z.
Qed.

Lemma where_lt0_diff xs :
  cneg <$> where_ lt0 (Num 0) (diff (Num <$> xs)) = Num <$> losses xs.
Proof.
  destruct xs as [|x xs]; [reflexivity|].
  rewrite fmap_cons. cbn [diff losses steps]. rewrite diff_from_steps.
  unfold where_. rewrite !fmap_cons. cbn [lt0 cneg]. f_equal.
  rewrite <- !list_fmap_compose. apply list_fmap_ext. intros i d _.
  unfold compose, loss_of. cbn [lt0]. now destruct (Qnum d <? 0)%Z.
Qed.

Lemma gains_length xs : length (gains xs) = length xs.
Proof.
  destruct xs as [|x xs]; [reflexivity|]. cbn [gains steps length].
  rewrite length_fmap. f_equal.
  revert x. induction xs as [|y xs IH]; intros x; [reflexivity|].
  cbn. now rewrite IH.
Qed.

Lemma losses_length xs : length (losses xs) = length xs.
Proof.
  destruct xs as [|x xs]; [reflexivity|]. cbn [losses steps length].
  rewrite length_fmap. f_equal.
  revert x. induction xs as [|y xs IH]; intros x; [reflexivity|].
  cbn. now rewrite IH.
Qed.

Lemma gains_nonneg xs : Forall (fun g => 0 <= g) (gains xs).
Proof.
  destruct xs as [|x xs]; [constructor|]. cbn [gains].
  constructor; [apply Qle_refl|]. apply Forall_fmap, Forall_true.
  intros d. apply gain_of_nonneg.
Qed.

Lemma losses_nonneg xs : Forall (fun g => 0 <= g) (losses xs).
Proof.
  destruct xs as [|x xs]; [constructor|]. cbn [losses].
  constructor; [discriminate|]. apply Forall_fmap, Forall_true.
  intros d. apply loss_of_nonneg.
Qed.

Lemma Qsum_nonneg l : Forall (fun g => 0 <= g) l -> 0 <= Qsum l.
Proof.
  induction 1 as [|x l Hx Hl IH]; [apply Qle_refl|].
  rewrite Qsum_cons. rewrite <- (Qplus_0_r 0). now apply Qplus_le_compat.
Qed.

Lemma Qsum_zero l : Forall (fun g => g == 0) l -> Qsum l == 0.
Proof.
  induction 1 as [|x l Hx Hl IH]; [reflexivity|].
  rewrite Qsum_cons, Hx, IH. reflexivity.
Qed.

Lemma Qsum_pos l x :
  Forall (fun g => 0 <= g) l -> x ∈ l -> 0 < x -> 0 < Qsum l.
Proof.
  induction 1 as [|y l Hy Hl IH]; intros Hin Hx; [inversion Hin|].
  rewrite Qsum_cons. apply elem_of_cons in Hin as [<-|Hin].
  - apply Qlt_le_trans with (x + 0); [now rewrite Qplus_0_r|].
    apply Qplus_le_r. now apply Qsum_nonneg.
  - apply Qlt_le_trans with (0 + Qsum l);
      [rewrite Qplus_0_l; now apply IH|].
    apply Qplus_le_l. exact Hy.
Qed.

Lemma mean_of_14 l : length l = 14%nat -> mean l == Qsum l / 14.
Proof. intros H. unfold mean. rewrite H. reflexivity. Qed.

Lemma rsi_of_cases (g l : Q) :
  0 <= g -> 0 <= l ->
  (g == 0 -> l == 0 -> rsi_of (Num g) (Num l) = NaN)
  /\ (0 < g -> l == 0 ->
      exists q, rsi_of (Num g) (Num l) = Num q /\ q == 100)
  /\ (0 < l ->
      exists q, rsi_of (Num g) (Num l) = Num q
                /\ q == 100 - 100 / (1 + g / l)
                /\ 0 <= q <= 100).
Proof.
  intros Hg Hl. unfold rsi_of. cbn [cdiv].
  destruct (Qis_zero l) eqn:El.
  - apply Qis_zero_iff in El. destruct (Qis_zero g) eqn:Eg.
    + apply Qis_zero_iff in Eg. repeat split.
      * intros Hpos. rewrite Eg in Hpos. now apply Qlt_irrefl in Hpos.
      * intros Hpos. rewrite El in Hpos. now apply Qlt_irrefl in Hpos.
    + repeat split.
      * intros E. apply Qis_zero_iff in E. congruence.
      * intros _ _. cbn. eexists. split; [reflexivity|]. ring.
      * intros Hpos. rewrite El in Hpos. now apply Qlt_irrefl in Hpos.
  - assert (Hlnz : ~ l == 0).
    { intros E. apply Qis_zero_iff in E. congruence. }
    assert (Hlpos : 0 < l).
    { apply Qle_lt_or_eq in Hl as [H|H]; [exact H|].
      symmetry in H. contradiction. }
    assert (Hr : 0 <= g / l).
    { apply Qle_shift_div_l; [exact Hlpos|]. now rewrite Qmult_0_l. }
    assert (Hone : 1 <= 1 + g / l).
    { rewrite <- (Qplus_0_r 1) at 1. now apply Qplus_le_r. }
    assert (Hpos1 : 0 < 1 + g / l)
      by (apply Qlt_le_trans with 1; [reflexivity|exact Hone]).
    assert (Hz : Qis_zero (1 + g / l) = false).
    { destruct (Qis_zero (1 + g / l)) eqn:E; [|reflexivity].
      apply Qis_zero_iff in E. rewrite E in Hpos1.
      now apply Qlt_irrefl in Hpos1. }
    repeat split; try (intros; contradiction).
    intros _. cbn [cadd cdiv]. rewrite Hz. cbn [csub cneg cadd].
    eexists. split; [reflexivity|]. split; [reflexivity|].
    assert (Hq1 : 0 < 100 / (1 + g / l)).
    { apply Qlt_shift_div_l; [exact Hpos1|]. rewrite Qmult_0_l. reflexivity. }
    assert (Hq2 : 100 / (1 + g / l) <= 100).
    { apply Qle_shift_div_r; [exact Hpos1|].
      rewrite <- (Qmult_1_r 100) at 1.
      apply Qmult_le_l; [reflexivity|exact Hone]. }
    split.
    + apply (Qplus_le_l _ _ (100 / (1 + g / l))).
      rewrite Qplus_0_l.
      setoid_replace (100 + - (100 / (1 + g / l)) + 100 / (1 + g / l))
        with 100 using relation Qeq by ring.
      exact Hq2.
    + apply (Qplus_le_l _ _ (100 / (1 + g / l))).
      setoid_replace (100 + - (100 / (1 + g / l)) + 100 / (1 + g / l))
        with 100 using relation Qeq by ring.
      rewrite <- (Qplus_0_r 100) at 1. apply Qplus_le_r.
      now apply Qlt_le_weak.
Qed.

Lemma rsi_series_lookup xs i c :
  Kraken.rsi_series xs !! i = Some c ->
  exists g l,
    rolling_mean 14 (Num <$> gains xs) !! i = Some g
    /\ rolling_mean 14 (Num <$> losses xs) !! i = Some l
    /\ c = rsi_of g l.
Proof.
  unfold Kraken.rsi_series, div_series.
  rewrite where_gt0_diff, where_lt0_diff.
  rewrite list_lookup_fmap, lookup_zip_with.
  destruct (rolling_mean 14 (Num <$> gains xs) !! i) as [g|]; [|discriminate].
  destruct (rolling_mean 14 (Num <$> losses xs) !! i) as [l|];
    [|discriminate].
  cbn. intros [= <-]. eauto.
Qed.

(** The two averages behind the RSI at position [i]: NaN during the
    warm-up, then the means of the last 14 gains and losses. *)
Lemma rsi_averages xs i c :
  Kraken.rsi_series xs !! i = Some c ->
  ((i < 13)%nat /\ c = NaN)
  \/ ((13 <= i)%nat
      /\ exists g l,
           c = rsi_of (Num g) (Num l)
           /\ g == Qsum (trailing 14 i (gains xs)) / 14
           /\ l == Qsum (trailing 14 i (losses xs)) / 14
           /\ length (trailing 14 i (gains xs)) = 14%nat
           /\ length (trailing 14 i (losses xs)) = 14%nat).
Proof.
  intros Hc. pose proof Hc as Hlen. apply lookup_lt_Some in Hlen.
  rewrite kraken_rsi_length in Hlen.
  destruct (rsi_series_lookup xs i c Hc) as (g & l & Hg & Hl & ->).
  destruct (rolling_mean_lookup 14 (gains xs) i) as (g' & Hg' & Mg);
    [lia|now rewrite gains_length|].
  destruct (rolling_mean_lookup 14 (losses xs) i) as (l' & Hl' & Ml);
    [lia|now rewrite losses_length|].
  rewrite Hg in Hg'. injection Hg' as <-.
  rewrite Hl in Hl'. injection Hl' as <-.
  unfold cell_is_mean in Mg, Ml.
  rewrite trailing_length in Mg by now rewrite gains_length.
  rewrite trailing_length in Ml by now rewrite losses_length.
  destruct (Nat.leb_spec 14 (Nat.min (S i) 14)) as [Hfull|Hshort].
  - right. split; [lia|].
    destruct Mg as (qg & -> & Hqg). destruct Ml as (ql & -> & Hql).
    assert (Lg : length (trailing 14 i (gains xs)) = 14%nat)
      by (rewrite trailing_length by (now rewrite gains_length); lia).
    assert (Ll : length (trailing 14 i (losses xs)) = 14%nat)
      by (rewrite trailing_length by (now rewrite losses_length); lia).
    exists qg, ql. split; [reflexivity|].
    rewrite Hqg, Hql, !mean_of_14 by assumption. repeat split; assumption.
  - left. split; [lia|]. now rewrite Mg.
Qed.

Lemma trailing_nonneg w i l :
  Forall (fun g => 0 <= g) l -> Forall (fun g => 0 <= g) (trailing w i l).
Proof. intros H. unfold trailing. apply Forall_drop, Forall_take, H. Qed.

Lemma trailing_last (w i : nat) (l : list Q) (x : Q) :
  (0 < w)%nat -> l !! i = Some x -> x ∈ trailing w i l.
Proof.
  intros Hw Hx. unfold trailing. apply list_elem_of_lookup.
  exists (i - (S i - w))%nat. rewrite lookup_drop, lookup_take_lt by lia.
  rewrite <- Hx. f_equal. lia.
Qed.

Lemma Qdiv14_nonneg s : 0 <= s -> 0 <= s / 14.
Proof.
  intros H. apply Qle_shift_div_l; [reflexivity|]. now rewrite Qmult_0_l.
Qed.

Lemma rsi_cell_range (closes : list Q) (i : nat) (c : cell) :
  Kraken.rsi_series closes !! i = Some c ->
  ((i < 13)%nat -> c = NaN) /\ cell_within 0 100 c.
Proof.
  intros Hc.
  destruct (rsi_averages closes i c Hc)
    as [[Hi ->]|(Hi & g & l & -> & Hg & Hl & Lg & Ll)].
  - split; [reflexivity|exact I].
  - split; [lia|].
    assert (Hg0 : 0 <= g).
    { rewrite Hg. apply Qdiv14_nonneg, Qsum_nonneg, trailing_nonneg,
        gains_nonneg. }
    assert (Hl0 : 0 <= l).
    { rewrite Hl. apply Qdiv14_nonneg, Qsum_nonneg, trailing_nonneg,
        losses_nonneg. }
    destruct (rsi_of_cases g l Hg0 Hl0) as (Hnan & Hmax & Hmid).
    destruct (Qle_lt_or_eq _ _ Hl0) as [Hlpos|Hlz].
    + destruct (Hmid Hlpos) as (q & -> & _ & Hq). exact Hq.
    + symmetry in Hlz. destruct (Qle_lt_or_eq _ _ Hg0) as [Hgpos|Hgz].
      * destruct (Hmax Hgpos Hlz) as (q & -> & Hq). simpl. rewrite Hq.
        split; discriminate.
      * symmetry in Hgz. now rewrite (Hnan Hgz Hlz).
Qed.

(** X3.  The RSI series has the length of the input; its first 13
    entries are NaN (the 14-step window is not full yet), and every entry
    is NaN or a number between 0 and 100.  The stock service computes the
    same series. *)
Theorem rsi_is_nan_or_between_0_and_100 (closes : list Q) :
  let rsi := Kraken.rsi_series closes in
  Stock.rsi_series closes = rsi
  /\ length rsi = length closes
  /\ forall i c, rsi !! i = Some c ->
       ((i < 13)%nat -> c = NaN) /\ cell_within 0 100 c.
Proof.
  intros rsi. split; [reflexivity|]. split; [apply kraken_rsi_length|].
  apply rsi_cell_range.
Qed.

Lemma steps_from_lookup : forall xs prev j d,
  steps_from prev xs !! j = Some d ->
  exists a b,
    (prev :: xs) !! j = Some a /\ (prev :: xs) !! S j = Some b
    /\ d = b - a.
Proof.
  induction xs as [|x xs IH]; intros prev j d H; [discriminate|].
  destruct j as [|j].
  - injection H as <-. exists prev, x. repeat split.
  - cbn in H. destruct (IH x j d H) as (a & b & Ha & Hb & ->).
    exists a, b. repeat split; assumption.
Qed.

Lemma steps_lookup xs j d :
  steps xs !! j = Some d ->
  exists a b, xs !! j = Some a /\ xs !! S j = Some b /\ d = b - a.
Proof.
  destruct xs as [|x xs]; [discriminate|]. apply steps_from_lookup.
Qed.

Lemma steps_increasing xs :
  strictly_increasing xs -> Forall (fun d => 0 < d) (steps xs).
Proof.
  intros H. apply Forall_lookup. intros j d Hd.
  destruct (steps_lookup xs j d Hd) as (a & b & Ha & Hb & ->).
  unfold Qminus. rewrite <- Qlt_minus_iff. exact (H j a b Ha Hb).
Qed.

Lemma steps_decreasing xs :
  strictly_decreasing xs -> Forall (fun d => d < 0) (steps xs).
Proof.
  intros H. apply Forall_lookup. intros j d Hd.
  destruct (steps_lookup xs j d Hd) as (a & b & Ha & Hb & ->).
  pose proof (H j a b Ha Hb) as Hlt.
  apply (Qplus_lt_l _ _ a). ring_simplify. exact Hlt.
Qed.

Lemma gain_of_pos d : 0 < d -> gain_of d = d.
Proof.
  intros H. unfold gain_of. apply Qnum_pos_iff in H. now rewrite H.
Qed.

Lemma gain_of_neg d : d < 0 -> gain_of d = 0.
Proof.
  intros H. unfold gain_of.
  destruct (0 <? Qnum d)%Z eqn:E; [|reflexivity].
  apply Qnum_pos_iff in E. exfalso.
  exact (Qlt_irrefl 0 (Qlt_trans _ _ _ E H)).
Qed.

Lemma loss_of_pos d : 0 < d -> loss_of d = - 0.
Proof.
  intros H. unfold loss_of.
  destruct (Qnum d <? 0)%Z eqn:E; [|reflexivity].
  apply Qnum_neg_iff in E. exfalso.
  exact (Qlt_irrefl 0 (Qlt_trans _ _ _ H E)).
Qed.

Lemma loss_of_neg d : d < 0 -> loss_of d = - d.
Proof.
  intros H. unfold loss_of. apply Qnum_neg_iff in H. now rewrite H.
Qed.

(** X4.  On strictly increasing closes every RSI entry from index 13 on
    is 100 (there is a gain and no loss in every window); on strictly
    decreasing closes it is 0. *)
Theorem rsi_of_monotone_series (closes : list Q) (i : nat) (c : cell) :
  (13 <= i)%nat ->
  Kraken.rsi_series closes !! i = Some c ->
  (strictly_increasing closes -> exists q, c = Num q /\ q == 100)
  /\ (strictly_decreasing closes -> exists q, c = Num q /\ q == 0).
Proof.
  intros Hi Hc.
  pose proof Hc as Hlen. apply lookup_lt_Some in Hlen.
  rewrite kraken_rsi_length in Hlen.
  destruct (rsi_averages closes i c Hc)
    as [[Hlt _]|(_ & g & l & -> & Hg & Hl & Lg & Ll)]; [lia|].
  assert (Hg0 : 0 <= g).
  { rewrite Hg. apply Qdiv14_nonneg, Qsum_nonneg, trailing_nonneg,
      gains_nonneg. }
  assert (Hl0 : 0 <= l).
  { rewrite Hl. apply Qdiv14_nonneg, Qsum_nonneg, trailing_nonneg,
      losses_nonneg. }
  destruct (rsi_of_cases g l Hg0 Hl0) as (_ & Hmax & Hmid).
  destruct closes as [|x0 closes]; [simpl in Hlen; lia|].
  destruct i as [|i]; [lia|].
  split; intros Hmono.
  - (* a gain at position [S i], no loss anywhere *)
    pose proof (steps_increasing _ Hmono) as Hsteps.
    destruct (lookup_lt_is_Some_2 (steps (x0 :: closes)) i) as [d Hd].
    { pose proof (gains_length (x0 :: closes)) as HL.
      cbn [gains length] in HL. rewrite length_fmap in HL. simpl in Hlen.
      lia. }
    assert (Hdpos : 0 < d)
      by (rewrite Forall_lookup in Hsteps; exact (Hsteps i d Hd)).
    apply Hmax.
    + rewrite Hg. apply Qlt_shift_div_l; [reflexivity|]. rewrite Qmult_0_l.
      apply (Qsum_pos _ d);
        [apply trailing_nonneg, gains_nonneg| |exact Hdpos].
      apply trailing_last; [lia|]. cbn [gains].
      change ((0 :: (gain_of <$> steps (x0 :: closes))) !! S i)
        with ((gain_of <$> steps (x0 :: closes)) !! i).
      rewrite list_lookup_fmap, Hd. simpl. now rewrite gain_of_pos.
    + rewrite Hl. unfold Qdiv. rewrite Qsum_zero; [ring|].
      unfold trailing. apply Forall_drop, Forall_take. cbn [losses].
      constructor; [reflexivity|]. apply Forall_fmap.
      eapply Forall_impl; [exact Hsteps|]. intros d' Hd'. simpl.
      now rewrite loss_of_pos.
  - (* a loss at position [S i], no gain anywhere *)
    pose proof (steps_decreasing _ Hmono) as Hsteps.
    destruct (lookup_lt_is_Some_2 (steps (x0 :: closes)) i) as [d Hd].
    { pose proof (gains_length (x0 :: closes)) as HL.
      cbn [gains length] in HL. rewrite length_fmap in HL. simpl in Hlen.
      lia. }
    assert (Hdneg : d < 0)
      by (rewrite Forall_lookup in Hsteps; exact (Hsteps i d Hd)).
    assert (Hlpos : 0 < l).
    { rewrite Hl. apply Qlt_shift_div_l; [reflexivity|]. rewrite Qmult_0_l.
      apply (Qsum_pos _ (- d));
        [apply trailing_nonneg, losses_nonneg| |].
      - apply trailing_last; [lia|]. cbn [losses].
        change (((- 0) :: (loss_of <$> steps (x0 :: closes))) !! S i)
          with ((loss_of <$> steps (x0 :: closes)) !! i).
        rewrite list_lookup_fmap, Hd. simpl. now rewrite loss_of_neg.
      - apply (Qplus_lt_l _ _ d). ring_simplify. exact Hdneg. }
    assert (Hgz : g == 0).
    { rewrite Hg. unfold Qdiv. rewrite Qsum_zero; [ring|].
      unfold trailing. apply Forall_drop, Forall_take. cbn [gains].
      constructor; [reflexivity|]. apply Forall_fmap.
      eapply Forall_impl; [exact Hsteps|]. intros d' Hd'. simpl.
      now rewrite gain_of_neg. }
    destruct (Hmid Hlpos) as (q & -> & Hq & _).
    exists q. split; [reflexivity|]. rewrite Hq, Hgz.
    field. intros E. rewrite E in Hlpos. now apply Qlt_irrefl in Hlpos.
Qed.

End RsiFacts.


(** ** More on the Kraken provider *)

Section SortMore.
Context {A : Type} (key : A -> Z).

Lemma insert_by_sorted x l :
  ascending key l -> ascending key (insert_by key x l).
Proof.
  unfold ascending. induction 1 as [|y l Hl IH Hhd]; simpl.
  - repeat constructor.
  - destruct (Z.leb_spec (key x) (key y)) as [Hle|Hgt].
    + constructor; [now constructor|]. now constructor.
    + constructor; [exact IH|].
      destruct l as [|z l]; simpl.
      * constructor. lia.
      * destruct (Z.leb_spec (key x) (key z)); constructor; [lia|].
        now inversion Hhd.
Qed.

(** The sort returns its input in ascending key order... *)
Lemma sort_by_sorted l : ascending key (sort_by key l).
Proof.
  induction l as [|x l IH]; [constructor|].
  unfold sort_by in *. simpl. now apply insert_by_sorted.
Qed.

Lemma insert_by_perm x l : insert_by key x l ≡ₚ x :: l.
Proof.
  induction l as [|y l IH]; [reflexivity|]. simpl.
  destruct (key x <=? key y); [reflexivity|].
  rewrite IH. apply Permutation_swap.
Qed.

(** ... and loses or invents nothing. *)
Lemma sort_by_perm l : sort_by key l ≡ₚ l.
Proof.
  induction l as [|x l IH]; [reflexivity|].
  unfold sort_by in *. simpl. now rewrite insert_by_perm, IH.
Qed.
End SortMore.

Section SortStrFacts.
Context {A : Type} (key : A -> string).

Lemma insert_by_str_sorted x l :
  ascending_str key l -> ascending_str key (insert_by_str key x l).
Proof.
  unfold ascending_str. induction 1 as [|y l Hl IH Hhd]; simpl.
  - repeat constructor.
  - destruct (String.leb (key x) (key y)) eqn:Hle.
    + constructor; [now constructor|]. now constructor.
    + assert (Hyx : String.leb (key y) (key x) = true)
        by (destruct (String.leb_total (key x) (key y)); congruence).
      constructor; [exact IH|].
      destruct l as [|z l]; simpl.
      * now constructor.
      * destruct (String.leb (key x) (key z)); constructor;
          [exact Hyx|]. now inversion Hhd.
Qed.

Lemma sort_by_str_sorted l : ascending_str key (sort_by_str key l).
Proof.
  induction l as [|x l IH]; [constructor|].
  unfold sort_by_str in *. simpl. now apply insert_by_str_sorted.
Qed.

Lemma insert_by_str_perm x l : insert_by_str key x l ≡ₚ x :: l.
Proof.
  induction l as [|y l IH]; [reflexivity|]. simpl.
  destruct (String.leb (key x) (key y)); [reflexivity|].
  rewrite IH. apply Permutation_swap.
Qed.

Lemma sort_by_str_perm l : sort_by_str key l ≡ₚ l.
Proof.
  induction l as [|x l IH]; [reflexivity|].
  unfold sort_by_str in *. simpl. now rewrite insert_by_str_perm, IH.
Qed.
End SortStrFacts.


Section KrakenMore.
Variable str_to_float : string -> option Q.
Variable str_to_int : string -> option Z.
Variable clock : nat -> string.
Variable kraken : Kraken.client.

Local Abbreviation get_ticker :=
  (Kraken.get_ticker str_to_float str_to_int clock kraken).
Local Abbreviation get_ohlc_data :=
  (Kraken.get_ohlc_data str_to_float str_to_int clock kraken).
Local Abbreviation get_order_book :=
  (Kraken.get_order_book str_to_float str_to_int clock kraken).
Local Abbreviation get_market_summary :=
  (Kraken.get_market_summary str_to_float str_to_int clock kraken).
Local Abbreviation process_candles :=
  (Kraken.process_candles str_to_float str_to_int).
Local Abbreviation process_candle :=
  (Kraken.process_candle str_to_float str_to_int).
Local Abbreviation format_level :=
  (Kraken.format_level str_to_float str_to_int).

(** *** Order book *)

Lemma get_order_book_lists pair depth n payload book asks bids :
  Kraken.client_get_order_book kraken pair = Ok payload ->
  payload !! pair = Some (PDict book) ->
  book !! "asks"%string = Some (PList asks) ->
  book !! "bids"%string = Some (PList bids) ->
  get_order_book pair depth n
  = match mapM format_level (slice_to depth asks),
          mapM format_level (slice_to depth bids) with
    | Ok a, Ok b =>
        (Ok (Some {| Kraken.book_symbol := pair; Kraken.book_asks := a;
                     Kraken.book_bids := b;
                     Kraken.book_timestamp := clock n |}), S n)
    | _, _ => (Ok None, n)
    end.
Proof.
  intros Hp Hb Ha Hbd.
  unfold Kraken.get_order_book, try_except, bind, lift, ret, Kraken.now.
  rewrite Hp. cbv beta iota. rewrite Hb. cbv beta iota.
  unfold getitem. rewrite Ha, Hbd. cbn [rbind getslice_to iter].
  destruct (mapM format_level (slice_to depth asks)) as [a|e];
    [|reflexivity].
  cbv beta iota.
  destruct (mapM format_level (slice_to depth bids)) as [b|e]; reflexivity.
Qed.

(** X5.  For a book whose [asks] and [bids] are lists, [get_order_book]
    returns the first [depth] levels of each side (all of them when the
    side is shorter; for a negative depth Python's slice drops the last
    [-depth]), formatted, in the provider's order; it returns [None] only
    when one of those levels cannot be formatted. *)
Theorem order_book_keeps_top_levels pair depth n payload book asks bids :
  Kraken.client_get_order_book kraken pair = Ok payload ->
  payload !! pair = Some (PDict book) ->
  book !! "asks"%string = Some (PList asks) ->
  book !! "bids"%string = Some (PList bids) ->
  let top_asks := take (head_count depth (length asks)) asks in
  let top_bids := take (head_count depth (length bids)) bids in
  match fst (get_order_book pair depth n) with
  | Ok (Some r) =>
      Forall2 (fun row level => format_level row = Ok level)
        top_asks (Kraken.book_asks r)
      /\ Forall2 (fun row level => format_level row = Ok level)
           top_bids (Kraken.book_bids r)
  | Ok None =>
      exists row, row ∈ top_asks ++ top_bids
                  /\ exists e, format_level row = Raise e
  | Raise _ => False
  end.
Proof.
  intros Hp Hb Ha Hbd top_asks top_bids.
  rewrite (get_order_book_lists _ _ _ _ _ _ _ Hp Hb Ha Hbd).
  rewrite !slice_to_take. fold (head_count depth (length asks)).
  fold (head_count depth (length bids)). fold top_asks top_bids.
  destruct (mapM format_level top_asks) as [a|e] eqn:Ea.
  - destruct (mapM format_level top_bids) as [b|e] eqn:Eb; simpl.
    + split; now apply mapM_Forall2.
    + destruct (mapM_Raise _ _ _ Eb) as (row & Hin & He).
      exists row. split; [|exact He]. apply elem_of_app. now right.
  - simpl. destruct (mapM_Raise _ _ _ Ea) as (row & Hin & He).
    exists row. split; [|exact He]. apply elem_of_app. now left.
Qed.

(** *** OHLC *)

Lemma get_ohlc_data_cases pair interval since limit n :
  get_ohlc_data pair interval since limit n
  = (Ok (Kraken.ohlc_empty pair), n)
  \/ exists payload candles cs,
       Kraken.client_get_ohlc_data kraken pair
         (Kraken.interval_mapping interval) (Kraken.since_param since)
       = Ok payload
       /\ payload !! pair = Some candles
       /\ process_candles candles = Ok cs.
Proof.
  destruct (Kraken.client_get_ohlc_data kraken pair
              (Kraken.interval_mapping interval) (Kraken.since_param since))
    as [payload|e] eqn:Hp.
  - destruct (payload !! pair) as [candles|] eqn:Hc.
    + destruct (process_candles candles) as [cs|e] eqn:Hcs.
      * right. eauto 6.
      * left. unfold Kraken.get_ohlc_data, try_except, bind, lift, ret.
        rewrite Hp. cbv beta iota. rewrite Hc. cbv beta iota.
        unfold Kraken.process_candles in Hcs. now rewrite Hcs.
    + left. apply get_ohlc_data_failed. unfold fetch_failed.
      now rewrite Hp.
  - left. apply get_ohlc_data_failed. unfold fetch_failed. now rewrite Hp.
Qed.

Lemma kept_rows (limit : option Z) (cs : list Kraken.candle) :
  (if Kraken.limit_applies limit
   then slice_from (- default 0 limit) cs else cs)
  = drop (length cs - kept_count limit (length cs)) cs.
Proof.
  unfold kept_count. destruct limit as [l|]; cbn [default from_option id].
  - destruct (Z.ltb_spec 0 l) as [Hpos|Hle].
    + rewrite limit_applies_pos by exact Hpos. unfold slice_from.
      destruct (Z.ltb_spec (- l) 0); [|lia]. f_equal. lia.
    + rewrite limit_applies_nonpos by exact Hle.
      now rewrite Nat.sub_diag, drop_0.
  - cbn. now rewrite Nat.sub_diag, drop_0.
Qed.

(** X6.  Whatever the client answers, [get_ohlc_data] returns a result
    for the requested pair whose candles are in ascending time order and
    whose [count] is their number; when the rows were fetched and parsed,
    the candles are exactly the kept rows (the last [limit] ones under a
    positive limit, all of them otherwise), rearranged. *)
Theorem ohlc_result_is_sorted pair interval since limit n :
  exists r n',
    get_ohlc_data pair interval since limit n = (Ok r, n')
    /\ Kraken.ohlc_symbol r = pair
    /\ ascending Kraken.time (Kraken.ohlc_data r)
    /\ Kraken.ohlc_count r = Z.of_nat (length (Kraken.ohlc_data r))
    /\ forall payload candles cs,
         Kraken.client_get_ohlc_data kraken pair
           (Kraken.interval_mapping interval) (Kraken.since_param since)
         = Ok payload ->
         payload !! pair = Some candles ->
         process_candles candles = Ok cs ->
         Kraken.ohlc_data r
         ≡ₚ drop (length cs - kept_count limit (length cs)) cs.
Proof.
  destruct (get_ohlc_data_cases pair interval since limit n)
    as [He|(payload & candles & cs & Hp & Hc & Hcs)].
  - exists (Kraken.ohlc_empty pair), n. split; [exact He|].
    split; [reflexivity|]. split; [constructor|]. split; [reflexivity|].
    intros payload candles cs Hp Hc Hcs.
    rewrite (get_ohlc_data_fetched _ _ _ _ _ _ _ _ _ _ _ _ Hp Hc Hcs) in He.
    discriminate He.
  - eexists _, _. split;
      [exact (get_ohlc_data_fetched _ _ _ _ _ _ _ _ _ _ _ _ Hp Hc Hcs)|].
    cbn [Kraken.ohlc_symbol Kraken.ohlc_data Kraken.ohlc_count].
    split; [reflexivity|]. split; [apply sort_by_sorted|].
    split; [now rewrite sort_by_length|].
    intros payload' candles' cs' Hp' Hc' Hcs'.
    assert (cs' = cs) as -> by congruence.
    rewrite sort_by_perm. now rewrite kept_rows.
Qed.

Lemma index_Ok_lt {A} (l : list A) (i : Z) (x : A) :
  0 <= i -> index l i = Ok x -> (Z.to_nat i < length l)%nat.
Proof.
  intros Hi. unfold index. destruct (Z.ltb_spec i 0); [lia|].
  destruct (Z.leb_spec 0 i); [|lia].
  destruct (Z.ltb_spec i (Z.of_nat (length l))); [lia|discriminate].
Qed.

Lemma process_candle_short fields :
  (length fields < 8)%nat ->
  exists e, process_candle (PList fields) = Raise e.
Proof.
  intros Hlen.
  destruct (process_candle (PList fields)) as [c|e] eqn:E; [|eauto].
  exfalso. unfold Kraken.process_candle, rbind in E.
  cbn [getidx] in E. inv_res E.
  match goal with
  | H : match index fields 7 with Ok _ => _ | Raise _ => _ end = Ok _ |- _ =>
      destruct (index fields 7) as [x|] eqn:H7; [|discriminate H];
      apply index_Ok_lt in H7; lia
  end.
Qed.

(** X7.  One row with fewer than 8 fields voids the whole response:
    [get_ohlc_data] returns the result with no candles and count 0, and
    does not read the clock, however many good rows there are. *)
Theorem ohlc_short_row_voids_response
    pair interval since limit n payload rows fields :
  Kraken.client_get_ohlc_data kraken pair (Kraken.interval_mapping interval)
    (Kraken.since_param since) = Ok payload ->
  payload !! pair = Some (PList rows) ->
  PList fields ∈ rows ->
  (length fields < 8)%nat ->
  get_ohlc_data pair interval since limit n
  = (Ok (Kraken.ohlc_empty pair), n).
Proof.
  intros Hp Hc Hin Hlen.
  destruct (get_ohlc_data_cases pair interval since limit n)
    as [He|(payload' & candles & cs & Hp' & Hc' & Hcs)]; [exact He|].
  exfalso. assert (candles = PList rows) as -> by congruence.
  unfold Kraken.process_candles in Hcs. cbn [iter rbind] in Hcs.
  apply mapM_Forall2 in Hcs.
  apply list_elem_of_lookup in Hin as [i Hi].
  destruct (Forall2_lookup_l _ _ _ _ _ Hcs Hi) as (c & _ & Hrow).
  destruct (process_candle_short fields Hlen) as [e He].
  rewrite He in Hrow. discriminate Hrow.
Qed.


Lemma get_ohlc_data_unparsed pair interval since limit n payload candles e :
  Kraken.client_get_ohlc_data kraken pair (Kraken.interval_mapping interval)
    (Kraken.since_param since) = Ok payload ->
  payload !! pair = Some candles ->
  process_candles candles = Raise e ->
  get_ohlc_data pair interval since limit n
  = (Ok (Kraken.ohlc_empty pair), n).
Proof.
  intros Hp Hc Hcs.
  unfold Kraken.get_ohlc_data, try_except, bind, lift, ret.
  rewrite Hp. cbv beta iota. rewrite Hc. cbv beta iota.
  unfold Kraken.process_candles in Hcs. now rewrite Hcs.
Qed.

(** X8.  An interval outside 1, 5, 15, 30, 60, 240, 1440 is queried as the
    hourly one: the call returns the candles, count and timestamp of the
    call with interval 60, under the label of the interval that was
    asked for. *)
Theorem ohlc_unrecognised_interval_is_hourly pair interval since limit n :
  interval ∉ [1; 5; 15; 30; 60; 240; 1440] ->
  exists hourly r n',
    get_ohlc_data pair 60 since limit n = (Ok hourly, n')
    /\ get_ohlc_data pair interval since limit n = (Ok r, n')
    /\ Kraken.ohlc_data r = Kraken.ohlc_data hourly
    /\ Kraken.ohlc_count r = Kraken.ohlc_count hourly
    /\ Kraken.ohlc_timestamp r = Kraken.ohlc_timestamp hourly
    /\ Kraken.ohlc_interval r
       = (_ ← Kraken.ohlc_interval hourly; Some interval).
Proof.
  intros Hout.
  assert (Hm : Kraken.interval_mapping interval = Kraken.interval_mapping 60).
  { unfold Kraken.interval_mapping at 1.
    now rewrite bool_decide_eq_false_2 by exact Hout. }
  destruct (Kraken.client_get_ohlc_data kraken pair
              (Kraken.interval_mapping 60) (Kraken.since_param since))
    as [payload|e] eqn:Hp.
  - destruct (payload !! pair) as [candles|] eqn:Hc.
    + destruct (process_candles candles) as [cs|e] eqn:Hcs.
      * eexists _, _, _.
        split; [exact (get_ohlc_data_fetched _ _ _ _ _ _ _ _ _ _ _ _
                         Hp Hc Hcs)|].
        rewrite <- Hm in Hp.
        split; [exact (get_ohlc_data_fetched _ _ _ _ _ _ _ _ _ _ _ _
                         Hp Hc Hcs)|].
        repeat split.
      * eexists _, _, _.
        split; [exact (get_ohlc_data_unparsed _ _ _ _ _ _ _ _ Hp Hc Hcs)|].
        rewrite <- Hm in Hp.
        split; [exact (get_ohlc_data_unparsed _ _ _ _ _ _ _ _ Hp Hc Hcs)|].
        repeat split.
    + eexists _, _, _. split.
      { apply get_ohlc_data_failed. unfold fetch_failed. now rewrite Hp. }
      split.
      { apply get_ohlc_data_failed. unfold fetch_failed.
        now rewrite Hm, Hp. }
      repeat split.
  - eexists _, _, _. split.
    { apply get_ohlc_data_failed. unfold fetch_failed. now rewrite Hp. }
    split.
    { apply get_ohlc_data_failed. unfold fetch_failed. now rewrite Hm, Hp. }
    repeat split.
Qed.

Lemma get_ohlc_data_limit_length pair interval since k n r n' :
  0 < k ->
  get_ohlc_data pair interval since (Some k) n = (Ok r, n') ->
  (length (Kraken.ohlc_data r) <= Z.to_nat k)%nat.
Proof.
  intros Hk H.
  destruct (get_ohlc_data_cases pair interval since (Some k) n)
    as [He|(payload & candles & cs & Hp & Hc & Hcs)].
  - rewrite He in H. injection H as <- <-. simpl. lia.
  - pose proof (get_ohlc_data_fetched str_to_float str_to_int clock kraken
                  pair interval since (Some k) n _ _ _ Hp Hc Hcs) as Hf.
    cbv zeta in Hf. rewrite kept_rows in Hf. rewrite Hf in H.
    injection H as <- <-. cbn [Kraken.ohlc_data].
    rewrite sort_by_length, length_drop. unfold kept_count.
    destruct (Z.ltb_spec 0 k); lia.
Qed.

(** X9.  The indicators of the market summary are never computed: the
    daily series is fetched with [limit=30], below the floor of 50
    candles, so [technical_indicators] is the empty dict when there are no
    daily candles and the bundle of empty lists otherwise. *)
Theorem market_summary_indicators_are_empty pair n :
  exists ticker ohlc_1h ohlc_1d order_book recent_trades ind timestamp n',
    get_market_summary pair n
    = (Ok (Kraken.Summary pair ticker ohlc_1h ohlc_1d order_book
             recent_trades ind timestamp), n')
    /\ (length (Kraken.ohlc_data ohlc_1h) <= 24)%nat
    /\ (length (Kraken.ohlc_data ohlc_1d) <= 30)%nat
    /\ ind = match Kraken.ohlc_data ohlc_1d with
             | [] => None
             | _ :: _ => Some empty_bundle
             end.
Proof.
  destruct (get_ticker_total str_to_float str_to_int clock kraken pair n)
    as (ticker & n1 & H1).
  destruct (get_ohlc_data_total str_to_float str_to_int clock kraken
              pair 60 None (Some 24) n1) as (h1 & n2 & H2).
  destruct (get_ohlc_data_total str_to_float str_to_int clock kraken
              pair 1440 None (Some 30) n2) as (d1 & n3 & H3).
  destruct (get_order_book_total str_to_float str_to_int clock kraken
              pair 5 n3) as (ob & n4 & H4).
  destruct (get_recent_trades_total str_to_float clock kraken pair 20 n4)
    as (rt & n5 & H5).
  assert (L1 := get_ohlc_data_limit_length pair 60 None 24 n1 h1 n2
                  eq_refl H2).
  assert (L2 := get_ohlc_data_limit_length pair 1440 None 30 n2 d1 n3
                  eq_refl H3).
  eexists ticker, h1, d1, ob, rt, _, _, _. split.
  { unfold Kraken.get_market_summary, try_except, bind.
    rewrite H1, H2, H3, H4, H5. reflexivity. }
  split; [exact L1|]. split; [exact L2|].
  destruct (Kraken.ohlc_data d1) as [|c cs] eqn:Hd; [reflexivity|].
  f_equal. unfold Kraken.calculate_technical_indicators.
  destruct (Z.ltb_spec (Z.of_nat (length (c :: cs))) 50) as [_|Hge];
    [reflexivity|].
  change (Z.to_nat 30) with 30%nat in L2. lia.
Qed.

(** *** Ticker *)

(** X10.  A snapshot returned by [get_ticker] names the requested pair,
    carries the clock reading of the call (one reading per snapshot), and
    when [open > 0] its derived values are [change = price - open],
    [change_percent = change / open * 100] and [spread = ask - bid]. *)
Theorem ticker_derived_values pair n snapshot n' :
  get_ticker pair n = (Ok (Some snapshot), n') ->
  n' = S n
  /\ snapshot !! "symbol"%string = Some (PStr pair)
  /\ snapshot !! "timestamp"%string = Some (PStr (clock n))
  /\ exists price open_ bid ask,
       snapshot !! "price"%string = Some (PFloat price)
       /\ snapshot !! "open"%string = Some (PFloat open_)
       /\ snapshot !! "bid"%string = Some (PFloat bid)
       /\ snapshot !! "ask"%string = Some (PFloat ask)
       /\ ((0 < open_)%Q ->
           snapshot !! "change"%string = Some (PFloat (price - open_)%Q)
           /\ snapshot !! "change_percent"%string
              = Some (PFloat ((price - open_) / open_ * 100)%Q)
           /\ snapshot !! "spread"%string = Some (PFloat (ask - bid)%Q)).
Proof.
  intros H.
  unfold Kraken.get_ticker, try_except, bind, lift, ret, Kraken.now in H.
  inv_res H.
  match type of H with
  | context [Qlt_le_dec 0 ?o] => rename o into open_
  end.
  destruct (Qlt_le_dec 0 open_) as [Hpos|Hneg]; cbv beta iota in H;
    injection H as <- <-.
  - split; [reflexivity|]. split; [reflexivity|]. split; [reflexivity|].
    eexists _, open_, _, _. repeat split; reflexivity.
  - split; [reflexivity|]. split; [reflexivity|]. split; [reflexivity|].
    eexists _, open_, _, _.
    split; [reflexivity|]. split; [reflexivity|].
    split; [reflexivity|]. split; [reflexivity|].
    intros Hpos. exfalso. exact (Qle_not_lt _ _ Hneg Hpos).
Qed.

End KrakenMore.

(** *** Trading pairs and health *)

Section MetadataFacts.
Variable str_to_float : string -> option Q.
Variable str_to_int : string -> option Z.
Variable clock : nat -> string.
Variable kraken : Kraken.client.
Variable str : pyval -> string.
Variable get_asset_pairs : res (list (string * pyval)).
Variable get_time : res pyval.
Variable api_key : option string.
Variable api_secret : option string.

Local Abbreviation format_pair := (Kraken.format_pair str).
Local Abbreviation get_trading_pairs :=
  (Kraken.get_trading_pairs str get_asset_pairs).
Local Abbreviation health_check :=
  (Kraken.health_check str_to_float str_to_int clock kraken get_time
     api_key api_secret).
Local Abbreviation keys_configured :=
  (Kraken.keys_configured api_key api_secret).

Lemma format_pair_dict name d :
  format_pair (name, PDict d)
  = Ok (if Kraken.is_usd_quote (from_option id PNone (d !! "quote"%string))
        then Some
          {| Kraken.pair_symbol := name;
             Kraken.pair_wsname :=
               from_option id (PStr name) (d !! "wsname"%string);
             Kraken.pair_base := from_option id PNone (d !! "base"%string);
             Kraken.pair_quote := from_option id PNone (d !! "quote"%string);
             Kraken.pair_display_name :=
               str (from_option id PNone (d !! "base"%string)) +:+ "/"
               +:+ str (from_option id PNone (d !! "quote"%string));
             Kraken.pair_price_decimals :=
               from_option id (PInt 5) (d !! "pair_decimals"%string);
             Kraken.pair_lot_decimals :=
               from_option id (PInt 8) (d !! "lot_decimals"%string) |}
        else None).
Proof.
  unfold Kraken.format_pair, dict_get, rbind.
  now destruct (Kraken.is_usd_quote _).
Qed.

Lemma format_pair_not_dict name v :
  (forall d, v <> PDict d) -> exists e, format_pair (name, v) = Raise e.
Proof.
  intros Hv. unfold Kraken.format_pair, dict_get, rbind.
  destruct v; eauto. exfalso. eapply Hv. reflexivity.
Qed.

Lemma get_trading_pairs_formatted items usd_pairs n :
  get_asset_pairs = Ok items ->
  mapM format_pair items = Ok usd_pairs ->
  get_trading_pairs n
  = (Ok (sort_by_str Kraken.pair_display_name (omap id usd_pairs)), n).
Proof.
  intros Hp Hm.
  unfold Kraken.get_trading_pairs, try_except, bind, lift, ret.
  now rewrite Hp, Hm.
Qed.

Lemma mapM_format_pair_dicts items :
  Forall (fun item => is_dict item.2) items ->
  exists usd_pairs, mapM format_pair items = Ok usd_pairs.
Proof.
  intros Hd. destruct (mapM format_pair items) as [ps|e] eqn:E; [eauto|].
  destruct (mapM_Raise _ _ _ E) as ([name v] & Hin & e' & He).
  rewrite Forall_forall in Hd. destruct (Hd _ Hin) as [d Hv].
  simpl in Hv. subst v. rewrite format_pair_dict in He. discriminate He.
Qed.

Lemma formatted_pairs_length items usd_pairs :
  Forall2 (fun item o => format_pair item = Ok o) items usd_pairs ->
  length (omap id usd_pairs)
  = length (filter (fun item => quoted_in_usd item.2 = true) items).
Proof.
  induction 1 as [|[name v] o items ups Hf _ IH]; [reflexivity|].
  rewrite filter_cons. cbn [omap list_omap].
  destruct v;
    try (unfold Kraken.format_pair, dict_get, rbind in Hf; discriminate Hf).
  rewrite format_pair_dict in Hf. injection Hf as <-.
  cbn [snd quoted_in_usd].
  destruct (Kraken.is_usd_quote _); cbn.
  - rewrite decide_True by reflexivity. cbn. now f_equal.
  - rewrite decide_False by discriminate. exact IH.
Qed.

(** X11.  When every asset pair is a dict, [get_trading_pairs] returns
    exactly the pairs quoted in [USD] or [ZUSD], one entry per such pair,
    each built from its own record (the pair name standing in for a
    missing [wsname]), and the list is ordered by display name; the clock
    is not read. *)
Theorem trading_pairs_are_usd_and_sorted items n :
  get_asset_pairs = Ok items ->
  Forall (fun item => is_dict item.2) items ->
  exists out,
    get_trading_pairs n = (Ok out, n)
    /\ ascending_str Kraken.pair_display_name out
    /\ length out
       = length (filter (fun item => quoted_in_usd item.2 = true) items)
    /\ (forall p, p ∈ out ->
          Kraken.is_usd_quote (Kraken.pair_quote p) = true
          /\ exists d,
               (Kraken.pair_symbol p, PDict d) ∈ items
               /\ Kraken.pair_quote p
                  = from_option id PNone (d !! "quote"%string)
               /\ Kraken.pair_base p
                  = from_option id PNone (d !! "base"%string)
               /\ Kraken.pair_wsname p
                  = from_option id (PStr (Kraken.pair_symbol p))
                      (d !! "wsname"%string)
               /\ Kraken.pair_display_name p
                  = str (Kraken.pair_base p) +:+ "/"
                    +:+ str (Kraken.pair_quote p))
    /\ (forall name v,
          (name, v) ∈ items -> quoted_in_usd v = true ->
          exists p, p ∈ out /\ Kraken.pair_symbol p = name).
Proof.
  intros Hp Hd. destruct (mapM_format_pair_dicts items Hd) as [ups Hm].
  exists (sort_by_str Kraken.pair_display_name (omap id ups)).
  split; [now apply (get_trading_pairs_formatted items)|].
  split; [apply sort_by_str_sorted|].
  apply mapM_Forall2 in Hm.
  split.
  { rewrite (Permutation_length (sort_by_str_perm _ _)).
    now apply formatted_pairs_length. }
  split.
  - intros p Hin. rewrite sort_by_str_perm in Hin.
    apply list_elem_of_omap in Hin as (o & Ho & Hid). simpl in Hid.
    subst o. apply list_elem_of_lookup in Ho as [i Hi].
    destruct (Forall2_lookup_r _ _ _ _ _ Hm Hi) as ([name v] & Hitem & Hf).
    rewrite Forall_forall in Hd.
    destruct (Hd (name, v)) as [d Hv];
      [apply list_elem_of_lookup; eauto|].
    simpl in Hv. subst v. rewrite format_pair_dict in Hf.
    destruct (Kraken.is_usd_quote _) eqn:Hq; [|discriminate Hf].
    injection Hf as <-. cbn. split; [exact Hq|].
    exists d. split; [apply list_elem_of_lookup; eauto|]. repeat split.
  - intros name v Hin Hq. destruct v; try discriminate Hq.
    apply list_elem_of_lookup in Hin as [i Hi].
    destruct (Forall2_lookup_l _ _ _ _ _ Hm Hi) as (o & Ho & Hf).
    rewrite format_pair_dict in Hf. cbn [quoted_in_usd] in Hq.
    rewrite Hq in Hf. injection Hf as <-.
    match type of Ho with
    | _ = Some (Some ?p) => exists p
    end.
    split; [|reflexivity].
    rewrite sort_by_str_perm. apply list_elem_of_omap.
    eexists. split; [apply list_elem_of_lookup; eauto|reflexivity].
Qed.

(** X12.  [get_trading_pairs] answers with the empty list, never with an
    error, when the client raises and also when a single asset-pair record
    is no dict, however many good records there are. *)
Theorem trading_pairs_empty_on_failure n :
  (forall e, get_asset_pairs = Raise e -> get_trading_pairs n = (Ok [], n))
  /\ (forall items name v,
        get_asset_pairs = Ok items ->
        (name, v) ∈ items -> ~ is_dict v ->
        get_trading_pairs n = (Ok [], n)).
Proof.
  split.
  - intros e He.
    unfold Kraken.get_trading_pairs, try_except, bind, lift, ret.
    now rewrite He.
  - intros items name v Hp Hin Hv.
    unfold Kraken.get_trading_pairs, try_except, bind, lift, ret.
    rewrite Hp. cbv beta iota.
    destruct (mapM format_pair items) as [ups|e] eqn:Hm; [|reflexivity].
    exfalso. apply mapM_Forall2 in Hm.
    apply list_elem_of_lookup in Hin as [i Hi].
    destruct (Forall2_lookup_l _ _ _ _ _ Hm Hi) as (o & _ & Hf).
    destruct (format_pair_not_dict name v) as [e He];
      [intros d ->; apply Hv; now exists d|].
    rewrite He in Hf. discriminate Hf.
Qed.

(** X13.  [health_check] reports [unhealthy] exactly when the server-time
    call raises; a ticker that cannot be fetched only clears
    [api_accessible].  [private_data] repeats [api_keys_configured], which
    holds exactly when both the key and the secret are set and not
    empty. *)
Theorem health_check_status n :
  (forall e, get_time = Raise e ->
     health_check n = (Ok (Kraken.Unhealthy e (clock n)), S n))
  /\ (forall t, get_time = Ok t ->
        exists ticker n1,
          Kraken.get_ticker str_to_float str_to_int clock kraken
            "XXBTZUSD" n = (Ok ticker, n1)
          /\ health_check n
             = (Ok (Kraken.Healthy t (bool_decide (ticker <> None))
                      (clock n1) keys_configured
                      {| Kraken.public_data := true;
                         Kraken.private_data := keys_configured;
                         Kraken.technical_indicators_feature := true |}),
                S n1))
  /\ (keys_configured = true
      <-> exists k s, api_key = Some k /\ api_secret = Some s
                      /\ k <> ""%string /\ s <> ""%string).
Proof.
  split; [|split].
  - intros e He.
    unfold Kraken.health_check, try_except, bind, lift, ret, Kraken.now.
    now rewrite He.
  - intros t Ht.
    destruct (get_ticker_total str_to_float str_to_int clock kraken
                "XXBTZUSD" n) as (ticker & n1 & H1).
    exists ticker, n1. split; [exact H1|].
    unfold Kraken.health_check, try_except, bind, lift, ret, Kraken.now.
    rewrite Ht. cbv beta iota. rewrite H1. cbv beta iota.
    now destruct ticker.
  - unfold Kraken.keys_configured.
    destruct api_key as [k|], api_secret as [s|].
    + rewrite andb_true_iff, !negb_true_iff, !String.eqb_neq.
      split.
      * intros [Hk Hs]. now exists k, s.
      * intros (k' & s' & [= <-] & [= <-] & Hk & Hs). now split.
    + split; [discriminate|]. now intros (k' & s' & _ & [=] & _).
    + split; [discriminate|]. now intros (k' & s' & [=] & _).
    + split; [discriminate|]. now intros (k' & s' & [=] & _).
Qed.

End MetadataFacts.


(** ** More on the stock service *)

Section CacheKeyFacts.

Lemma colon_split (s s' r r' : string) :
  has_colon s = false -> has_colon s' = false ->
  s +:+ ":" +:+ r = s' +:+ ":" +:+ r' -> s = s' /\ r = r'.
Proof.
  revert s'. induction s as [|c s IH]; intros [|c' s'] Hs Hs' H; cbn in *.
  - injection H as H. now split.
  - injection H as Hc _. subst c'. discriminate Hs'.
  - injection H as Hc _. subst c. discriminate Hs.
  - injection H as Hc H. subst c'.
    apply orb_false_iff in Hs as [_ Hs]. apply orb_false_iff in Hs' as [_ Hs'].
    destruct (IH s' Hs Hs' H) as [-> ->]. now split.
Qed.

Lemma string_app_assoc (a b c : string) :
  (a +:+ b) +:+ c = a +:+ b +:+ c.
Proof.
  induction a as [|x a IH]; [reflexivity|].
  change (String x ((a +:+ b) +:+ c) = String x (a +:+ b +:+ c)).
  now rewrite IH.
Qed.

(** X14.  Two requests share a cache key only if they agree on symbol,
    period and interval, provided symbol and period hold no colon; a colon
    in the symbol lets two different requests share one key. *)
Theorem cache_key_injective_without_colon :
  (forall symbol period interval symbol' period' interval',
     has_colon symbol = false -> has_colon period = false ->
     has_colon symbol' = false -> has_colon period' = false ->
     Stock.cache_key symbol period interval
     = Stock.cache_key symbol' period' interval' ->
     symbol = symbol' /\ period = period' /\ interval = interval')
  /\ (forall a b period interval,
        Stock.cache_key (a +:+ ":" +:+ b) period interval
        = Stock.cache_key a (b +:+ ":" +:+ period) interval).
Proof.
  split.
  - intros symbol period interval symbol' period' interval' Hs Hp Hs' Hp' H.
    unfold Stock.cache_key in H. cbn in H. injection H as H.
    destruct (colon_split _ _ _ _ Hs Hs' H) as [-> H'].
    destruct (colon_split _ _ _ _ Hp Hp' H') as [-> ->]. now repeat split.
  - intros a b period interval. unfold Stock.cache_key.
    now rewrite !string_app_assoc.
Qed.

End CacheKeyFacts.

Section StockMore.
Variable S : Type.
Variable redis_client : option (Stock.redis S).
Variable json_dumps : pyval -> res string.
Variable json_loads : string -> res pyval.
Variable clock : nat -> string.
Variable yf_history : string -> string -> string -> res (list Stock.bar).

Local Abbreviation get_cached_data :=
  (Stock.get_cached_data S redis_client json_loads).
Local Abbreviation set_cached_data :=
  (Stock.set_cached_data S redis_client json_dumps).
Local Abbreviation get_history :=
  (Stock.get_history S redis_client json_dumps json_loads clock yf_history).
Local Abbreviation get_technical_indicators :=
  (Stock.get_technical_indicators S clock yf_history).

Lemma get_cached_data_hit client key st text s' v :
  redis_client = Some client ->
  Stock.redis_get client key (fst st) = (Ok (Some text), s') ->
  text <> ""%string ->
  json_loads text = Ok v ->
  get_cached_data key st = (Ok v, (s', snd st)).
Proof.
  intros Hc Hg Ht Hl. unfold Stock.get_cached_data. rewrite Hc.
  unfold try_except, bind, Stock.on_store, lift, ret. rewrite Hg.
  cbv beta iota. apply String.eqb_neq in Ht. rewrite Ht. cbn [negb].
  now rewrite Hl.
Qed.

Lemma set_cached_data_stored client key data ttl st text s' :
  redis_client = Some client ->
  json_dumps data = Ok text ->
  Stock.redis_setex client key ttl text (fst st) = (Ok tt, s') ->
  set_cached_data key data ttl st = (Ok tt, (s', snd st)).
Proof.
  intros Hc Hd Hs. unfold Stock.set_cached_data. rewrite Hc.
  unfold try_except, bind, Stock.on_store, lift, ret. rewrite Hd.
  cbv beta iota. now rewrite Hs.
Qed.

Lemma history_response_truthy symbol period interval hist timestamp :
  truthy (Stock.history_response symbol period interval hist timestamp)
  = true.
Proof.
  unfold Stock.history_response, truthy. apply negb_true_iff.
  apply bool_decide_eq_false_2. rewrite dom_insert_L.
  intros H. apply (elem_of_empty (C := gset string) "timestamp"%string).
  rewrite <- H. apply elem_of_union_l, elem_of_singleton. reflexivity.
Qed.

(** X15.  A truthy value found in the cache is the whole answer of
    [get_history]: it is returned as stored, timestamp included, without
    asking for the history, reading the clock or writing to the cache. *)
Theorem history_served_from_cache
    symbol period_arg interval_arg st client text s' v :
  let key := Stock.cache_key symbol (default "1y"%string period_arg)
               (default "1d"%string interval_arg) in
  redis_client = Some client ->
  Stock.redis_get client key (fst st) = (Ok (Some text), s') ->
  text <> ""%string ->
  json_loads text = Ok v ->
  truthy v = true ->
  get_history symbol period_arg interval_arg st
  = (Ok (Stock.Reply v), (s', snd st)).
Proof.
  intros key Hc Hg Ht Hl Hv.
  unfold Stock.get_history, try_except, bind. fold key.
  rewrite (get_cached_data_hit client key st text s' v Hc Hg Ht Hl).
  now rewrite Hv.
Qed.

Lemma get_history_stores symbol period_arg interval_arg st v st1 hist
    client text s2 :
  let period := default "1y"%string period_arg in
  let interval := default "1d"%string interval_arg in
  let key := Stock.cache_key symbol period interval in
  let response :=
    Stock.history_response symbol period interval hist (clock (snd st1)) in
  let ttl :=
    if bool_decide (interval ∈ ["1m"; "2m"; "5m"]%string) then 60 else 300 in
  get_cached_data key st = (Ok v, st1) ->
  truthy v = false ->
  yf_history symbol period interval = Ok hist ->
  hist <> [] ->
  redis_client = Some client ->
  json_dumps response = Ok text ->
  Stock.redis_setex client key ttl text (fst st1) = (Ok tt, s2) ->
  get_history symbol period_arg interval_arg st
  = (Ok (Stock.Reply response), (s2, Datatypes.S (snd st1))).
Proof.
  intros period interval key response ttl Hread Hv Hyf Hne Hc Hd Hs.
  unfold Stock.get_history, try_except, bind.
  fold period interval key. rewrite Hread, Hv.
  cbv beta iota. unfold lift at 1. rewrite Hyf.
  destruct hist as [|b hist]; [contradiction|]. cbv beta iota.
  unfold Stock.now at 1. cbv beta iota. cbn [fst snd].
  fold response ttl.
  rewrite (set_cached_data_stored client key response ttl
             (fst st1, Datatypes.S (snd st1)) text s2 Hc Hd Hs).
  reflexivity.
Qed.

(** X16.  After a miss, [get_history] stores its answer under the
    request's key, for 60 seconds when the interval is [1m], [2m] or [5m]
    and for 300 otherwise; if the store gives that text back and it
    decodes to the answer, the next call for the same request returns the
    first call's answer, with the first call's timestamp, and reads
    neither the history nor the clock. *)
Theorem history_second_call_repeats_first
    symbol period_arg interval_arg st v st1 hist client text s2 s3 :
  let period := default "1y"%string period_arg in
  let interval := default "1d"%string interval_arg in
  let key := Stock.cache_key symbol period interval in
  let response :=
    Stock.history_response symbol period interval hist (clock (snd st1)) in
  let ttl :=
    if bool_decide (interval ∈ ["1m"; "2m"; "5m"]%string) then 60 else 300 in
  get_cached_data key st = (Ok v, st1) ->
  truthy v = false ->
  yf_history symbol period interval = Ok hist ->
  hist <> [] ->
  redis_client = Some client ->
  json_dumps response = Ok text ->
  text <> ""%string ->
  Stock.redis_setex client key ttl text (fst st1) = (Ok tt, s2) ->
  Stock.redis_get client key s2 = (Ok (Some text), s3) ->
  json_loads text = Ok response ->
  let after_first := (s2, Datatypes.S (snd st1)) in
  get_history symbol period_arg interval_arg st
  = (Ok (Stock.Reply response), after_first)
  /\ get_history symbol period_arg interval_arg after_first
     = (Ok (Stock.Reply response), (s3, Datatypes.S (snd st1))).
Proof.
  intros period interval key response ttl Hread Hv Hyf Hne Hc Hd Ht Hs Hg Hl
    after_first.
  split.
  - exact (get_history_stores symbol period_arg interval_arg st v st1 hist
             client text s2 Hread Hv Hyf Hne Hc Hd Hs).
  - unfold Stock.get_history, try_except, bind. fold period interval key.
    rewrite (get_cached_data_hit client key after_first text s3 response
               Hc Hg Ht Hl).
    fold response. unfold response at 1.
    now rewrite history_response_truthy.
Qed.

(** X17.  After a miss, a history that is empty or cannot be fetched is
    answered with 404 or 500 and nothing is written to the cache: the
    state is the one the cache read left, the clock unread. *)
Theorem history_failure_writes_nothing
    symbol period_arg interval_arg st v st1 :
  let period := default "1y"%string period_arg in
  let interval := default "1d"%string interval_arg in
  Stock.get_cached_data S redis_client json_loads
    (Stock.cache_key symbol period interval) st = (Ok v, st1) ->
  truthy v = false ->
  (yf_history symbol period interval = Ok [] ->
   get_history symbol period_arg interval_arg st
   = (Ok (Stock.NotFound "No data found for symbol"), st1))
  /\ (forall e, yf_history symbol period interval = Raise e ->
        get_history symbol period_arg interval_arg st
        = (Ok (Stock.ServerError e), st1)).
Proof.
  intros period interval Hread Hv. split.
  - intros Hyf. unfold Stock.get_history, try_except, bind.
    fold period interval. rewrite Hread, Hv. cbv beta iota.
    unfold lift at 1. now rewrite Hyf.
  - intros e Hyf. unfold Stock.get_history, try_except, bind.
    fold period interval. rewrite Hread, Hv. cbv beta iota.
    unfold lift at 1. now rewrite Hyf.
Qed.

End StockMore.


Section TechnicalFacts.
Variable S : Type.
Variable clock : nat -> string.
Variable yf_history : string -> string -> string -> res (list Stock.bar).

Local Abbreviation get_technical_indicators :=
  (Stock.get_technical_indicators S clock yf_history).

Lemma technical_rows_lookup (hist : list Stock.bar) :
  let close_prices := Stock.bar_close <$> hist in
  let macd_line :=
    sub_series (ewm_mean 12 close_prices) (ewm_mean 26 close_prices) in
  exists rows,
    Stock.technical_rows hist = Ok rows
    /\ length rows = length hist
    /\ forall i row, rows !! i = Some row ->
         exists b m sg r,
           hist !! i = Some b
           /\ macd_line !! i = Some m
           /\ ewm_mean 9 macd_line !! i = Some sg
           /\ Stock.rsi_series close_prices !! i = Some r
           /\ Stock.row_time row = Stock.bar_time b
           /\ Stock.row_close row = Stock.bar_close b
           /\ Stock.row_macd row = Some (Num m)
           /\ Stock.row_signal row = Some (Num sg)
           /\ Stock.row_rsi row = Stock.null_if_na r.
Proof.
  intros close_prices macd_line. unfold Stock.technical_rows.
  fold close_prices. fold macd_line.
  set (sma_20 := rolling_mean 20 (Num <$> close_prices)).
  set (sma_50 := rolling_mean 50 (Num <$> close_prices)).
  set (signal_line := ewm_mean 9 macd_line).
  set (rsi := Stock.rsi_series close_prices).
  assert (Hlen : length close_prices = length hist)
    by (unfold close_prices; apply length_fmap).
  assert (H20 : length sma_20 = length hist)
    by (unfold sma_20; now rewrite rolling_mean_length, length_fmap).
  assert (H50 : length sma_50 = length hist)
    by (unfold sma_50; now rewrite rolling_mean_length, length_fmap).
  assert (Hm : length macd_line = length hist)
    by (unfold macd_line; rewrite sub_series_length, !ewm_mean_length; lia).
  assert (Hs : length signal_line = length hist)
    by (unfold signal_line; now rewrite ewm_mean_length).
  assert (Hr : length rsi = length hist)
    by (unfold rsi; now rewrite stock_rsi_length).
  match goal with
  | |- context [mapM ?g (imap pair hist)] =>
      destruct (mapM_imap_lookup g hist pair) as (rows & Hrows & Hl & Hi)
  end.
  { intros i b Hb. apply lookup_lt_Some in Hb.
    destruct (iloc_lt sma_20 i) as (s20 & -> & _); [lia|].
    destruct (iloc_lt sma_50 i) as (s50 & -> & _); [lia|].
    destruct (iloc_lt macd_line i) as (m & -> & _); [lia|].
    destruct (iloc_lt signal_line i) as (sg & -> & _); [lia|].
    destruct (iloc_lt rsi i) as (r & -> & _); [lia|].
    simpl. eauto. }
  exists rows. split; [exact Hrows|]. split; [exact Hl|].
  intros i row Hrow. destruct (Hi i row Hrow) as (b & Hb & Hg).
  pose proof (lookup_lt_Some _ _ _ Hb) as Hlt.
  destruct (iloc_lt sma_20 i) as (s20 & E20 & L20); [lia|].
  destruct (iloc_lt sma_50 i) as (s50 & E50 & L50); [lia|].
  destruct (iloc_lt macd_line i) as (m & Em & Lm); [lia|].
  destruct (iloc_lt signal_line i) as (sg & Esg & Lsg); [lia|].
  destruct (iloc_lt rsi i) as (r & Er & Lr); [lia|].
  rewrite E20, E50, Em, Esg, Er in Hg. simpl in Hg. injection Hg as <-.
  exists b, m, sg, r. simpl. repeat split; assumption.
Qed.

(** X18.  For a history that is not empty the technical endpoint answers
    200 with one row per bar, in order, carrying the bar's time and close;
    [macd] and [signal] are never null, [macd] being EMA(12) - EMA(26) of
    the closes at that bar; [rsi] is null in the first 13 rows and
    otherwise null or between 0 and 100.  The endpoint reads the clock
    once and leaves the cache alone.  An empty history gives 404, a
    failing fetch 500. *)
Theorem technical_endpoint_rows symbol period_arg st :
  let period := default "6mo"%string period_arg in
  (forall hist,
     yf_history symbol period "1d" = Ok hist -> hist <> [] ->
     exists rows,
       get_technical_indicators symbol period_arg st
       = (Ok (Stock.Reply {| Stock.tech_symbol := upper symbol;
                             Stock.tech_data := rows;
                             Stock.tech_timestamp := clock (snd st) |}),
          (fst st, Datatypes.S (snd st)))
       /\ length rows = length hist
       /\ forall i row, rows !! i = Some row ->
            exists b e12 e26 sg,
              hist !! i = Some b
              /\ Stock.row_time row = Stock.bar_time b
              /\ Stock.row_close row = Stock.bar_close b
              /\ ewm_mean 12 (Stock.bar_close <$> hist) !! i = Some e12
              /\ ewm_mean 26 (Stock.bar_close <$> hist) !! i = Some e26
              /\ Stock.row_macd row = Some (Num (e12 - e26)%Q)
              /\ Stock.row_signal row = Some (Num sg)
              /\ ((i < 13)%nat -> Stock.row_rsi row = None)
              /\ (forall c, Stock.row_rsi row = Some c ->
                    cell_within 0 100 c))
  /\ (yf_history symbol period "1d" = Ok [] ->
      get_technical_indicators symbol period_arg st
      = (Ok (Stock.NotFound "No data found"), st))
  /\ (forall e, yf_history symbol period "1d" = Raise e ->
        get_technical_indicators symbol period_arg st
        = (Ok (Stock.ServerError e), st)).
Proof.
  intros period. split; [|split].
  - intros hist Hyf Hne.
    destruct (technical_rows_lookup hist) as (rows & Hrows & Hlen & Hrow).
    exists rows. split; [|split; [exact Hlen|]].
    + unfold Stock.get_technical_indicators, try_except, bind.
      fold period. unfold lift at 1. rewrite Hyf.
      destruct hist as [|b hist]; [contradiction|]. cbv beta iota.
      unfold lift. rewrite Hrows. reflexivity.
    + intros i row Hi.
      destruct (Hrow i row Hi)
        as (b & m & sg & r & Hb & Hm & Hsg & Hr & Ht & Hc & Hmacd & Hsig
            & Hrsi).
      unfold sub_series in Hm. apply lookup_zip_with_Some in Hm
        as (e12 & e26 & -> & H12 & H26).
      exists b, e12, e26, sg.
      repeat (split; [assumption|]).
      destruct (rsi_cell_range (Stock.bar_close <$> hist) i r Hr)
        as [Hnan Hrange].
      rewrite Hrsi. split.
      * intros Hi13. now rewrite (Hnan Hi13).
      * intros c Hcell. unfold Stock.null_if_na in Hcell.
        destruct (isna r); [discriminate|]. now injection Hcell as <-.
  - intros Hyf. unfold Stock.get_technical_indicators, try_except, bind.
    fold period. unfold lift at 1. rewrite Hyf. destruct st. reflexivity.
  - intros e Hyf. unfold Stock.get_technical_indicators, try_except, bind.
    fold period. unfold lift at 1. rewrite Hyf. destruct st. reflexivity.
Qed.

End TechnicalFacts.

Section SearchFacts.
Variable str_upper : string -> string.

Local Abbreviation search_stocks := (Stock.search_stocks str_upper).
Local Abbreviation matches := (Stock.matches str_upper).

Lemma upper_ascii_idemp c : upper_ascii (upper_ascii c) = upper_ascii c.
Proof. destruct c as [[] [] [] [] [] [] [] []]; reflexivity. Qed.

Lemma upper_idemp s : upper (upper s) = upper s.
Proof.
  induction s as [|c s IH]; simpl; [reflexivity|].
  now rewrite upper_ascii_idemp, IH.
Qed.

Lemma upper_ascii_is_ascii c :
  (nat_of_ascii c <? 128)%nat = true ->
  (nat_of_ascii (upper_ascii c) <? 128)%nat = true.
Proof.
  destruct c as [[] [] [] [] [] [] [] []]; intros H;
    solve [reflexivity | discriminate H].
Qed.

Lemma upper_is_ascii s : is_ascii s = true -> is_ascii (upper s) = true.
Proof.
  induction s as [|c s IH]; [reflexivity|].
  cbn [is_ascii upper]. rewrite !andb_true_iff. intros [Hc Hs].
  split; [now apply upper_ascii_is_ascii|now apply IH].
Qed.

Lemma ascii_not_continuation c :
  (nat_of_ascii c <? 128)%nat = true -> is_continuation c = false.
Proof.
  destruct c as [[] [] [] [] [] [] [] []]; intros H;
    solve [reflexivity | discriminate H].
Qed.

Lemma len_str_ascii s : is_ascii s = true -> len_str s = String.length s.
Proof.
  induction s as [|c s IH]; [reflexivity|].
  cbn [is_ascii len_str String.length]. rewrite andb_true_iff.
  intros [Hc Hs]. rewrite (ascii_not_continuation c Hc), (IH Hs).
  reflexivity.
Qed.

Lemma upper_length s : String.length (upper s) = String.length s.
Proof. induction s as [|c s IH]; simpl; [reflexivity|]. now rewrite IH. Qed.


End SearchFacts.


(** ** The routes of the crypto server *)

Section RouteFacts.
Variable str_to_float : string -> option Q.
Variable str_to_int : string -> option Z.
Variable clock : nat -> string.

Local Abbreviation arg_int := (Server.arg_int str_to_int).
Local Abbreviation get_crypto_ticker :=
  (Server.get_crypto_ticker str_to_float str_to_int clock).
Local Abbreviation get_crypto_ohlc :=
  (Server.get_crypto_ohlc str_to_float str_to_int clock).
Local Abbreviation get_crypto_trades :=
  (Server.get_crypto_trades str_to_float str_to_int clock).
Local Abbreviation get_crypto_indicators :=
  (Server.get_crypto_indicators str_to_float str_to_int clock).

Lemma calculate_technical_indicators_short data :
  (length data < 50)%nat ->
  Kraken.calculate_technical_indicators data = empty_bundle.
Proof.
  intros H. unfold Kraken.calculate_technical_indicators.
  destruct (Z.ltb_spec (Z.of_nat (length data)) 50); [reflexivity|lia].
Qed.

Lemma get_crypto_indicators_body kraken pair args n r n1 :
  let interval := default 1440 (arg_int args "interval" (Some 1440)) in
  Kraken.get_ohlc_data str_to_float str_to_int clock kraken pair interval
    None (arg_int args "limit" (Some 100)) n = (Ok r, n1) ->
  get_crypto_indicators (Some kraken) pair args n
  = (Ok (Server.Json
           {| Server.body_symbol := pair;
              Server.body_indicators :=
                Kraken.calculate_technical_indicators (Kraken.ohlc_data r);
              Server.body_interval := interval;
              Server.body_timestamp := clock n1 |}), S n1).
Proof.
  intros interval H.
  unfold Server.get_crypto_indicators, try_except, bind. fold interval.
  rewrite H. reflexivity.
Qed.

(** X20.  Without a provider every crypto route answers 503 and reads
    nothing.  With one, no route answers 500: the OHLC and indicators
    routes always answer 200, the ticker and trades routes 200 or 404. *)
Theorem crypto_routes_never_answer_500 kraken_provider pair args n :
  match kraken_provider with
  | None =>
      get_crypto_ticker None pair n = (Ok Server.Unavailable, n)
      /\ get_crypto_ohlc None pair args n = (Ok Server.Unavailable, n)
      /\ get_crypto_trades None pair args n = (Ok Server.Unavailable, n)
      /\ get_crypto_indicators None pair args n = (Ok Server.Unavailable, n)
  | Some kraken =>
      (exists r n',
         get_crypto_ticker (Some kraken) pair n = (Ok r, n')
         /\ ((exists body, r = Server.Json body)
             \/ r = Server.NotFound
                      ("Could not retrieve ticker for " +:+ pair)))
      /\ (exists body n',
            get_crypto_ohlc (Some kraken) pair args n
            = (Ok (Server.Json body), n'))
      /\ (exists r n',
            get_crypto_trades (Some kraken) pair args n = (Ok r, n')
            /\ ((exists body, r = Server.Json body)
                \/ r = Server.NotFound
                         ("Could not retrieve trades for " +:+ pair)))
      /\ (exists body n',
            get_crypto_indicators (Some kraken) pair args n
            = (Ok (Server.Json body), n'))
  end.
Proof.
  destruct kraken_provider as [kraken|]; [|repeat split].
  split; [|split; [|split]].
  - destruct (get_ticker_total str_to_float str_to_int clock kraken pair n)
      as (t & n1 & H).
    unfold Server.get_crypto_ticker, try_except, bind. rewrite H.
    destruct t as [t|]; [destruct (truthy (PDict t))|]; unfold ret; eauto 6.
  - unfold Server.get_crypto_ohlc, try_except, bind.
    match goal with
    | |- context [Kraken.get_ohlc_data ?a ?b ?c ?d ?e ?f ?g ?h ?i] =>
        destruct (get_ohlc_data_total a b c d e f g h i) as (r & n1 & ->)
    end.
    unfold ret. eauto.
  - unfold Server.get_crypto_trades, try_except, bind.
    match goal with
    | |- context [Kraken.get_recent_trades ?a ?b ?c ?d ?e ?f] =>
        destruct (get_recent_trades_total a b c d e f) as (r & n1 & ->)
    end.
    destruct r; unfold ret; eauto 6.
  - destruct (get_ohlc_data_total str_to_float str_to_int clock kraken pair
                (default 1440 (arg_int args "interval" (Some 1440))) None
                (arg_int args "limit" (Some 100)) n) as (r & n1 & H).
    rewrite (get_crypto_indicators_body _ _ _ _ _ _ H). eauto.
Qed.

(** X21.  The indicators route computes on what [get_ohlc_data] returned
    for the requested interval (daily when none is given) and limit (100
    when none is given), and labels its answer with the requested
    interval; with fewer than 50 candles, and so for every limit from 1
    to 49, the indicators are the bundle of empty lists. *)
Theorem indicators_route_needs_50_candles kraken pair args n :
  let interval := default 1440 (arg_int args "interval" (Some 1440)) in
  let limit := arg_int args "limit" (Some 100) in
  (args !! "limit"%string = None -> limit = Some 100)
  /\ exists r n1,
       Kraken.get_ohlc_data str_to_float str_to_int clock kraken pair
         interval None limit n = (Ok r, n1)
       /\ get_crypto_indicators (Some kraken) pair args n
          = (Ok (Server.Json
                   {| Server.body_symbol := pair;
                      Server.body_indicators :=
                        Kraken.calculate_technical_indicators
                          (Kraken.ohlc_data r);
                      Server.body_interval := interval;
                      Server.body_timestamp := clock n1 |}), S n1)
       /\ ((length (Kraken.ohlc_data r) < 50)%nat ->
           Kraken.calculate_technical_indicators (Kraken.ohlc_data r)
           = empty_bundle)
       /\ (forall k, limit = Some k -> 0 < k < 50 ->
             Kraken.calculate_technical_indicators (Kraken.ohlc_data r)
             = empty_bundle).
Proof.
  intros interval limit. split.
  { intros Hl. unfold limit, Server.arg_int. now rewrite Hl. }
  destruct (get_ohlc_data_total str_to_float str_to_int clock kraken pair
              interval None limit n) as (r & n1 & H).
  exists r, n1. split; [exact H|].
  split; [exact (get_crypto_indicators_body _ _ _ _ _ _ H)|].
  split; [apply calculate_technical_indicators_short|].
  intros k Hk Hrange. apply calculate_technical_indicators_short.
  rewrite Hk in H.
  pose proof (get_ohlc_data_limit_length str_to_float str_to_int clock
                kraken pair interval None k n r n1 (proj1 Hrange) H).
  lia.
Qed.

(** X22.  When the exchange answers nothing for a pair, the ticker and
    trades routes say 404 while the OHLC route says 200 with no candles
    and the indicators route 200 with the bundle of empty lists. *)
Theorem crypto_routes_on_upstream_failure kraken pair args n :
  fetch_failed (Kraken.get_pair_ticker kraken pair) pair ->
  (forall interval since,
     fetch_failed (Kraken.client_get_ohlc_data kraken pair interval since)
       pair) ->
  fetch_failed (Kraken.client_get_recent_trades kraken pair) pair ->
  get_crypto_ticker (Some kraken) pair n
  = (Ok (Server.NotFound ("Could not retrieve ticker for " +:+ pair)), n)
  /\ get_crypto_trades (Some kraken) pair args n
     = (Ok (Server.NotFound ("Could not retrieve trades for " +:+ pair)), n)
  /\ get_crypto_ohlc (Some kraken) pair args n
     = (Ok (Server.Json (Kraken.ohlc_empty pair)), n)
  /\ get_crypto_indicators (Some kraken) pair args n
     = (Ok (Server.Json
              {| Server.body_symbol := pair;
                 Server.body_indicators := empty_bundle;
                 Server.body_interval :=
                   default 1440 (arg_int args "interval" (Some 1440));
                 Server.body_timestamp := clock n |}), S n).
Proof.
  intros Ht Ho Hr. split; [|split; [|split]].
  - unfold Server.get_crypto_ticker, try_except, bind.
    now rewrite (get_ticker_failed _ _ _ _ _ _ Ht).
  - unfold Server.get_crypto_trades, try_except, bind.
    now rewrite (get_recent_trades_failed _ _ _ _ _ _ Hr).
  - unfold Server.get_crypto_ohlc, try_except, bind.
    now rewrite (get_ohlc_data_failed _ _ _ _ _ _ _ _ _ (Ho _ _)).
  - rewrite (get_crypto_indicators_body kraken pair args n
               (Kraken.ohlc_empty pair) n); [reflexivity|].
    apply get_ohlc_data_failed, Ho.
Qed.

End RouteFacts.


(** ** Further properties at concrete inputs *)

Section MoreInstances.
Import Examples.
Local Open Scope Q_scope.

(** Three asks and two bids, depth 2. *)
Lemma order_book_keeps_top_levels_witness :
  match
    fst (Kraken.get_order_book decimal_to_float decimal_to_int clock
           (with_book book_entry) btc 2%Z 0%nat)
  with
  | Ok (Some r) =>
      Forall2 (fun row level =>
                 Kraken.format_level decimal_to_float decimal_to_int row
                 = Ok level)
        (take (head_count 2 (length ask_rows)) ask_rows) (Kraken.book_asks r)
      /\ Forall2 (fun row level =>
                    Kraken.format_level decimal_to_float decimal_to_int row
                    = Ok level)
           (take (head_count 2 (length bid_rows)) bid_rows)
           (Kraken.book_bids r)
  | Ok None =>
      exists row,
        row ∈ take (head_count 2 (length ask_rows)) ask_rows
              ++ take (head_count 2 (length bid_rows)) bid_rows
        /\ exists e,
             Kraken.format_level decimal_to_float decimal_to_int row
             = Raise e
  | Raise _ => False
  end.
Proof.
  exact (order_book_keeps_top_levels decimal_to_float decimal_to_int clock
           (with_book book_entry) btc 2%Z 0%nat _ book_entry ask_rows
           bid_rows eq_refl eq_refl eq_refl eq_refl).
Defined.

(** A row of one field between two good rows. *)
Lemma ohlc_short_row_voids_response_witness :
  Kraken.get_ohlc_data decimal_to_float decimal_to_int clock
    (with_ohlc rows_with_short) btc 60%Z None None 0%nat
  = (Ok (Kraken.ohlc_empty btc), 0%nat).
Proof.
  apply (ohlc_short_row_voids_response decimal_to_float decimal_to_int clock
           (with_ohlc rows_with_short) btc 60%Z None None 0%nat
           (<[btc := PList rows_with_short]> ∅) rows_with_short
           [PInt 2000]).
  - reflexivity.
  - reflexivity.
  - unfold rows_with_short. rewrite !elem_of_cons. tauto.
  - simpl. lia.
Defined.

(** An interval of 7 minutes. *)
Lemma ohlc_unrecognised_interval_witness :
  exists hourly r n',
    Kraken.get_ohlc_data decimal_to_float decimal_to_int clock
      (with_ohlc rows_ascending) btc 60%Z None None 0%nat = (Ok hourly, n')
    /\ Kraken.get_ohlc_data decimal_to_float decimal_to_int clock
         (with_ohlc rows_ascending) btc 7%Z None None 0%nat = (Ok r, n')
    /\ Kraken.ohlc_data r = Kraken.ohlc_data hourly.
Proof.
  assert (Hout : (7 ∉ [1; 5; 15; 30; 60; 240; 1440])%Z).
  { rewrite !not_elem_of_cons. repeat split; try discriminate.
    apply not_elem_of_nil. }
  destruct (ohlc_unrecognised_interval_is_hourly decimal_to_float
              decimal_to_int clock (with_ohlc rows_ascending) btc 7%Z None
              None 0%nat Hout) as (hourly & r & n' & H1 & H2 & H3 & _).
  exists hourly, r, n'. repeat split; assumption.
Defined.

(** The snapshot of the example entry: price 50005.5, open 49500. *)
Lemma ticker_derived_values_witness :
  ticker_snapshot !! "symbol"%string = Some (PStr btc)
  /\ exists price,
       ticker_snapshot !! "price"%string = Some (PFloat price)
       /\ ticker_snapshot !! "change"%string
          = Some (PFloat (price - (495000 # 10))).
Proof.
  destruct (ticker_derived_values decimal_to_float decimal_to_int clock
              (with_ticker ticker_entry) btc 0%nat ticker_snapshot 1%nat
              get_ticker_example)
    as (_ & Hs & _ & price & o & bid & ask & Hp & Ho & _ & _ & Hder).
  split; [exact Hs|]. exists price. split; [exact Hp|].
  assert (Hopen : ticker_snapshot !! "open"%string
                  = Some (PFloat (495000 # 10))) by reflexivity.
  rewrite Ho in Hopen. injection Hopen as Heq. subst o.
  assert (Hpos : 0 < 495000 # 10) by reflexivity.
  exact (proj1 (Hder Hpos)).
Defined.

(** Three pairs, two in dollars: ADA/USD comes before XETH/ZUSD. *)
Lemma trading_pairs_are_usd_and_sorted_witness :
  exists out,
    Kraken.get_trading_pairs str_of (Ok asset_pairs) 0%nat = (Ok out, 0%nat)
    /\ length out = 2%nat.
Proof.
  assert (Hd : Forall (fun item => is_dict item.2) asset_pairs).
  { unfold asset_pairs, asset_pair. repeat constructor; eexists; reflexivity. }
  destruct (trading_pairs_are_usd_and_sorted str_of (Ok asset_pairs)
              asset_pairs 0%nat eq_refl Hd) as (out & Hout & _ & Hlen & _).
  exists out. split; [exact Hout|]. rewrite Hlen. reflexivity.
Defined.

(** Fifteen rising closes: the RSI at index 14 is 100. *)
Lemma rsi_of_monotone_series_witness :
  exists q, Kraken.rsi_series rising_closes !! 14%nat = Some (Num q)
            /\ q == 100.
Proof.
  destruct (Kraken.rsi_series rising_closes !! 14%nat) as [c|] eqn:E;
    [|apply lookup_ge_None in E; rewrite kraken_rsi_length in E;
      vm_compute in E; lia].
  assert (Hi : (13 <= 14)%nat) by lia.
  destruct (rsi_of_monotone_series rising_closes 14 c Hi E) as [Hup _].
  destruct Hup as (q & -> & Hq).
  - intros i a b Ha Hb. unfold rising_closes in Ha, Hb.
    rewrite list_lookup_fmap in Ha, Hb.
    destruct (seq 0 15 !! i) as [x|] eqn:Ex; [|discriminate].
    destruct (seq 0 15 !! S i) as [y|] eqn:Ey; [|discriminate].
    apply lookup_seq in Ex as [-> _]. apply lookup_seq in Ey as [-> _].
    injection Ha as <-. injection Hb as <-.
    rewrite <- Zlt_Qlt. lia.
  - exists q. split; [reflexivity|exact Hq].
Defined.

(** Fifty rising candles closing between 1 and 50. *)
Lemma moving_averages_stay_in_price_range_witness :
  within 1 50
    (Kraken.ema_12 (Kraken.calculate_technical_indicators rising_candles))
  /\ Forall (cell_within 1 50)
       (Kraken.sma_20 (Kraken.calculate_technical_indicators rising_candles)).
Proof.
  assert (Hd : (50 <= length rising_candles)%nat) by (vm_compute; lia).
  assert (Hw : within 1 50 (Kraken.closes rising_candles)).
  { unfold within, Kraken.closes, rising_candles.
    rewrite <- list_fmap_compose. apply Forall_fmap, Forall_forall.
    intros i Hi. apply elem_of_seq in Hi.
    change (inject_Z 1 <= inject_Z (Z.of_nat (S i)) <= inject_Z 50).
    split; rewrite <- Zle_Qle; lia. }
  destruct (moving_averages_stay_in_price_range rising_candles 1 50 Hd Hw)
    as (H12 & _ & H20 & _).
  split; assumption.
Defined.

(** The slot holds the text for AAPL: it is what the endpoint answers. *)
Lemma history_served_from_cache_witness :
  Stock.get_history (option (string * string)) (Some slot_redis)
    json_const_dumps (json_const_loads (PStr "old answer")) clock
    one_bar_history "AAPL" None None
    (Some (Stock.cache_key "AAPL" "1y" "1d", "cached"%string), 0%nat)
  = (Ok (Stock.Reply (PStr "old answer")),
     (Some (Stock.cache_key "AAPL" "1y" "1d", "cached"%string), 0%nat)).
Proof.
  apply (history_served_from_cache (option (string * string))
           (Some slot_redis) json_const_dumps
           (json_const_loads (PStr "old answer")) clock one_bar_history
           "AAPL" None None
           (Some (Stock.cache_key "AAPL" "1y" "1d", "cached"%string), 0%nat)
           slot_redis "cached").
  - reflexivity.
  - reflexivity.
  - discriminate.
  - reflexivity.
  - reflexivity.
Defined.

(** An empty slot: the first call fetches and stores, the second repeats
    the first. *)
Lemma history_second_call_repeats_first_witness :
  let response :=
    Stock.history_response "AAPL" "1y" "1d" [bar_at 1700000000 100]
      (clock 0%nat) in
  let get_history :=
    Stock.get_history (option (string * string)) (Some slot_redis)
      json_const_dumps (json_const_loads response) clock one_bar_history in
  let after_first :=
    (Some (Stock.cache_key "AAPL" "1y" "1d", "cached"%string), 1%nat) in
  get_history "AAPL" None None (None, 0%nat)
  = (Ok (Stock.Reply response), after_first)
  /\ get_history "AAPL" None None after_first
     = (Ok (Stock.Reply response), after_first).
Proof.
  intros response get_history after_first.
  apply (history_second_call_repeats_first (option (string * string))
           (Some slot_redis) json_const_dumps (json_const_loads response)
           clock one_bar_history "AAPL" None None (None, 0%nat) PNone
           (None, 0%nat) [bar_at 1700000000 100] slot_redis "cached"
           (Some (Stock.cache_key "AAPL" "1y" "1d", "cached"%string))
           (Some (Stock.cache_key "AAPL" "1y" "1d", "cached"%string))).
  - reflexivity.
  - reflexivity.
  - reflexivity.
  - discriminate.
  - reflexivity.
  - reflexivity.
  - discriminate.
  - reflexivity.
  - reflexivity.
  - reflexivity.
Defined.

(** No Redis and no bars: 404, the state as it was. *)
Lemma history_failure_writes_nothing_witness :
  Stock.get_history unit None json_unused_dumps json_unused_loads clock
    (fun _ _ _ => Ok []) "AAPL" None None (tt, 0%nat)
  = (Ok (Stock.NotFound "No data found for symbol"), (tt, 0%nat)).
Proof.
  destruct (history_failure_writes_nothing unit None json_unused_dumps
              json_unused_loads clock (fun _ _ _ => Ok []) "AAPL" None None
              (tt, 0%nat) PNone (tt, 0%nat) eq_refl eq_refl) as [H _].
  exact (H eq_refl).
Defined.

(** A client that answers nothing. *)
Lemma crypto_routes_on_upstream_failure_witness :
  Server.get_crypto_ticker decimal_to_float decimal_to_int clock
    (Some offline) btc 0%nat
  = (Ok (Server.NotFound ("Could not retrieve ticker for " +:+ btc)), 0%nat)
  /\ Server.get_crypto_ohlc decimal_to_float decimal_to_int clock
       (Some offline) btc ∅ 0%nat
     = (Ok (Server.Json (Kraken.ohlc_empty btc)), 0%nat).
Proof.
  destruct (crypto_routes_on_upstream_failure decimal_to_float
              decimal_to_int clock offline btc ∅ 0%nat)
    as (H1 & _ & H3 & _).
  - exact I.
  - intros interval since. exact I.
  - exact I.
  - split; assumption.
Defined.


End MoreInstances.
